(** * Price-recommendation engine of the reselling app

    A shallow embedding of [webapp/price_scraper.py]: the market statistics
    aggregator ([get_real_market_prices]), the retail-based estimator
    ([estimate_from_retail]), the fee model ([get_platform_fees],
    [calculate_net_profit]) and the recommendation engine
    ([generate_price_recommendation]).

    Numbers.  Python's [float] values are rationals [Q], compared up to
    [Qeq] ([==]); [round(x, n)] is rounding to [n] decimals, ties to even.
    The fee model, the estimator and [summarize] compute with exact
    arithmetic.  Where the result turns on the last bit (the outlier
    threshold, the cost floor) every operation is rounded to binary64 by
    [b64], as the interpreter rounds it: module [Binary64] and
    [apply_cost_floor].

    Exceptions.  Code that can raise returns [result]; [try/except Exception]
    is a [match] on it.

    The network.  The four marketplace scrapers are the environment: a record
    [Marketplaces] of functions from the search query to what the scraper
    returns (or raises). *)

From Stdlib Require Import QArith Qround Qminmax Qabs Qpower Lqa ZArith Lia List Ascii
  SetoidList Sorted.
From Stdlib Require PrimFloat FloatOps SpecFloat.
From stdpp Require Import base option gmap strings list pretty.

Local Open Scope Q_scope.

(** ** Python values *)

(** Exceptions deriving from [Exception], with what [str(e)] prints. *)
Inductive exn : Type :=
  | ZeroDivisionError (msg : string)
  | KeyError (key : string)
  | ValueError (msg : string)
  | StatisticsError (msg : string)
  | IndexError (msg : string)
  | OtherException (msg : string).

Definition exn_str (e : exn) : string :=
  match e with
  | ZeroDivisionError m => m
  | KeyError k => "'" +:+ k +:+ "'"
  | ValueError m => m
  | StatisticsError m => m
  | IndexError m => m
  | OtherException m => m
  end.

Inductive result (A : Type) : Type :=
  | Ok (a : A)
  | Raise (e : exn).
Arguments Ok {A} a.
Arguments Raise {A} e.

#[global] Instance result_ret : MRet result := fun _ a => Ok a.
#[global] Instance result_bind : MBind result := fun _ _ f m =>
  match m with
  | Ok a => f a
  | Raise e => Raise e
  end.

(** Comparison and truth value of a number. *)
Definition Qltb (x y : Q) : bool := negb (Qle_bool y x).
Definition truthy (x : Q) : bool := negb (Qeq_bool x 0).

(** [x / y] *)
Definition py_div (x y : Q) : result Q :=
  if Qeq_bool y 0 then Raise (ZeroDivisionError "float division by zero")
  else Ok (x / y).

(** Nearest integer, ties to even. *)
Definition round_half_even (x : Q) : Z :=
  let f := Qfloor x in
  match Qcompare (x - inject_Z f) (1 # 2) with
  | Lt => f
  | Gt => (f + 1)%Z
  | Eq => if Z.even f then f else (f + 1)%Z
  end.

Definition pow10 (n : nat) : Z := (10 ^ Z.of_nat n)%Z.

(** [round(x, ndigits)] *)
Definition py_round (x : Q) (ndigits : nat) : Q :=
  inject_Z (round_half_even (x * inject_Z (pow10 ndigits))) / inject_Z (pow10 ndigits).

(** ** Binary64 *)

(** [2 ** e] *)
Definition pow2 (e : Z) : Q := Qpower 2 e.

(** The integer part of the base-2 logarithm of a non-zero number. *)
Definition ilog2 (x : Q) : Z :=
  let e0 := (Z.log2 (Z.abs (Qnum x)) - Z.log2 (Z.pos (Qden x)))%Z in
  if Qle_bool (pow2 e0) (Qabs x) then e0 else (e0 - 1)%Z.

(** The binary64 number nearest to [x], ties to even: 53 significant bits,
    exponents down to the subnormal range.  Overflow to infinity is not
    modelled. *)
Definition b64 (x : Q) : Q :=
  if Qeq_bool x 0 then 0
  else
    let e := Z.max (ilog2 x - 52) (-1074) in
    inject_Z (round_half_even (x / pow2 e)) * pow2 e.

(** The value of a machine float (0 for infinities and NaN). *)
Definition float_value (f : PrimFloat.float) : Q :=
  match FloatOps.Prim2SF f with
  | SpecFloat.S754_finite s m e => (if s then -1 else 1) * inject_Z (Z.pos m) * pow2 e
  | _ => 0
  end.

(** The machine float [m * 2 ** e]. *)
Definition machine (m : positive) (e : Z) : PrimFloat.float :=
  FloatOps.SF2Prim (SpecFloat.S754_finite false m e).

(** ** Dicts *)

(** [d[k]] and [d.get(k, dflt)] on a dict with string keys. *)
Definition getitem {V} (d : gmap string V) (k : string) : result V :=
  match d !! k with
  | Some v => Ok v
  | None => Raise (KeyError k)
  end.

Definition dict_get {V} (d : gmap string V) (k : string) (dflt : V) : V :=
  default dflt (d !! k).

(** ** Fee model *)

Definition get_platform_fees : gmap string (gmap string Q) :=
  {[ "poshmark" := {[ "fee_under_15" := 2.95; "fee_percent" := 0.20; "threshold" := 15.00 ]};
     "depop" := {[ "fee_percent" := 0.10; "payment_fee" := 0.029; "payment_flat" := 0.30 ]};
     "mercari" := {[ "fee_percent" := 0.10 ]};
     "ebay" := {[ "fee_percent" := 0.1315 ]};
     "xiaohongshu" := {[ "fee_percent" := 0.05 ]} ]}.

Record ProfitBreakdown : Type := {
  pb_sale_price : Q;
  platform_fee : Q;
  net_payout : Q;
  profit : Q;
  profit_margin : Q
}.

(** The [total_fee] local of [calculate_net_profit]. *)
Definition total_fee (sale_price : Q) (platform : string) : result Q :=
  let fees := dict_get get_platform_fees platform {[ "fee_percent" := 0.10 ]} in
  if String.eqb platform "poshmark" then
    threshold ← getitem fees "threshold";
    if Qltb sale_price threshold then getitem fees "fee_under_15"
    else
      fee_percent ← getitem fees "fee_percent";
      mret (sale_price * fee_percent)
  else if String.eqb platform "depop" then
    fee_percent ← getitem fees "fee_percent";
    let selling_fee := sale_price * fee_percent in
    pf ← getitem fees "payment_fee";
    flat ← getitem fees "payment_flat";
    let payment_fee := sale_price * pf + flat in
    mret (selling_fee + payment_fee)
  else
    mret (sale_price * dict_get fees "fee_percent" 0.10).

(** The [profit] local of [calculate_net_profit]. *)
Definition raw_profit (net item_cost : Q) : Q :=
  if truthy item_cost then net - item_cost else net.

Definition calculate_net_profit (sale_price : Q) (platform : string) (item_cost : Q)
  : result ProfitBreakdown :=
  fee ← total_fee sale_price platform;
  let net := sale_price - fee in
  let profit := raw_profit net item_cost in
  margin ← (if truthy sale_price
            then q ← py_div profit sale_price; mret (q * 100)
            else mret 0);
  mret {| pb_sale_price := sale_price;
          platform_fee := py_round fee 2;
          net_payout := py_round net 2;
          profit := py_round profit 2;
          profit_margin := py_round margin 1 |}.

(** ** Market statistics aggregator *)

Record ScrapedListing : Type := {
  title : string;
  price : Q;
  platform : string;
  url : string
}.

(** The scrapers, as the network answers them. *)
Record Marketplaces : Type := {
  scrape_ebay_sold : string → result (list ScrapedListing);
  scrape_poshmark_sold : string → result (list ScrapedListing);
  scrape_mercari_sold : string → result (list ScrapedListing);
  scrape_depop_sold : string → result (list ScrapedListing)
}.

Record MarketSummary : Type := {
  ms_count : nat;
  ms_min : Q;
  ms_max : Q;
  ms_avg : Q;
  ms_median : Q;
  ms_quick_sale : Q;
  ms_fair_price : Q;
  ms_max_value : Q;
  ms_source : string
}.

Definition Qsum (l : list Q) : Q := fold_right Qplus 0 l.

Definition Qlen (l : list Q) : Q := inject_Z (Z.of_nat (length l)).

(** [statistics.mean] *)
Definition mean (data : list Q) : result Q :=
  match data with
  | [] => Raise (StatisticsError "mean requires at least one data point")
  | _ => Ok (Qsum data / Qlen data)
  end.

(** [sorted], as a stable insertion sort. *)
Fixpoint insert_sorted (x : Q) (l : list Q) : list Q :=
  match l with
  | [] => [x]
  | y :: l' => if Qle_bool x y then x :: l else y :: insert_sorted x l'
  end.

Definition sorted (l : list Q) : list Q := fold_right insert_sorted [] l.

(** [data[i]] *)
Definition getindex (data : list Q) (i : nat) : result Q :=
  match data !! i with
  | Some x => Ok x
  | None => Raise (IndexError "list index out of range")
  end.

(** [statistics.median] *)
Definition median (data : list Q) : result Q :=
  let data := sorted data in
  let n := length data in
  if (n =? 0)%nat then Raise (StatisticsError "no median for empty data")
  else if (n mod 2 =? 1)%nat then getindex data (n / 2)
  else
    let i := (n / 2)%nat in
    a ← getindex data (i - 1);
    b ← getindex data i;
    py_div (a + b) 2.

(** [min] and [max] of a list: the first smallest, the first largest. *)
Definition py_min (l : list Q) : result Q :=
  match l with
  | [] => Raise (ValueError "min() arg is an empty sequence")
  | x :: l' => Ok (fold_left (fun m y => if Qltb y m then y else m) l' x)
  end.

Definition py_max (l : list Q) : result Q :=
  match l with
  | [] => Raise (ValueError "max() arg is an empty sequence")
  | x :: l' => Ok (fold_left (fun m y => if Qltb m y then y else m) l' x)
  end.

(** [max(a, b)] *)
Definition py_max2 (a b : Q) : Q := if Qltb a b then b else a.

(** The outlier filter of [get_real_market_prices]: the comprehension and
    the fallback to the unfiltered list. *)
Definition outlier_pass (avg : Q) (prices : list Q) : list Q :=
  List.filter (fun p => Qltb p (avg * 3)) prices.

Definition filter_outliers (avg : Q) (prices : list Q) : list Q :=
  let filtered := outlier_pass avg prices in
  match filtered with
  | [] => prices
  | _ => filtered
  end.

(** [get_real_market_prices] from the length check on. *)
Definition summarize (all_listings : list ScrapedListing) : result (option MarketSummary) :=
  if (length all_listings <? 3)%nat then mret None
  else
    let prices := List.map price all_listings in
    avg ← mean prices;
    let filtered := filter_outliers avg prices in
    med ← median filtered;
    mn ← py_min filtered;
    mx ← py_max filtered;
    av ← mean filtered;
    mret (Some {| ms_count := length filtered;
                  ms_min := mn;
                  ms_max := mx;
                  ms_avg := py_round av 2;
                  ms_median := py_round med 2;
                  ms_quick_sale := py_round (med * 0.85) 2;
                  ms_fair_price := py_round med 2;
                  ms_max_value := py_round (med * 1.2) 2;
                  ms_source := "live_scrape" |}).

Definition get_real_market_prices (net : Marketplaces) (query : string)
  : result (option MarketSummary) :=
  ebay ← scrape_ebay_sold net query;
  poshmark ← scrape_poshmark_sold net query;
  mercari ← scrape_mercari_sold net query;
  depop ← scrape_depop_sold net query;
  summarize (ebay ++ poshmark ++ mercari ++ depop).

(** ** The aggregator in binary64

    [get_real_market_prices] from the length check on, with every float
    operation rounded as the interpreter rounds it: [statistics.mean] returns
    the exact mean rounded once, [*], [+] and [/] round their exact result,
    a decimal literal is the nearest binary64 number, and [round] returns the
    binary64 number nearest to the rounded decimal.  [summarize] above is the
    same code with exact arithmetic. *)
Module Binary64.

Definition mul (x y : Q) : Q := b64 (x * y).

Definition add (x y : Q) : Q := b64 (x + y).

Definition div (x y : Q) : result Q :=
  if Qeq_bool y 0 then Raise (ZeroDivisionError "float division by zero")
  else Ok (b64 (x / y)).

Definition round (x : Q) (ndigits : nat) : Q := b64 (py_round x ndigits).

Definition mean (data : list Q) : result Q :=
  match data with
  | [] => Raise (StatisticsError "mean requires at least one data point")
  | _ => Ok (b64 (Qsum data / Qlen data))
  end.

Definition median (data : list Q) : result Q :=
  let data := sorted data in
  let n := length data in
  if (n =? 0)%nat then Raise (StatisticsError "no median for empty data")
  else if (n mod 2 =? 1)%nat then getindex data (n / 2)
  else
    let i := (n / 2)%nat in
    a ← getindex data (i - 1);
    b ← getindex data i;
    div (add a b) 2.

Definition outlier_pass (avg : Q) (prices : list Q) : list Q :=
  List.filter (fun p => Qltb p (mul avg 3)) prices.

Definition filter_outliers (avg : Q) (prices : list Q) : list Q :=
  let filtered := outlier_pass avg prices in
  match filtered with
  | [] => prices
  | _ => filtered
  end.

Definition summarize (all_listings : list ScrapedListing) : result (option MarketSummary) :=
  if (length all_listings <? 3)%nat then mret None
  else
    let prices := List.map price all_listings in
    avg ← mean prices;
    let filtered := filter_outliers avg prices in
    med ← median filtered;
    mn ← py_min filtered;
    mx ← py_max filtered;
    av ← mean filtered;
    mret (Some {| ms_count := length filtered;
                  ms_min := mn;
                  ms_max := mx;
                  ms_avg := round av 2;
                  ms_median := round med 2;
                  ms_quick_sale := round (mul med (b64 0.85)) 2;
                  ms_fair_price := round med 2;
                  ms_max_value := round (mul med (b64 1.2)) 2;
                  ms_source := "live_scrape" |}).

End Binary64.

(** ** Retail-based estimator *)

Record Estimate : Type := {
  low : Q;
  high : Q;
  avg : Q
}.

Definition multipliers : gmap string (Q * Q) :=
  {[ "new" := (0.60, 0.85);
     "excellent" := (0.45, 0.65);
     "good" := (0.30, 0.50);
     "fair" := (0.15, 0.30) ]}.

Definition estimate_from_retail (retail_price : Q) (condition : string) : result Estimate :=
  let '(low_mult, high_mult) := dict_get multipliers condition (0.30, 0.50) in
  a ← py_div (retail_price * (low_mult + high_mult)) 2;
  mret {| low := py_round (retail_price * low_mult) 2;
          high := py_round (retail_price * high_mult) 2;
          avg := py_round a 2 |}.

(** ** Strings *)

(** ASCII whitespace, as [str.strip] removes it. *)
Definition is_space (c : ascii) : bool :=
  let n := nat_of_ascii c in
  ((9 <=? n) && (n <=? 13) || (28 <=? n) && (n <=? 32))%nat.

Fixpoint lstrip (s : string) : string :=
  match s with
  | String c s' => if is_space c then lstrip s' else s
  | EmptyString => EmptyString
  end.

Definition strip (s : string) : string :=
  String.rev (lstrip (String.rev (lstrip s))).

(** [f"{x:.2f}"] *)
Definition format_2f (x : Q) : string :=
  let cents := Z.abs (round_half_even (x * 100)) in
  let frac := (cents mod 100)%Z in
  (if Qltb x 0 then "-" else "") +:+ pretty (cents / 100)%Z +:+ "."
    +:+ (if (frac <? 10)%Z then "0" else "") +:+ pretty frac.

(** ** Recommendation engine *)

Record Tiers : Type := {
  quick_sale : Q;
  fair_price : Q;
  max_value : Q
}.

Record PlatformTiers : Type := {
  pt_quick_sale : ProfitBreakdown;
  pt_fair_price : ProfitBreakdown;
  pt_max_value : ProfitBreakdown
}.

Record Recommendation : Type := {
  item : string;
  brand : string;
  condition : string;
  data_source : string;
  market_data : option MarketSummary;
  estimates : Tiers;
  platforms : list (string * PlatformTiers);
  recommendation : string
}.

Definition search_query (item_name brand : string) : string :=
  if String.eqb brand "" then item_name else strip (brand +:+ " " +:+ item_name).

(** The guarded call of the market data source: what [real_prices] is bound
    to, and what is printed. *)
Definition fetch_live (net : Marketplaces) (use_live_data : bool) (query : string)
  : option MarketSummary * list string :=
  if use_live_data then
    match get_real_market_prices net query with
    | Ok real_prices => (real_prices, [])
    | Raise e => (None, ["Live price fetch failed: " +:+ exn_str e])
    end
  else (None, []).

(** [real_prices and real_prices.get("count", 0) >= 3]: the summary the
    first branch uses, if it is taken. *)
Definition usable_summary (real_prices : option MarketSummary) : option MarketSummary :=
  match real_prices with
  | Some rp => if (3 <=? ms_count rp)%nat then Some rp else None
  | None => None
  end.

(** The truth value of the optional [retail_price]: the price the second
    branch uses, if it is taken. *)
Definition usable_retail (retail_price : option Q) : option Q :=
  match retail_price with
  | Some r => if truthy r then Some r else None
  | None => None
  end.

Definition default_tiers : Tiers :=
  {| quick_sale := 25.0; fair_price := 50.0; max_value := 75.0 |}.

(** The cost floor; the product is a binary64 product and is not rounded
    to cents. *)
Definition apply_cost_floor (item_cost : Q) (t : Tiers) : Tiers :=
  if truthy item_cost then
    let min_price := Binary64.mul item_cost (b64 1.1) in
    {| quick_sale := py_max2 (quick_sale t) min_price;
       fair_price := py_max2 (fair_price t) min_price;
       max_value := max_value t |}
  else t.

(** The platform breakdown. *)
Definition platform_breakdown (t : Tiers) (item_cost : Q)
  : result (list (string * PlatformTiers)) :=
  mapM (fun platform =>
          q ← calculate_net_profit (quick_sale t) platform item_cost;
          f ← calculate_net_profit (fair_price t) platform item_cost;
          m ← calculate_net_profit (max_value t) platform item_cost;
          mret (platform, {| pt_quick_sale := q; pt_fair_price := f; pt_max_value := m |}))
       ["poshmark"; "depop"; "mercari"; "ebay"].

Section Engine.

(** The retail estimator the engine calls. *)
Variable estimator : Q → string → result Estimate.

(** The three-way branch: the tiers and the data source tag. *)
Definition branch_tiers_with (real_prices : option MarketSummary)
    (retail_price : option Q) (condition : string) : result (Tiers * string) :=
  match usable_summary real_prices with
  | Some rp =>
      mret ({| quick_sale := ms_quick_sale rp;
               fair_price := ms_fair_price rp;
               max_value := ms_max_value rp |},
            "live (" +:+ pretty (ms_count rp) +:+ " sold listings)")
  | None =>
      match usable_retail retail_price with
      | Some r =>
          estimates ← estimator r condition;
          mret ({| quick_sale := low estimates;
                   fair_price := avg estimates;
                   max_value := high estimates |},
                "estimated from retail")
      | None => mret (default_tiers, "default estimate")
      end
  end.

(** The engine: the recommendation and the lines printed. *)
Definition generate_price_recommendation_with (net : Marketplaces)
    (item_name brand condition : string) (retail_price : option Q)
    (item_cost : Q) (use_live_data : bool)
  : result (Recommendation * list string) :=
  let '(real_prices, printed) :=
    fetch_live net use_live_data (search_query item_name brand) in
  '(tiers, data_source) ← branch_tiers_with real_prices retail_price condition;
  let tiers := apply_cost_floor item_cost tiers in
  platforms ← platform_breakdown tiers item_cost;
  mret ({| item := item_name;
           brand := brand;
           condition := condition;
           data_source := data_source;
           market_data := real_prices;
           estimates := tiers;
           platforms := platforms;
           recommendation :=
             "List at $" +:+ format_2f (fair_price tiers)
               +:+ " for fair value, or $" +:+ format_2f (quick_sale tiers)
               +:+ " for quick sale" |},
        printed).

End Engine.

Definition branch_tiers := branch_tiers_with estimate_from_retail.

Definition generate_price_recommendation :=
  generate_price_recommendation_with estimate_from_retail.

(** A network where every marketplace is unreachable: [fetch_url] returns
    [None] and each scraper returns no listing. *)
Definition offline : Marketplaces :=
  {| scrape_ebay_sold := fun _ => Ok [];
     scrape_poshmark_sold := fun _ => Ok [];
     scrape_mercari_sold := fun _ => Ok [];
     scrape_depop_sold := fun _ => Ok [] |}.

Definition listing (pf : string) (p : Q) : ScrapedListing :=
  {| title := pf +:+ " Sold Item"; price := p; platform := pf; url := "" |}.

(** A number with at most [n] decimals. *)
Definition on_grid (n : nat) (x : Q) : Prop :=
  ∃ k : Z, x == inject_Z k / inject_Z (pow10 n).

(** What a summary is made of. *)
Definition summary_of (kept : list Q) (mn mx av med : Q) : MarketSummary :=
  {| ms_count := length kept;
     ms_min := mn;
     ms_max := mx;
     ms_avg := py_round av 2;
     ms_median := py_round med 2;
     ms_quick_sale := py_round (med * 0.85) 2;
     ms_fair_price := py_round med 2;
     ms_max_value := py_round (med * 1.2) 2;
     ms_source := "live_scrape" |}.

(** An estimator that raises as soon as it is called. *)
Definition tripwire : Q → string → result Estimate :=
  fun _ _ => Raise (OtherException "retail estimator called").

(** A network where eBay answers two listings and the other marketplaces
    none, and one where the eBay scraper raises. *)
Definition two_listings : Marketplaces :=
  {| scrape_ebay_sold := fun _ => Ok [listing "eBay" 40; listing "eBay" 45];
     scrape_poshmark_sold := fun _ => Ok [];
     scrape_mercari_sold := fun _ => Ok [];
     scrape_depop_sold := fun _ => Ok [] |}.

Definition broken : Marketplaces :=
  {| scrape_ebay_sold := fun _ => Raise (OtherException "connection reset");
     scrape_poshmark_sold := fun _ => Ok [];
     scrape_mercari_sold := fun _ => Ok [];
     scrape_depop_sold := fun _ => Ok [] |}.

(** What one row of the platform table is made of. *)
Definition breakdown_row (t : Tiers) (item_cost : Q) (platform : string)
    (pt : PlatformTiers) : Prop :=
  calculate_net_profit (quick_sale t) platform item_cost = Ok (pt_quick_sale pt)
  ∧ calculate_net_profit (fair_price t) platform item_cost = Ok (pt_fair_price pt)
  ∧ calculate_net_profit (max_value t) platform item_cost = Ok (pt_max_value pt).

(** The tiers of the retail-estimate branch. *)
Definition estimate_tiers (e : Estimate) : Tiers :=
  {| quick_sale := low e; fair_price := avg e; max_value := high e |}.

(** The recommendation line. *)
Definition recommendation_line (t : Tiers) : string :=
  "List at $" +:+ format_2f (fair_price t)
    +:+ " for fair value, or $" +:+ format_2f (quick_sale t) +:+ " for quick sale".

(** A complete recommendation: the fields echo the call, the tiers are the
    floored tiers [t] of the branch, the table has the four platforms in
    order, each row computed by [calculate_net_profit] from the floored
    tiers, and the recommendation line quotes them. *)
Definition complete (r : Recommendation) (item_name brand_name grade : string)
    (item_cost : Q) (t : Tiers) : Prop :=
  item r = item_name ∧ brand r = brand_name ∧ condition r = grade
  ∧ estimates r = apply_cost_floor item_cost t
  ∧ List.map fst (platforms r) = ["poshmark"; "depop"; "mercari"; "ebay"]
  ∧ (∀ platform pt, In (platform, pt) (platforms r) →
       breakdown_row (estimates r) item_cost platform pt)
  ∧ recommendation r = recommendation_line (estimates r).

(** The four sold prices 28.00, 12.32, 41.69 and 246.03, as [float] reads
    them. *)
Definition boundary_prices : list Q := [b64 28; b64 12.32; b64 41.69; b64 246.03].

(** ** Scrapers *)

(** [urllib.parse.quote] with its default safe characters, on the UTF-8
    bytes of the text. *)
Definition always_safe (c : ascii) : bool :=
  let n := nat_of_ascii c in
  ((48 <=? n) && (n <=? 57) || (65 <=? n) && (n <=? 90) || (97 <=? n) && (n <=? 122)
   || (n =? 95) || (n =? 46) || (n =? 45) || (n =? 126))%nat.

Definition hex_digit (n : nat) : ascii :=
  nth n (String.list_ascii_of_string "0123456789ABCDEF") "0"%char.

Definition quote_byte (c : ascii) : string :=
  if always_safe c || Ascii.eqb c "/" then String c EmptyString
  else String "%" (String (hex_digit (nat_of_ascii c / 16))
                     (String (hex_digit (nat_of_ascii c mod 16)) EmptyString)).

Fixpoint quote (s : string) : string :=
  match s with
  | EmptyString => EmptyString
  | String c s' => quote_byte c +:+ quote s'
  end.

(** What a fetched page gives a scraper: for each price pattern, the
    matches in page order, each as [float] reads it ([None] where [float]
    raises ValueError).  [None] for the page: [fetch_url] returned nothing. *)
Record Pages : Type := {
  ebay_matches : string → option (list (option Q));
  poshmark_matches : string → option (list (option Q));
  mercari_matches : string → option (list (list (option Q)));
  depop_matches : string → option (list (list (option Q)))
}.

(** [1 < p < 5000] and [p in seen] *)
Definition in_range (p : Q) : bool := Qltb 1 p && Qltb p 5000.

Definition seen_in (p : Q) (seen : list Q) : bool := existsb (Qeq_bool p) seen.

Section Scan.

Variables (item_title site page_url : string).

(** The loop over the matches of one pattern, from the state
    [(seen, listings)]; the flag tells that the limit was reached. *)
Fixpoint scan (limit : nat) (cands : list (option Q)) (seen : list Q)
    (listings : list ScrapedListing) : list Q * list ScrapedListing * bool :=
  match cands with
  | [] => (seen, listings, false)
  | None :: rest => scan limit rest seen listings
  | Some p :: rest =>
      if in_range p && negb (seen_in p seen) then
        let seen := p :: seen in
        let listings :=
          listings ++ [{| title := item_title; price := p;
                          platform := site; url := page_url |}] in
        if (limit <=? length listings)%nat then (seen, listings, true)
        else scan limit rest seen listings
      else scan limit rest seen listings
  end.

(** The loop over the patterns, sharing [seen]; it returns as soon as the
    limit is reached. *)
Fixpoint scan_patterns (limit : nat) (patterns : list (list (option Q)))
    (seen : list Q) (listings : list ScrapedListing) : list ScrapedListing :=
  match patterns with
  | [] => listings
  | prices :: rest =>
      let '(seen', listings', reached) :=
        scan limit (firstn (limit * 2) prices) seen listings in
      if reached then listings' else scan_patterns limit rest seen' listings'
  end.

End Scan.

Module Scraper.

Definition scrape_ebay_sold (web : Pages) (query : string) (limit : nat)
  : list ScrapedListing :=
  let url := "https://www.ebay.com/sch/i.html?_nkw=" +:+ quote query
               +:+ "&LH_Sold=1&LH_Complete=1&_sop=13" in
  match ebay_matches web url with
  | None => []
  | Some prices_raw =>
      (scan "eBay Sold Item" "eBay" url limit (firstn (limit * 3) prices_raw) [] []).1.2
  end.

Definition scrape_poshmark_sold (web : Pages) (query : string) (limit : nat)
  : list ScrapedListing :=
  let url := "https://poshmark.com/search?query=" +:+ quote query
               +:+ "&availability=sold_out" in
  match poshmark_matches web url with
  | None => []
  | Some prices =>
      (scan "Poshmark Sold Item" "Poshmark" url limit (firstn (limit * 2) prices) [] []).1.2
  end.

Definition scrape_depop_sold (web : Pages) (query : string) (limit : nat)
  : list ScrapedListing :=
  let url := "https://www.depop.com/search/?q=" +:+ quote query in
  match depop_matches web url with
  | None => []
  | Some patterns => scan_patterns "Depop Item" "Depop" url limit patterns [] []
  end.

Definition scrape_mercari_sold (web : Pages) (query : string) (limit : nat)
  : list ScrapedListing :=
  let url := "https://www.mercari.com/search/?keyword=" +:+ quote query
               +:+ "&status=sold_out" in
  match mercari_matches web url with
  | None => []
  | Some patterns => scan_patterns "Mercari Sold Item" "Mercari" url limit patterns [] []
  end.

End Scraper.

(** The marketplaces as the scrapers see them through the pages, with the
    default limit of 15. *)
Definition scraped (web : Pages) : Marketplaces :=
  {| scrape_ebay_sold := fun query => Ok (Scraper.scrape_ebay_sold web query 15);
     scrape_poshmark_sold := fun query => Ok (Scraper.scrape_poshmark_sold web query 15);
     scrape_mercari_sold := fun query => Ok (Scraper.scrape_mercari_sold web query 15);
     scrape_depop_sold := fun query => Ok (Scraper.scrape_depop_sold web query 15) |}.

(** What every scraper promises of its listings. *)
Definition well_scraped (site : string) (limit : nat) (ls : list ScrapedListing) : Prop :=
  (length ls <= limit)%nat
  ∧ Forall (fun l => 1 < price l ∧ price l < 5000 ∧ platform l = site) ls
  ∧ NoDupA Qeq (List.map price ls).

(** The state the scraping loop keeps: every listing is in range and tagged
    with the site, no two listings have the same price, and every listed
    price is in [seen]. *)
Definition scan_state (site : string) (seen : list Q) (listings : list ScrapedListing)
  : Prop :=
  Forall (fun l => 1 < price l ∧ price l < 5000 ∧ platform l = site) listings
  ∧ NoDupA Qeq (List.map price listings)
  ∧ ∀ l, In l listings → seen_in (price l) seen = true.

(** The eBay search URL of a query. *)
Definition ebay_search_url (query : string) : string :=
  "https://www.ebay.com/sch/i.html?_nkw=" +:+ quote query
    +:+ "&LH_Sold=1&LH_Complete=1&_sop=13".

(** Pages where eBay shows five prices and the other sites are unreachable. *)
Definition ebay_only : Pages :=
  {| ebay_matches := fun _ => Some [Some 10; None; Some 10; Some 7000; Some 12.5; Some 30];
     poshmark_matches := fun _ => None;
     mercari_matches := fun _ => None;
     depop_matches := fun _ => None |}.

(** Everything the four scrapers return for a query, in the order
    [get_real_market_prices] collects it. *)
Definition scraped_listings (web : Pages) (query : string) : list ScrapedListing :=
  Scraper.scrape_ebay_sold web query 15
  ++ Scraper.scrape_poshmark_sold web query 15
  ++ Scraper.scrape_mercari_sold web query 15
  ++ Scraper.scrape_depop_sold web query 15.

(** Tiers in ascending order. *)
Definition ordered (t : Tiers) : Prop :=
  quick_sale t <= fair_price t ∧ fair_price t <= max_value t.

Definition summary_tiers (s : MarketSummary) : Tiers :=
  {| quick_sale := ms_quick_sale s;
     fair_price := ms_fair_price s;
     max_value := ms_max_value s |}.

(** Pages where eBay shows four sold prices. *)
Definition four_sold : Pages :=
  {| ebay_matches := fun _ => Some [Some 40; Some 45; Some 50; Some 52];
     poshmark_matches := fun _ => None;
     mercari_matches := fun _ => None;
     depop_matches := fun _ => None |}.

(** ** The price-check endpoint ([webapp/app.py]) *)

Record PlatformEstimate : Type := {
  pe_low : Q;
  pe_high : Q;
  pe_avg : Q;
  pe_profit : Q
}.

Record PriceCheckResponse : Type := {
  resp_query : string;
  resp_estimates : list (string * PlatformEstimate);
  resp_recommendation : Tiers;
  resp_tip : string
}.

(** [d[k]] on a dict kept in insertion order. *)
Fixpoint alist_getitem {V} (d : list (string * V)) (k : string) : result V :=
  match d with
  | [] => Raise (KeyError k)
  | (k', v) :: d' => if String.eqb k' k then Ok v else alist_getitem d' k
  end.

(** [price_check] of [webapp/app.py], on a request whose [retail_price] and
    [item_cost] are JSON numbers (so that [float] leaves them as they are);
    an absent [retail_price] is [None], an absent [item_cost] is 0. *)
Definition price_check (net : Marketplaces) (query brand condition : string)
    (retail_price : option Q) (item_cost : Q)
  : result (PriceCheckResponse * list string) :=
  '(result, printed) ←
    generate_price_recommendation net query brand condition retail_price item_cost true;
  per_platform ←
    mapM (fun platform =>
            pt ← alist_getitem (platforms result) platform;
            mret (platform,
                  {| pe_low := net_payout (pt_quick_sale pt);
                     pe_high := net_payout (pt_max_value pt);
                     pe_avg := net_payout (pt_fair_price pt);
                     pe_profit := profit (pt_fair_price pt) |}))
         ["poshmark"; "depop"; "mercari"; "ebay"];
  mret ({| resp_query := query;
           resp_estimates := per_platform;
           resp_recommendation := estimates result;
           resp_tip := recommendation result |},
        printed).

(** Characters that [quote] leaves in its output. *)
Definition url_safe (c : ascii) : bool :=
  always_safe c || Ascii.eqb c "/" || Ascii.eqb c "%".

(** ** The command-line analyser ([src/price_scraper.py]) *)

Definition SoldListing : Type := ScrapedListing.

Record PriceAnalysis : Type := {
  pa_query : string;
  pa_listings : list SoldListing;
  min_price : Q;
  max_price : Q;
  avg_price : Q;
  median_price : Q;
  suggested_price : Q;
  suggested_range : Q * Q
}.

(** [int(x)] of a float. *)
Definition py_int (x : Q) : Z := if Qltb x 0 then (- Qfloor (- x))%Z else Qfloor x.

(** [analyze_prices], given what its two scrapers return (the progress
    lines it prints are left out).  The product [len(sorted_prices) * 0.75]
    is exact in binary64 for every length below 2 ** 51. *)
Definition analyze_prices (ebay_results posh_results : list SoldListing) (query : string)
  : result (option PriceAnalysis) :=
  let all_listings := ebay_results ++ posh_results in
  match all_listings with
  | [] => mret None
  | _ =>
      let prices := List.map price all_listings in
      avg ← Binary64.mean prices;
      med ← Binary64.median prices;
      min_p ← py_min prices;
      max_p ← py_max prices;
      let suggested := Binary64.mul med (b64 0.9) in
      let sorted_prices := sorted prices in
      let low_idx := (length sorted_prices / 10)%nat in
      let high_idx := Z.to_nat (py_int (Qlen sorted_prices * 0.75)) in
      lo ← getindex sorted_prices low_idx;
      hi ← getindex sorted_prices high_idx;
      mret (Some {| pa_query := query;
                    pa_listings := all_listings;
                    min_price := min_p;
                    max_price := max_p;
                    avg_price := avg;
                    median_price := med;
                    suggested_price := suggested;
                    suggested_range := (lo, hi) |})
  end.

(** * Properties *)

(** ** Numbers *)

Lemma Qltb_lt (x y : Q) : Qltb x y = true ↔ x < y.
Proof.
  unfold Qltb. rewrite negb_true_iff.
  destruct (Qle_bool y x) eqn:E.
  - apply Qle_bool_iff in E. split; [discriminate | intros H; lra].
  - split; [intros _ | reflexivity].
    apply Qnot_le_lt. intros H. apply Qle_bool_iff in H. congruence.
Qed.

Lemma Qltb_ge (x y : Q) : Qltb x y = false ↔ y <= x.
Proof.
  unfold Qltb. rewrite negb_false_iff. apply Qle_bool_iff.
Qed.

Lemma truthy_false (x : Q) : truthy x = false ↔ x == 0.
Proof.
  unfold truthy. rewrite negb_false_iff. apply Qeq_bool_iff.
Qed.

Lemma truthy_true (x : Q) : truthy x = true ↔ ¬ x == 0.
Proof.
  unfold truthy. rewrite negb_true_iff. split.
  - apply Qeq_bool_neq.
  - intros H. destruct (Qeq_bool x 0) eqn:E; [|reflexivity].
    apply Qeq_bool_iff in E. contradiction.
Qed.

Lemma truthy_pos (x : Q) : 0 < x → truthy x = true.
Proof. intros H. apply truthy_true. lra. Qed.

Lemma py_div_ok (x y : Q) : ¬ y == 0 → py_div x y = Ok (x / y).
Proof.
  intros H. unfold py_div.
  destruct (Qeq_bool y 0) eqn:E; [|reflexivity].
  apply Qeq_bool_iff in E. contradiction.
Qed.

Lemma py_max2_Qmax (a b : Q) : py_max2 a b == Qmax a b.
Proof.
  unfold py_max2. destruct (Qltb a b) eqn:E.
  - apply Qltb_lt in E. symmetry. apply Q.max_r. lra.
  - apply Qltb_ge in E. symmetry. apply Q.max_l. lra.
Qed.

(** Rounding to the nearest integer. *)

Lemma round_half_even_floor (x : Q) :
  (Qfloor x <= round_half_even x <= Qfloor x + 1)%Z.
Proof.
  unfold round_half_even.
  destruct (Qcompare _ _); [destruct (Z.even _)| |]; lia.
Qed.

Lemma round_half_even_mono (x y : Q) :
  x <= y → (round_half_even x <= round_half_even y)%Z.
Proof.
  intros Hxy.
  pose proof (Qfloor_resp_le _ _ Hxy) as Hf.
  destruct (Z.eq_dec (Qfloor x) (Qfloor y)) as [E|N].
  - unfold round_half_even. rewrite <- E.
    destruct (Qcompare_spec (x - inject_Z (Qfloor x)) (1 # 2)) as [Hx|Hx|Hx];
      destruct (Qcompare_spec (y - inject_Z (Qfloor x)) (1 # 2)) as [Hy|Hy|Hy];
      try destruct (Z.even (Qfloor x)); try lia; exfalso; lra.
  - pose proof (round_half_even_floor x). pose proof (round_half_even_floor y). lia.
Qed.

Lemma round_half_even_Z (n : Z) : round_half_even (inject_Z n) = n.
Proof.
  unfold round_half_even. rewrite Qfloor_Z.
  destruct (Qcompare_spec (inject_Z n - inject_Z n) (1 # 2)) as [H|H|H];
    [exfalso; lra | reflexivity | exfalso; lra].
Qed.

#[global] Instance round_half_even_comp : Proper (Qeq ==> eq) round_half_even.
Proof.
  intros x y E. apply Z.le_antisymm; apply round_half_even_mono; rewrite E; lra.
Qed.

Lemma pow10_pos (n : nat) : 0 < inject_Z (pow10 n).
Proof.
  unfold pow10. change 0 with (inject_Z 0). rewrite <- Zlt_Qlt.
  apply Z.pow_pos_nonneg; lia.
Qed.

Lemma py_round_mono (x y : Q) (n : nat) : x <= y → py_round x n <= py_round y n.
Proof.
  intros Hxy. unfold py_round.
  pose proof (pow10_pos n) as Hp.
  apply Qmult_le_compat_r.
  - rewrite <- Zle_Qle. apply round_half_even_mono.
    apply Qmult_le_compat_r; lra.
  - apply Qlt_le_weak, Qinv_lt_0_compat, Hp.
Qed.

#[global] Instance py_round_comp : Proper (Qeq ==> eq ==> Qeq) py_round.
Proof.
  intros x y E n ? <-. apply Qle_antisym; apply py_round_mono; rewrite E; lra.
Qed.

Lemma py_round_on_grid (n : nat) (x : Q) : on_grid n x → py_round x n == x.
Proof.
  intros [k Hk]. pose proof (pow10_pos n) as Hp.
  unfold py_round.
  assert (E : x * inject_Z (pow10 n) == inject_Z k).
  { rewrite Hk. field. lra. }
  rewrite E, round_half_even_Z. symmetry. exact Hk.
Qed.

Lemma py_round_0 (n : nat) : py_round 0 n == 0.
Proof.
  apply py_round_on_grid. exists 0%Z. pose proof (pow10_pos n). field. lra.
Qed.

(** Rounding to binary64. *)

Lemma pow2_pos (e : Z) : 0 < pow2 e.
Proof. apply Qpower_0_lt. reflexivity. Qed.

Lemma pow2_add (a b : Z) : pow2 (a + b) == pow2 a * pow2 b.
Proof. apply Qpower_plus. discriminate. Qed.

Lemma pow2_inject (k : Z) : (0 <= k)%Z → pow2 k == inject_Z (2 ^ k).
Proof. intros H. unfold pow2. rewrite Zpower_Qpower by exact H. reflexivity. Qed.

Lemma pow2_mono (a b : Z) : (a <= b)%Z → pow2 a <= pow2 b.
Proof.
  intros H. unfold pow2. apply Qpower_le_compat_l; [exact H | discriminate].
Qed.

Lemma Qabs_make (x : Q) : Qabs x == inject_Z (Z.abs (Qnum x)) / inject_Z (Z.pos (Qden x)).
Proof.
  destruct x as [n d]. unfold Qabs. cbn [Qnum Qden].
  rewrite (Qmake_Qdiv (Z.abs n) d). reflexivity.
Qed.

(** [ilog2] never overshoots. *)
Lemma ilog2_le (x : Q) : ¬ x == 0 → pow2 (ilog2 x) <= Qabs x.
Proof.
  intros Hx. unfold ilog2.
  set (n := Z.abs (Qnum x)). set (d := Z.pos (Qden x)).
  destruct (Qle_bool (pow2 (Z.log2 n - Z.log2 d)) (Qabs x)) eqn:E.
  { apply Qle_bool_iff, E. }
  assert (Hn : (0 < n)%Z).
  { subst n. destruct x as [[|p|p] q]; cbn; try lia. exfalso. apply Hx. reflexivity. }
  assert (Hd : (0 < d)%Z) by (subst d; lia).
  pose proof (Z.log2_spec n Hn) as [Hn1 _].
  pose proof (Z.log2_spec d Hd) as [_ Hd2].
  pose proof (Z.log2_nonneg n) as Ln. pose proof (Z.log2_nonneg d) as Ld.
  rewrite Qabs_make. fold n d.
  replace (Z.log2 n - Z.log2 d - 1)%Z with (Z.log2 n + - (Z.succ (Z.log2 d)))%Z by lia.
  rewrite pow2_add. unfold pow2 at 2. rewrite Qpower_opp. fold (pow2 (Z.succ (Z.log2 d))).
  rewrite !pow2_inject by lia.
  assert (H1 : inject_Z (2 ^ Z.log2 n) <= inject_Z n) by (rewrite <- Zle_Qle; exact Hn1).
  assert (H2 : inject_Z d <= inject_Z (2 ^ Z.succ (Z.log2 d))).
  { rewrite <- Zle_Qle. lia. }
  assert (H3 : 0 < inject_Z d) by (change 0 with (inject_Z 0); rewrite <- Zlt_Qlt; exact Hd).
  assert (H4 : 0 < inject_Z (2 ^ Z.log2 n)).
  { change 0 with (inject_Z 0). rewrite <- Zlt_Qlt. apply Z.pow_pos_nonneg; lia. }
  unfold Qdiv. apply Qmult_le_compat_nonneg.
  - split; [lra | exact H1].
  - split.
    + apply Qlt_le_weak, Qinv_lt_0_compat. lra.
    + apply Qle_shift_inv_l; [exact H3|].
      assert (E' : / inject_Z (2 ^ Z.succ (Z.log2 d)) * inject_Z d
                   == inject_Z d / inject_Z (2 ^ Z.succ (Z.log2 d))) by (field; lra).
      rewrite E'. apply Qle_shift_div_r; lra.
Qed.

Lemma round_half_even_error (y : Q) :
  Qabs (inject_Z (round_half_even y) - y) <= 1 # 2.
Proof.
  pose proof (Qfloor_le y) as H1. pose proof (Qlt_floor y) as H2.
  rewrite inject_Z_plus in H2. change (inject_Z 1) with 1 in H2.
  apply Qabs_Qle_condition. unfold round_half_even.
  destruct (Qcompare_spec (y - inject_Z (Qfloor y)) (1 # 2)) as [E|E|E];
    [destruct (Z.even (Qfloor y))| |];
    rewrite ?inject_Z_plus; change (inject_Z 1) with 1; split; lra.
Qed.

(** The rounding error: half a unit in the last place. *)
Lemma b64_error (x : Q) :
  Qabs (b64 x - x) <= Qabs x * pow2 (-53) + pow2 (-1075).
Proof.
  unfold b64. destruct (Qeq_bool x 0) eqn:E0.
  { apply Qeq_bool_iff in E0. rewrite E0.
    pose proof (pow2_pos (-53)). pose proof (pow2_pos (-1075)).
    assert (Ez : Qabs (0 - 0) == 0) by reflexivity. rewrite Ez.
    assert (Ez' : Qabs 0 == 0) by reflexivity. rewrite Ez'. lra. }
  apply Qeq_bool_neq in E0.
  set (e := Z.max (ilog2 x - 52) (-1074)).
  pose proof (pow2_pos e) as He.
  pose proof (round_half_even_error (x / pow2 e)) as Hr.
  assert (Ed : inject_Z (round_half_even (x / pow2 e)) * pow2 e - x
               == (inject_Z (round_half_even (x / pow2 e)) - x / pow2 e) * pow2 e).
  { field. lra. }
  rewrite Ed, Qabs_Qmult, (Qabs_pos (pow2 e)) by lra.
  assert (Hhalf : Qabs (inject_Z (round_half_even (x / pow2 e)) - x / pow2 e) * pow2 e
                  <= (1 # 2) * pow2 e).
  { apply Qmult_le_compat_r; [exact Hr | lra]. }
  assert (Hpow : (1 # 2) * pow2 e <= Qabs x * pow2 (-53) + pow2 (-1075)).
  { pose proof (Qabs_nonneg x) as Hx. pose proof (pow2_pos (-53)) as H53.
    pose proof (pow2_pos (-1075)) as Hsub.
    destruct (Z.max_spec (ilog2 x - 52) (-1074)) as [[_ Em]|[_ Em]]; fold e in Em; rewrite Em.
    - assert (E1 : (1 # 2) * pow2 (-1074) == pow2 (-1075)) by reflexivity.
      rewrite E1. assert (0 <= Qabs x * pow2 (-53)) by (apply Qmult_le_0_compat; lra). lra.
    - replace (ilog2 x - 52)%Z with (ilog2 x + -52)%Z by lia. rewrite pow2_add.
      assert (E1 : (1 # 2) * (pow2 (ilog2 x) * pow2 (-52)) == pow2 (ilog2 x) * pow2 (-53)).
      { assert (E2 : pow2 (-53) == (1 # 2) * pow2 (-52)) by reflexivity.
        rewrite E2. ring. }
      rewrite E1.
      assert (pow2 (ilog2 x) * pow2 (-53) <= Qabs x * pow2 (-53)).
      { apply Qmult_le_compat_r; [apply ilog2_le, E0 | lra]. }
      lra. }
  lra.
Qed.

(** [b64] against the kernel's binary64 arithmetic, on the numbers used
    below: the literals 1.1, 0.85, 1.2 and 82.01, and the products 50 * 1.1,
    80 * 1.1 and 82.01 * 3. *)
Example b64_is_machine_rounding :
  b64 1.1 == float_value (machine 4953959590107546 (-52))
  ∧ b64 82.01 == float_value (machine 5770940710010225 (-46))
  ∧ b64 (50 * b64 1.1)
    == float_value (PrimFloat.mul (machine 50 0) (machine 4953959590107546 (-52)))
  ∧ b64 (80 * b64 1.1)
    == float_value (PrimFloat.mul (machine 80 0) (machine 4953959590107546 (-52)))
  ∧ b64 (b64 82.01 * 3)
    == float_value (PrimFloat.mul (machine 5770940710010225 (-46)) (machine 3 0))
  ∧ b64 (1 / 3) == float_value (PrimFloat.div (machine 1 0) (machine 3 0))
  ∧ b64 (b64 0.1 + b64 0.2)
    == float_value (PrimFloat.add (machine 3602879701896397 (-55))
                                  (machine 3602879701896397 (-54))).
Proof.
  repeat split; vm_compute; reflexivity.
Qed.

(** ** Fee model *)

Lemma total_fee_poshmark (sale_price : Q) :
  total_fee sale_price "poshmark"
  = if Qltb sale_price 15.00 then Ok 2.95 else Ok (sale_price * 0.20).
Proof. vm_compute. reflexivity. Qed.

Lemma total_fee_depop (sale_price : Q) :
  total_fee sale_price "depop"
  = Ok (sale_price * 0.10 + (sale_price * 0.029 + 0.30)).
Proof. vm_compute. reflexivity. Qed.

Lemma total_fee_percent (sale_price : Q) (platform : string) :
  platform ≠ "poshmark" → platform ≠ "depop" →
  total_fee sale_price platform
  = Ok (sale_price *
        dict_get (dict_get get_platform_fees platform {[ "fee_percent" := 0.10 ]})
                 "fee_percent" 0.10).
Proof.
  intros N1 N2. unfold total_fee.
  apply String.eqb_neq in N1, N2. rewrite N1, N2. reflexivity.
Qed.

Lemma total_fee_unlisted (sale_price : Q) (platform : string) :
  get_platform_fees !! platform = None →
  total_fee sale_price platform = Ok (sale_price * 0.10).
Proof.
  intros H. rewrite total_fee_percent.
  - unfold dict_get at 2. rewrite H. reflexivity.
  - intros ->. vm_compute in H. discriminate.
  - intros ->. vm_compute in H. discriminate.
Qed.

Lemma total_fee_ok (sale_price : Q) (platform : string) :
  ∃ fee, total_fee sale_price platform = Ok fee.
Proof.
  destruct (String.eqb_spec platform "poshmark") as [->|N1].
  { rewrite total_fee_poshmark. destruct (Qltb sale_price 15.00); eauto. }
  destruct (String.eqb_spec platform "depop") as [->|N2].
  { rewrite total_fee_depop. eauto. }
  rewrite total_fee_percent by assumption. eauto.
Qed.

(** What [calculate_net_profit] returns, given the fee. *)
Lemma calculate_net_profit_fee (sale_price : Q) (platform : string) (item_cost fee : Q) :
  total_fee sale_price platform = Ok fee →
  ∃ r, calculate_net_profit sale_price platform item_cost = Ok r
     ∧ pb_sale_price r = sale_price
     ∧ platform_fee r = py_round fee 2
     ∧ net_payout r = py_round (sale_price - fee) 2
     ∧ profit r = py_round (raw_profit (sale_price - fee) item_cost) 2
     ∧ profit_margin r ==
         if Qeq_dec sale_price 0 then 0
         else py_round (raw_profit (sale_price - fee) item_cost / sale_price * 100) 1.
Proof.
  intros Hfee. unfold calculate_net_profit. rewrite Hfee. cbn [mbind result_bind].
  destruct (truthy sale_price) eqn:T.
  - apply truthy_true in T. rewrite py_div_ok by assumption. cbn.
    eexists. split; [reflexivity|]. cbn. repeat split.
    destruct (Qeq_dec sale_price 0); [contradiction | reflexivity].
  - apply truthy_false in T. cbn. eexists. split; [reflexivity|]. cbn. repeat split.
    destruct (Qeq_dec sale_price 0); [apply py_round_0 | contradiction].
Qed.

Lemma calculate_net_profit_ok (sale_price : Q) (platform : string) (item_cost : Q) :
  ∃ r, calculate_net_profit sale_price platform item_cost = Ok r
     ∧ pb_sale_price r = sale_price.
Proof.
  destruct (total_fee_ok sale_price platform) as [fee Hfee].
  destruct (calculate_net_profit_fee sale_price platform item_cost fee Hfee)
    as (r & Hr & Hs & _).
  eauto.
Qed.

(** C1, as the code has it: for every positive sale_price,
    calculate_net_profit charges a total fee of sale_price × 0.05 with
    platform "xiaohongshu" (its entry in the fee table), and a total fee of
    sale_price × 0.10 with any platform string outside the fee table; the
    returned platform_fee is that fee rounded to 2 decimals. *)
Theorem C1_default_fee (sale_price item_cost : Q) (platform : string) :
  0 < sale_price →
  get_platform_fees !! platform = None →
  total_fee sale_price "xiaohongshu" = Ok (sale_price * 0.05)
  ∧ total_fee sale_price platform = Ok (sale_price * 0.10)
  ∧ (∃ r, calculate_net_profit sale_price "xiaohongshu" item_cost = Ok r
        ∧ platform_fee r = py_round (sale_price * 0.05) 2)
  ∧ (∃ r, calculate_net_profit sale_price platform item_cost = Ok r
        ∧ platform_fee r = py_round (sale_price * 0.10) 2).
Proof.
  intros _ Hout.
  assert (Hx : total_fee sale_price "xiaohongshu" = Ok (sale_price * 0.05))
    by (vm_compute; reflexivity).
  pose proof (total_fee_unlisted sale_price platform Hout) as Hp.
  repeat split; try assumption.
  - destruct (calculate_net_profit_fee _ _ item_cost _ Hx) as (r & Hr & _ & Hf & _); eauto.
  - destruct (calculate_net_profit_fee _ _ item_cost _ Hp) as (r & Hr & _ & Hf & _); eauto.
Qed.

Lemma C1_default_fee_witness :
  total_fee 100 "xiaohongshu" = Ok (100 * 0.05)
  ∧ total_fee 100 "etsy" = Ok (100 * 0.10)
  ∧ (∃ r, calculate_net_profit 100 "xiaohongshu" 0 = Ok r
        ∧ platform_fee r = py_round (100 * 0.05) 2)
  ∧ (∃ r, calculate_net_profit 100 "etsy" 0 = Ok r
        ∧ platform_fee r = py_round (100 * 0.10) 2).
Proof.
  apply (C1_default_fee 100 0 "etsy").
  - reflexivity.
  - vm_compute. reflexivity.
Defined.

(** C1 fails as stated: at sale_price 100 the platform "xiaohongshu" is
    charged 5, not 100 × 0.10 = 10. *)
Lemma C1_counterexample :
  ∃ r, calculate_net_profit 100 "xiaohongshu" 0 = Ok r
     ∧ total_fee 100 "xiaohongshu" = Ok (100 * 0.05)
     ∧ platform_fee r == 5
     ∧ ¬ 100 * 0.05 == 100 * 0.10
     ∧ ¬ platform_fee r == py_round (100 * 0.10) 2.
Proof.
  eexists. split; [vm_compute; reflexivity|].
  split; [vm_compute; reflexivity|].
  repeat split; cbn; intros H; discriminate H.
Qed.

(** C8: for platform "poshmark" with item_cost 0, calculate_net_profit
    charges the flat fee 2.95 exactly when sale_price < 15.00 and
    sale_price × 0.20 otherwise; sale_price 14.99 gives platform_fee 2.95
    and sale_price 15.00 gives platform_fee 3.00. *)
Theorem C8_poshmark_threshold (sale_price : Q) :
  total_fee sale_price "poshmark"
    = Ok (if Qlt_le_dec sale_price 15.00 then 2.95 else sale_price * 0.20)
  ∧ (∃ r, calculate_net_profit sale_price "poshmark" 0 = Ok r
        ∧ platform_fee r
          = py_round (if Qlt_le_dec sale_price 15.00 then 2.95 else sale_price * 0.20) 2)
  ∧ (∃ r, calculate_net_profit 14.99 "poshmark" 0 = Ok r ∧ platform_fee r == 2.95)
  ∧ (∃ r, calculate_net_profit 15.00 "poshmark" 0 = Ok r ∧ platform_fee r == 3.00).
Proof.
  assert (Hfee : total_fee sale_price "poshmark"
                 = Ok (if Qlt_le_dec sale_price 15.00 then 2.95 else sale_price * 0.20)).
  { rewrite total_fee_poshmark.
    destruct (Qlt_le_dec sale_price 15.00) as [Hlt|Hge].
    - apply Qltb_lt in Hlt. rewrite Hlt. reflexivity.
    - apply Qltb_ge in Hge. rewrite Hge. reflexivity. }
  split; [exact Hfee|]. split.
  - destruct (calculate_net_profit_fee _ _ 0 _ Hfee) as (r & Hr & _ & Hf & _). eauto.
  - split; eexists; (split; [vm_compute; reflexivity | reflexivity]).
Qed.

(** C9: calculate_net_profit never fails on any input: when sale_price is 0
    the division in the margin computation is not performed (it would raise
    ZeroDivisionError) and profit_margin is 0, while for every sale_price > 0
    (every sale_price other than 0) profit_margin equals
    round(profit / sale_price × 100, 1). *)
Theorem C9_net_profit_never_fails (sale_price : Q) (platform : string) (item_cost : Q) :
  ∃ fee r,
    total_fee sale_price platform = Ok fee
    ∧ calculate_net_profit sale_price platform item_cost = Ok r
    ∧ profit_margin r ==
        (if Qeq_dec sale_price 0 then 0
         else py_round (raw_profit (sale_price - fee) item_cost / sale_price * 100) 1)
    ∧ py_div (raw_profit (0 - fee) item_cost) 0
        = Raise (ZeroDivisionError "float division by zero").
Proof.
  destruct (total_fee_ok sale_price platform) as [fee Hfee].
  destruct (calculate_net_profit_fee _ _ item_cost _ Hfee) as (r & Hr & _ & _ & _ & _ & Hm).
  exists fee, r. repeat split; assumption || reflexivity.
Qed.

(** ** Retail-based estimator *)

Lemma estimate_from_retail_eq (retail_price : Q) (condition : string) :
  estimate_from_retail retail_price condition
  = let m := dict_get multipliers condition (0.30, 0.50) in
    Ok {| low := py_round (retail_price * fst m) 2;
          high := py_round (retail_price * snd m) 2;
          avg := py_round (retail_price * (fst m + snd m) / 2) 2 |}.
Proof.
  unfold estimate_from_retail.
  destruct (dict_get multipliers condition (0.30, 0.50)) as [lo hi].
  rewrite py_div_ok by (intros H; discriminate H). reflexivity.
Qed.

Lemma multipliers_pos (condition : string) :
  0 < fst (dict_get multipliers condition (0.30, 0.50))
  ∧ 0 < snd (dict_get multipliers condition (0.30, 0.50)).
Proof.
  unfold dict_get, multipliers.
  repeat (rewrite lookup_insert; case_decide; [split; reflexivity|]).
  rewrite lookup_singleton. case_decide; split; reflexivity.
Qed.

Lemma py_round_nonpos (x : Q) (n : nat) : x <= 0 → py_round x n <= 0.
Proof.
  intros H. rewrite <- (py_round_0 n). apply py_round_mono, H.
Qed.

(** C4, as the code has it: for every retail_price <= 0 and every condition
    grade, estimate_from_retail does not fail: it returns the {low, high,
    avg} result of the grade's multipliers (those of "good" for an unknown
    grade), whose three values are then zero or negative. *)
Theorem C4_estimate_non_positive (retail_price : Q) (condition : string) :
  retail_price <= 0 →
  ∃ e, estimate_from_retail retail_price condition = Ok e
     ∧ low e = py_round (retail_price * fst (dict_get multipliers condition (0.30, 0.50))) 2
     ∧ high e = py_round (retail_price * snd (dict_get multipliers condition (0.30, 0.50))) 2
     ∧ avg e = py_round (retail_price * (fst (dict_get multipliers condition (0.30, 0.50))
                                         + snd (dict_get multipliers condition (0.30, 0.50))) / 2) 2
     ∧ low e <= 0 ∧ high e <= 0 ∧ avg e <= 0.
Proof.
  intros Hr. rewrite estimate_from_retail_eq.
  destruct (multipliers_pos condition) as [Hlo Hhi].
  set (m := dict_get multipliers condition (0.30, 0.50)) in *.
  eexists. split; [reflexivity|]. cbn [low high avg].
  assert (Hl : retail_price * fst m <= 0) by nra.
  assert (Hh : retail_price * snd m <= 0) by nra.
  repeat split; apply py_round_nonpos; try assumption.
  assert (E : retail_price * (fst m + snd m) / 2
              == (retail_price * fst m + retail_price * snd m) * (1 # 2)) by field.
  rewrite E. lra.
Qed.

Lemma C4_estimate_non_positive_witness :
  ∃ e, estimate_from_retail (-100) "good" = Ok e
     ∧ low e = py_round (-100 * fst (dict_get multipliers "good" (0.30, 0.50))) 2
     ∧ high e = py_round (-100 * snd (dict_get multipliers "good" (0.30, 0.50))) 2
     ∧ avg e = py_round (-100 * (fst (dict_get multipliers "good" (0.30, 0.50))
                                 + snd (dict_get multipliers "good" (0.30, 0.50))) / 2) 2
     ∧ low e <= 0 ∧ high e <= 0 ∧ avg e <= 0.
Proof.
  apply (C4_estimate_non_positive (-100) "good"). discriminate.
Defined.

(** C4 fails as stated: for retail_price -100 (and for 0) and grade "good"
    estimate_from_retail returns a result and raises nothing. *)
Lemma C4_counterexample :
  (∃ e, estimate_from_retail (-100) "good" = Ok e
      ∧ low e == -30 ∧ high e == -50 ∧ avg e == -40)
  ∧ (∃ e, estimate_from_retail 0 "good" = Ok e
        ∧ low e == 0 ∧ high e == 0 ∧ avg e == 0)
  ∧ (∀ err, estimate_from_retail (-100) "good" ≠ Raise err)
  ∧ (∀ err, estimate_from_retail 0 "good" ≠ Raise err).
Proof.
  split; [|split; [|split]].
  - eexists. split; [vm_compute; reflexivity|]. repeat split.
  - eexists. split; [vm_compute; reflexivity|]. repeat split.
  - intros err H. vm_compute in H. discriminate H.
  - intros err H. vm_compute in H. discriminate H.
Qed.

(** ** Lists of prices *)

Lemma Qlen_cons (x : Q) (l : list Q) : Qlen (x :: l) == 1 + Qlen l.
Proof.
  unfold Qlen. cbn [length]. rewrite Nat2Z.inj_succ, <- Z.add_1_l, inject_Z_plus.
  reflexivity.
Qed.

Lemma Qlen_nonneg (l : list Q) : 0 <= Qlen l.
Proof.
  unfold Qlen. change 0 with (inject_Z 0). rewrite <- Zle_Qle. lia.
Qed.

Lemma Qlen_pos (l : list Q) : l ≠ [] → 0 < Qlen l.
Proof.
  destruct l as [|x l]; [congruence|]. intros _.
  rewrite Qlen_cons. pose proof (Qlen_nonneg l). lra.
Qed.

Lemma mean_ok (l : list Q) : l ≠ [] → mean l = Ok (Qsum l / Qlen l).
Proof. destruct l; [congruence | reflexivity]. Qed.

Section Partition.

Variable f : Q → bool.

Lemma Qsum_partition (l : list Q) :
  Qsum l == Qsum (List.filter f l) + Qsum (List.filter (fun x => negb (f x)) l).
Proof.
  induction l as [|x l IH]; cbn [Qsum fold_right List.filter].
  - reflexivity.
  - fold (Qsum l). destruct (f x); cbn [negb Qsum fold_right];
      fold (Qsum (List.filter f l));
      fold (Qsum (List.filter (fun x => negb (f x)) l)); lra.
Qed.

Lemma Qlen_partition (l : list Q) :
  Qlen l == Qlen (List.filter f l) + Qlen (List.filter (fun x => negb (f x)) l).
Proof.
  induction l as [|x l IH]; cbn [List.filter].
  - reflexivity.
  - rewrite Qlen_cons. destruct (f x); cbn [negb]; rewrite Qlen_cons; lra.
Qed.

Lemma length_partition (l : list Q) :
  length l
  = (length (List.filter f l) + length (List.filter (fun x => negb (f x)) l))%nat.
Proof.
  induction l as [|x l IH]; cbn [List.filter length]; [reflexivity|].
  destruct (f x); cbn [negb length]; lia.
Qed.

End Partition.

Lemma Qsum_lower (c : Q) (l : list Q) :
  (∀ x, In x l → c <= x) → c * Qlen l <= Qsum l.
Proof.
  induction l as [|x l IH]; intros H.
  - change (c * 0 <= 0). lra.
  - rewrite Qlen_cons. cbn [Qsum fold_right]. fold (Qsum l).
    pose proof (H x (or_introl eq_refl)).
    assert (c * Qlen l <= Qsum l) by (apply IH; intros y Hy; apply H; right; exact Hy).
    lra.
Qed.

Lemma Qsum_pos (l : list Q) :
  l ≠ [] → (∀ x, In x l → 0 < x) → 0 < Qsum l.
Proof.
  intros Hne H. destruct l as [|x l]; [congruence|].
  cbn [Qsum fold_right]. fold (Qsum l).
  pose proof (H x (or_introl eq_refl)).
  assert (0 * Qlen l <= Qsum l).
  { apply Qsum_lower. intros y Hy. apply Qlt_le_weak, H. right. exact Hy. }
  lra.
Qed.

(** Sorting keeps the elements. *)

Lemma insert_sorted_In (x y : Q) (l : list Q) :
  In y (insert_sorted x l) ↔ y = x ∨ In y l.
Proof.
  induction l as [|z l IH]; cbn [insert_sorted].
  - cbn. intuition.
  - destruct (Qle_bool x z); cbn [In]; [intuition | rewrite IH; intuition].
Qed.

Lemma sorted_In (y : Q) (l : list Q) : In y (sorted l) ↔ In y l.
Proof.
  induction l as [|x l IH]; cbn [sorted fold_right]; [reflexivity|].
  fold (sorted l). rewrite insert_sorted_In, IH. cbn. intuition.
Qed.

Lemma insert_sorted_length (x : Q) (l : list Q) :
  length (insert_sorted x l) = S (length l).
Proof.
  induction l as [|z l IH]; cbn [insert_sorted]; [reflexivity|].
  destruct (Qle_bool x z); cbn [length]; [reflexivity | rewrite IH; reflexivity].
Qed.

Lemma sorted_length (l : list Q) : length (sorted l) = length l.
Proof.
  induction l as [|x l IH]; cbn [sorted fold_right]; [reflexivity|].
  fold (sorted l). rewrite insert_sorted_length, IH. reflexivity.
Qed.

Lemma getindex_ok (data : list Q) (i : nat) :
  (i < length data)%nat → ∃ x, getindex data i = Ok x ∧ In x data.
Proof.
  intros Hi. unfold getindex.
  destruct (lookup_lt_is_Some_2 data i Hi) as [x Hx]. rewrite Hx.
  exists x. split; [reflexivity|].
  apply list_elem_of_In, list_elem_of_lookup. eauto.
Qed.

(** The median is an element, or the mean of two elements. *)
Lemma median_ok (l : list Q) :
  l ≠ [] →
  ∃ med a b, median l = Ok med ∧ In a l ∧ In b l ∧ med == (a + b) / 2.
Proof.
  intros Hne. unfold median. rewrite sorted_length.
  assert (Hlen : (0 < length l)%nat) by (destruct l; [congruence | cbn; lia]).
  destruct (Nat.eqb_spec (length l) 0) as [E|_]; [lia|].
  destruct (Nat.eqb_spec (length l mod 2) 1) as [Hodd|Heven].
  - destruct (getindex_ok (sorted l) (length l / 2)) as (x & Hx & Hin).
    { rewrite sorted_length. apply Nat.div_lt; lia. }
    rewrite Hx. exists x, x, x. apply (proj1 (sorted_In _ _)) in Hin.
    split; [reflexivity|]. split; [assumption|]. split; [assumption|]. field.
  - assert (Hhalf : (length l / 2 < length l)%nat) by (apply Nat.div_lt; lia).
    destruct (getindex_ok (sorted l) (length l / 2 - 1)) as (a & Ha & Hina).
    { rewrite sorted_length. lia. }
    destruct (getindex_ok (sorted l) (length l / 2)) as (b & Hb & Hinb).
    { rewrite sorted_length. lia. }
    rewrite Ha, Hb. cbn [mbind result_bind].
    rewrite py_div_ok by (intros H; discriminate H).
    exists ((a + b) / 2), a, b.
    apply (proj1 (sorted_In _ _)) in Hina. apply (proj1 (sorted_In _ _)) in Hinb.
    split; [reflexivity|]. split; [assumption|]. split; [assumption|]. reflexivity.
Qed.

Lemma fold_min_spec (l : list Q) (x : Q) :
  let m := fold_left (fun m y => if Qltb y m then y else m) l x in
  (m = x ∨ In m l) ∧ m <= x ∧ ∀ y, In y l → m <= y.
Proof.
  revert x. induction l as [|z l IH]; intros x; cbn [fold_left].
  - split; [left; reflexivity|]. split; [lra | intros y []].
  - destruct (Qltb z x) eqn:E.
    + apply Qltb_lt in E. destruct (IH z) as (Hin & Hle & Hall).
      split; [|split].
      * right. destruct Hin as [->|Hin]; [left; reflexivity | right; exact Hin].
      * lra.
      * intros y [<-|Hy]; [exact Hle | apply Hall, Hy].
    + apply Qltb_ge in E. destruct (IH x) as (Hin & Hle & Hall).
      split; [|split].
      * destruct Hin as [->|Hin]; [left; reflexivity | right; right; exact Hin].
      * exact Hle.
      * intros y [<-|Hy]; [lra | apply Hall, Hy].
Qed.

Lemma fold_max_spec (l : list Q) (x : Q) :
  let m := fold_left (fun m y => if Qltb m y then y else m) l x in
  (m = x ∨ In m l) ∧ x <= m ∧ ∀ y, In y l → y <= m.
Proof.
  revert x. induction l as [|z l IH]; intros x; cbn [fold_left].
  - split; [left; reflexivity|]. split; [lra | intros y []].
  - destruct (Qltb x z) eqn:E.
    + apply Qltb_lt in E. destruct (IH z) as (Hin & Hle & Hall).
      split; [|split].
      * right. destruct Hin as [->|Hin]; [left; reflexivity | right; exact Hin].
      * lra.
      * intros y [<-|Hy]; [exact Hle | apply Hall, Hy].
    + apply Qltb_ge in E. destruct (IH x) as (Hin & Hle & Hall).
      split; [|split].
      * destruct Hin as [->|Hin]; [left; reflexivity | right; right; exact Hin].
      * exact Hle.
      * intros y [<-|Hy]; [lra | apply Hall, Hy].
Qed.

Lemma py_min_ok (l : list Q) :
  l ≠ [] → ∃ m, py_min l = Ok m ∧ In m l ∧ ∀ y, In y l → m <= y.
Proof.
  destruct l as [|x l]; [congruence|]. intros _.
  destruct (fold_min_spec l x) as (Hin & Hle & Hall).
  eexists. split; [reflexivity|]. split.
  - destruct Hin as [->|Hin]; [left; reflexivity | right; exact Hin].
  - intros y [<-|Hy]; [exact Hle | apply Hall, Hy].
Qed.

Lemma py_max_ok (l : list Q) :
  l ≠ [] → ∃ m, py_max l = Ok m ∧ In m l ∧ ∀ y, In y l → y <= m.
Proof.
  destruct l as [|x l]; [congruence|]. intros _.
  destruct (fold_max_spec l x) as (Hin & Hle & Hall).
  eexists. split; [reflexivity|]. split.
  - destruct Hin as [->|Hin]; [left; reflexivity | right; exact Hin].
  - intros y [<-|Hy]; [exact Hle | apply Hall, Hy].
Qed.

(** ** Market statistics aggregator *)

Lemma outlier_pass_In (avg : Q) (prices : list Q) (p : Q) :
  In p (outlier_pass avg prices) ↔ In p prices ∧ p < avg * 3.
Proof.
  unfold outlier_pass. rewrite List.filter_In, Qltb_lt. reflexivity.
Qed.

Lemma outlier_pass_dec (avg : Q) (prices : list Q) :
  outlier_pass avg prices
  = List.filter (fun p => if Qlt_le_dec p (avg * 3) then true else false) prices.
Proof.
  unfold outlier_pass. apply List.filter_ext. intros p.
  destruct (Qlt_le_dec p (avg * 3)) as [H|H].
  - apply Qltb_lt, H.
  - apply Qltb_ge, H.
Qed.

Lemma filter_outliers_In (avg : Q) (prices : list Q) (p : Q) :
  In p (filter_outliers avg prices) → In p prices.
Proof.
  unfold filter_outliers.
  destruct (outlier_pass avg prices) as [|x l] eqn:E; [tauto|].
  rewrite <- E. intros H. apply outlier_pass_In in H. tauto.
Qed.

Lemma filter_outliers_nonempty (avg : Q) (prices : list Q) :
  prices ≠ [] → filter_outliers avg prices ≠ [].
Proof.
  unfold filter_outliers.
  destruct (outlier_pass avg prices); [tauto | discriminate].
Qed.

Lemma summarize_few (listings : list ScrapedListing) :
  (length listings < 3)%nat → summarize listings = Ok None.
Proof.
  intros H. unfold summarize.
  destruct (Nat.ltb_spec (length listings) 3); [reflexivity | lia].
Qed.

Lemma summarize_some (listings : list ScrapedListing) :
  (3 <= length listings)%nat →
  let prices := List.map price listings in
  let kept := filter_outliers (Qsum prices / Qlen prices) prices in
  ∃ med a b mn mx,
    mean prices = Ok (Qsum prices / Qlen prices)
    ∧ median kept = Ok med ∧ In a kept ∧ In b kept ∧ med == (a + b) / 2
    ∧ py_min kept = Ok mn ∧ In mn kept ∧ (∀ y, In y kept → mn <= y)
    ∧ py_max kept = Ok mx ∧ In mx kept ∧ (∀ y, In y kept → y <= mx)
    ∧ summarize listings
      = Ok (Some (summary_of kept mn mx (Qsum kept / Qlen kept) med)).
Proof.
  intros Hlen prices kept.
  assert (Hne : prices ≠ []).
  { intros E. apply (f_equal length) in E. unfold prices in E.
    rewrite List.length_map in E. cbn in E. lia. }
  assert (Hk : kept ≠ []) by (apply filter_outliers_nonempty, Hne).
  destruct (median_ok kept Hk) as (med & a & b & Hmed & Ha & Hb & Hab).
  destruct (py_min_ok kept Hk) as (mn & Hmn & Hmnin & Hmnle).
  destruct (py_max_ok kept Hk) as (mx & Hmx & Hmxin & Hmxle).
  exists med, a, b, mn, mx.
  repeat (split; [first [assumption | apply mean_ok, Hne]|]).
  unfold summarize.
  destruct (Nat.ltb_spec (length listings) 3); [lia|].
  fold prices. rewrite (mean_ok prices Hne). cbn [mbind result_bind].
  fold kept. rewrite Hmed, Hmn, Hmx, (mean_ok kept Hk). reflexivity.
Qed.

(** The counting argument: among positive prices, fewer than a third reach
    three times the mean. *)
Lemma outliers_under_a_third (prices : list Q) :
  prices ≠ [] →
  (∀ p, In p prices → 0 < p) →
  let avg := Qsum prices / Qlen prices in
  let dropped := List.filter (fun p => negb (Qltb p (avg * 3))) prices in
  outlier_pass avg prices ≠ []
  ∧ (3 * length dropped < length prices)%nat.
Proof.
  intros Hne Hpos avg dropped.
  pose proof (Qlen_pos prices Hne) as Hn.
  pose proof (Qsum_pos prices Hne Hpos) as HS.
  assert (Havg : avg * Qlen prices == Qsum prices) by (unfold avg; field; lra).
  assert (Havg0 : 0 < avg).
  { unfold avg. apply Qlt_shift_div_l; lra. }
  pose proof (Qsum_partition (fun p => Qltb p (avg * 3)) prices) as Hsum.
  pose proof (Qlen_partition (fun p => Qltb p (avg * 3)) prices) as Hcnt.
  pose proof (length_partition (fun p => Qltb p (avg * 3)) prices) as Hlen.
  cbv beta in Hsum, Hcnt, Hlen.
  fold (outlier_pass avg prices) in Hsum, Hcnt, Hlen. fold dropped in Hsum, Hcnt, Hlen.
  assert (Hd : avg * 3 * Qlen dropped <= Qsum dropped).
  { apply Qsum_lower. intros x Hx. apply List.filter_In in Hx as [_ Hx].
    apply negb_true_iff, Qltb_ge in Hx. exact Hx. }
  assert (Hk0 : 0 * Qlen (outlier_pass avg prices) <= Qsum (outlier_pass avg prices)).
  { apply Qsum_lower. intros x Hx. apply outlier_pass_In in Hx as [Hx _].
    apply Qlt_le_weak, Hpos, Hx. }
  assert (Hkept : outlier_pass avg prices ≠ []).
  { intros E. rewrite E in Hsum, Hcnt.
    change (Qsum []) with 0 in Hsum. change (Qlen []) with 0 in Hcnt.
    assert (Ed : Qlen dropped == Qlen prices) by lra.
    rewrite Ed in Hd. lra. }
  split; [exact Hkept|].
  assert (Hkpos : 0 < Qsum (outlier_pass avg prices)).
  { apply Qsum_pos; [exact Hkept|].
    intros x Hx. apply outlier_pass_In in Hx as [Hx _]. apply Hpos, Hx. }
  assert (Hq : 3 * Qlen dropped < Qlen prices).
  { apply Qnot_le_lt. intros Hge.
    assert (avg * Qlen prices <= avg * (3 * Qlen dropped)).
    { apply Qmult_le_l; assumption. }
    nra. }
  unfold Qlen in Hq. change 3 with (inject_Z 3) in Hq.
  rewrite <- inject_Z_mult, <- Zlt_Qlt in Hq. lia.
Qed.


Lemma prices_pos (listings : list ScrapedListing) :
  (∀ l, In l listings → 0 < price l) →
  ∀ p, In p (List.map price listings) → 0 < p.
Proof.
  intros H p Hp. apply List.in_map_iff in Hp as (l & <- & Hl). apply H, Hl.
Qed.

Lemma prices_nonempty (listings : list ScrapedListing) :
  (3 <= length listings)%nat → List.map price listings ≠ [].
Proof.
  intros H E. apply (f_equal length) in E. rewrite List.length_map in E.
  cbn in E. lia.
Qed.

(** *** In binary64 *)

Lemma Binary64_mean_ok (l : list Q) :
  l ≠ [] → Binary64.mean l = Ok (b64 (Qsum l / Qlen l)).
Proof. destruct l; [contradiction | reflexivity]. Qed.

Lemma Binary64_median_ok (l : list Q) :
  l ≠ [] → ∃ med, Binary64.median l = Ok med.
Proof.
  intros Hne. unfold Binary64.median.
  pose proof (sorted_length l) as Hlen.
  assert (Hpos : (0 < length l)%nat) by (destruct l; [contradiction | cbn; lia]).
  destruct (Nat.eqb_spec (length (sorted l)) 0) as [E|_]; [lia|].
  destruct (Nat.eqb_spec (length (sorted l) mod 2) 1) as [Hodd|Heven].
  - destruct (getindex_ok (sorted l) (length (sorted l) / 2)) as (x & Hx & _).
    { apply Nat.div_lt; lia. }
    exists x. exact Hx.
  - assert (Hmod : (length (sorted l) mod 2 = 0)%nat).
    { pose proof (Nat.mod_upper_bound (length (sorted l)) 2). lia. }
    assert (Hdiv : (length (sorted l) = 2 * (length (sorted l) / 2))%nat).
    { pose proof (Nat.div_mod_eq (length (sorted l)) 2). lia. }
    destruct (getindex_ok (sorted l) (length (sorted l) / 2 - 1)) as (a & Ha & _); [lia|].
    destruct (getindex_ok (sorted l) (length (sorted l) / 2)) as (b & Hb & _); [lia|].
    rewrite Ha, Hb. cbn [mbind result_bind]. unfold Binary64.div.
    eexists. reflexivity.
Qed.

Lemma Binary64_outlier_pass_In (avg : Q) (prices : list Q) (p : Q) :
  In p (Binary64.outlier_pass avg prices) ↔ In p prices ∧ p < b64 (avg * 3).
Proof.
  unfold Binary64.outlier_pass, Binary64.mul. rewrite List.filter_In, Qltb_lt. reflexivity.
Qed.

Lemma Binary64_outlier_pass_dec (avg : Q) (prices : list Q) :
  Binary64.outlier_pass avg prices
  = List.filter (fun p => if Qlt_le_dec p (b64 (avg * 3)) then true else false) prices.
Proof.
  unfold Binary64.outlier_pass, Binary64.mul. apply List.filter_ext. intros p.
  destruct (Qlt_le_dec p (b64 (avg * 3))) as [H|H].
  - apply Qltb_lt, H.
  - apply Qltb_ge, H.
Qed.

Lemma Binary64_filter_outliers_nonempty (avg : Q) (prices : list Q) :
  prices ≠ [] → Binary64.filter_outliers avg prices ≠ [].
Proof.
  intros H. unfold Binary64.filter_outliers.
  destruct (Binary64.outlier_pass avg prices); [exact H | discriminate].
Qed.

(** The computed threshold is three times the mean up to two roundings. *)
Lemma threshold_error (m : Q) :
  Qabs (b64 (b64 m * 3) - 3 * m) <= Qabs (3 * m) * pow2 (-51) + pow2 (-1072).
Proof.
  pose proof (b64_error m) as H1. pose proof (b64_error (b64 m * 3)) as H2.
  pose proof (pow2_pos (-53)) as Hu. pose proof (pow2_pos (-1075)) as Hn.
  assert (E51 : pow2 (-51) == 4 * pow2 (-53)) by reflexivity.
  assert (E72 : pow2 (-1072) == 8 * pow2 (-1075)) by reflexivity.
  assert (Hu1 : pow2 (-53) <= 1 # 8) by (apply Qle_bool_iff; vm_compute; reflexivity).
  rewrite E51, E72.
  assert (Ha : Qabs (3 * m) == 3 * Qabs m).
  { rewrite Qabs_Qmult. reflexivity. }
  assert (Hb : Qabs (b64 m * 3) == 3 * Qabs (b64 m)).
  { rewrite Qabs_Qmult. assert (E3 : Qabs 3 == 3) by reflexivity. rewrite E3. ring. }
  rewrite Ha. rewrite Hb in H2.
  assert (Hc : Qabs (b64 m) <= Qabs m + (Qabs m * pow2 (-53) + pow2 (-1075))).
  { assert (E : b64 m == m + (b64 m - m)) by ring. rewrite E at 1.
    eapply Qle_trans; [apply Qabs_triangle|]. lra. }
  assert (Hd : Qabs (b64 (b64 m * 3) - 3 * m)
               <= Qabs (b64 (b64 m * 3) - b64 m * 3) + 3 * Qabs (b64 m - m)).
  { assert (E : b64 (b64 m * 3) - 3 * m
                == (b64 (b64 m * 3) - b64 m * 3) + 3 * (b64 m - m)) by ring.
    rewrite E. eapply Qle_trans; [apply Qabs_triangle|].
    rewrite (Qabs_Qmult 3). assert (E3 : Qabs 3 == 3) by reflexivity. rewrite E3. lra. }
  pose proof (Qabs_nonneg m) as Hm.
  set (am := Qabs m) in *. set (ab := Qabs (b64 m)) in *.
  set (d1 := Qabs (b64 m - m)) in *. set (d2 := Qabs (b64 (b64 m * 3) - b64 m * 3)) in *.
  set (d3 := Qabs (b64 (b64 m * 3) - 3 * m)) in *.
  set (u := pow2 (-53)) in *. set (n := pow2 (-1075)) in *.
  clearbody am ab d1 d2 d3 u n. clear Ha Hb E51 E72.
  assert (P1 : 0 <= am * u) by (apply Qmult_le_0_compat; lra).
  assert (P2 : ab * u <= (am + (am * u + n)) * u).
  { apply Qmult_le_compat_r; lra. }
  assert (P3 : am * u * u <= am * u * (1 # 8)).
  { apply Qmult_le_compat_nonneg; split; lra. }
  assert (P4 : n * u <= n * (1 # 8)).
  { apply Qmult_le_compat_nonneg; split; lra. }
  nra.
Qed.

Lemma Binary64_summarize_some (listings : list ScrapedListing) :
  (3 <= length listings)%nat →
  let prices := List.map price listings in
  let kept := Binary64.filter_outliers (b64 (Qsum prices / Qlen prices)) prices in
  ∃ med mn mx,
    Binary64.median kept = Ok med
    ∧ py_min kept = Ok mn ∧ In mn kept ∧ (∀ y, In y kept → mn <= y)
    ∧ py_max kept = Ok mx ∧ In mx kept ∧ (∀ y, In y kept → y <= mx)
    ∧ Binary64.summarize listings
      = Ok (Some {| ms_count := length kept;
                    ms_min := mn;
                    ms_max := mx;
                    ms_avg := Binary64.round (b64 (Qsum kept / Qlen kept)) 2;
                    ms_median := Binary64.round med 2;
                    ms_quick_sale := Binary64.round (Binary64.mul med (b64 0.85)) 2;
                    ms_fair_price := Binary64.round med 2;
                    ms_max_value := Binary64.round (Binary64.mul med (b64 1.2)) 2;
                    ms_source := "live_scrape" |}).
Proof.
  intros Hlen prices kept.
  assert (Hne : prices ≠ []) by (apply prices_nonempty, Hlen).
  assert (Hk : kept ≠ []) by (apply Binary64_filter_outliers_nonempty, Hne).
  destruct (Binary64_median_ok kept Hk) as (med & Hmed).
  destruct (py_min_ok kept Hk) as (mn & Hmn & Hmnin & Hmnle).
  destruct (py_max_ok kept Hk) as (mx & Hmx & Hmxin & Hmxle).
  exists med, mn, mx.
  repeat (split; [assumption|]).
  unfold Binary64.summarize.
  destruct (Nat.ltb_spec (length listings) 3); [lia|].
  fold prices. rewrite (Binary64_mean_ok prices Hne). cbn [mbind result_bind].
  fold kept. rewrite Hmed, Hmn, Hmx, (Binary64_mean_ok kept Hk). reflexivity.
Qed.

(** C2, as the code has it: for every list of at least 3 price
    observations, get_real_market_prices computes the threshold once, in
    floating point, as mean(prices) × 3 (the arithmetic mean of the
    unfiltered list rounded to binary64, times 3, rounded again, which is
    3 × the arithmetic mean up to a relative error of 2^-51; it is never
    recomputed), drops every observation whose price exceeds that threshold
    and keeps every observation whose price is below it, and if the filter
    would empty the list it uses the unfiltered list instead, never failing
    solely due to filtering: a summary of the kept prices is returned. *)
Theorem C2_single_pass_filter (listings : list ScrapedListing) :
  (3 <= length listings)%nat →
  let prices := List.map price listings in
  let avg := b64 (Qsum prices / Qlen prices) in
  let threshold := b64 (avg * 3) in
  let below :=
    List.filter (fun p => if Qlt_le_dec p threshold then true else false) prices in
  let kept := match below with [] => prices | _ => below end in
  Binary64.mean prices = Ok avg
  ∧ Qabs (threshold - 3 * (Qsum prices / Qlen prices))
    <= Qabs (3 * (Qsum prices / Qlen prices)) * pow2 (-51) + pow2 (-1072)
  ∧ (∀ p, In p below ↔ In p prices ∧ p < threshold)
  ∧ Binary64.filter_outliers avg prices = kept
  ∧ ∃ s med,
      Binary64.median kept = Ok med
      ∧ Binary64.summarize listings = Ok (Some s)
      ∧ ms_count s = length kept
      ∧ ms_median s = Binary64.round med 2.
Proof.
  intros Hlen prices avg threshold below kept.
  destruct (Binary64_summarize_some listings Hlen)
    as (med & mn & mx & Hmed & _ & _ & _ & _ & _ & _ & Hs).
  fold prices in Hmed, Hs. fold avg in Hmed, Hs.
  assert (Hk : Binary64.filter_outliers avg prices = kept).
  { unfold Binary64.filter_outliers, kept, below, threshold.
    rewrite Binary64_outlier_pass_dec. reflexivity. }
  rewrite Hk in Hmed, Hs.
  split; [apply Binary64_mean_ok, prices_nonempty, Hlen|].
  split; [apply threshold_error|].
  split.
  { intros p. unfold below, threshold. rewrite <- Binary64_outlier_pass_dec.
    apply Binary64_outlier_pass_In. }
  split; [exact Hk|].
  eexists _, med. split; [exact Hmed|]. split; [exact Hs|]. split; reflexivity.
Qed.

Lemma C2_single_pass_filter_witness :
  let prices := List.map price (List.map (listing "eBay") boundary_prices) in
  let avg := b64 (Qsum prices / Qlen prices) in
  let threshold := b64 (avg * 3) in
  let below :=
    List.filter (fun p => if Qlt_le_dec p threshold then true else false) prices in
  let kept := match below with [] => prices | _ => below end in
  Binary64.mean prices = Ok avg
  ∧ Qabs (threshold - 3 * (Qsum prices / Qlen prices))
    <= Qabs (3 * (Qsum prices / Qlen prices)) * pow2 (-51) + pow2 (-1072)
  ∧ (∀ p, In p below ↔ In p prices ∧ p < threshold)
  ∧ Binary64.filter_outliers avg prices = kept
  ∧ ∃ s med,
      Binary64.median kept = Ok med
      ∧ Binary64.summarize (List.map (listing "eBay") boundary_prices) = Ok (Some s)
      ∧ ms_count s = length kept
      ∧ ms_median s = Binary64.round med 2.
Proof.
  apply (C2_single_pass_filter (List.map (listing "eBay") boundary_prices)).
  simpl. lia.
Defined.

(** C2 fails as stated.  With the sold prices 28.00, 12.32, 41.69 and
    246.03 the mean is 82.01 and the threshold 82.01 × 3 is
    246.03000000000003: the observation 246.03 exceeds 3 × the arithmetic
    mean of the four prices and it is kept.  With the prices 2, 3, 4 and 27
    the threshold is 27: the observation 27 does not exceed it, and it is
    dropped. *)
Lemma C2_counterexample :
  (∃ s,
     Binary64.summarize (List.map (listing "eBay") boundary_prices) = Ok (Some s)
     ∧ Binary64.mean boundary_prices = Ok (b64 82.01)
     ∧ 3 * (Qsum boundary_prices / Qlen boundary_prices) < b64 246.03
     ∧ b64 246.03 < b64 (b64 82.01 * 3)
     ∧ ms_count s = 4%nat
     ∧ ms_max s == b64 246.03)
  ∧ (∃ s,
       Binary64.summarize (List.map (listing "eBay") [2; 3; 4; 27]) = Ok (Some s)
       ∧ Binary64.mean [2; 3; 4; 27] = Ok (b64 9)
       ∧ b64 (b64 9 * 3) == 27
       ∧ ms_count s = 3%nat
       ∧ ms_max s == 4).
Proof.
  split.
  - eexists. split; [vm_compute; reflexivity|].
    split; [vm_compute; reflexivity|].
    split; [vm_compute; reflexivity|].
    split; [vm_compute; reflexivity|].
    split; [reflexivity|]. vm_compute. reflexivity.
  - eexists. split; [vm_compute; reflexivity|].
    split; [vm_compute; reflexivity|].
    split; [vm_compute; reflexivity|].
    split; [reflexivity|]. vm_compute. reflexivity.
Qed.

(** C6, as the code has it: every MarketSummary produced by
    get_real_market_prices (from any list of at least 3 positive prices)
    satisfies min ≤ med ≤ max for the unrounded median med of the kept
    prices, and quick_sale ≤ fair_price ≤ max_value, where the reported
    median is round(med, 2), quick_sale = round(med × 0.85, 2), fair_price =
    round(med, 2), max_value = round(med × 1.2, 2); the reported median lies
    between round(min, 2) and round(max, 2), min and max being reported
    unrounded. *)
Theorem C6_summary_order (listings : list ScrapedListing) :
  (3 <= length listings)%nat →
  (∀ l, In l listings → 0 < price l) →
  let prices := List.map price listings in
  ∃ s med,
    summarize listings = Ok (Some s)
    ∧ median (filter_outliers (Qsum prices / Qlen prices) prices) = Ok med
    ∧ ms_min s <= med ∧ med <= ms_max s
    ∧ ms_median s = py_round med 2
    ∧ ms_quick_sale s = py_round (med * 0.85) 2
    ∧ ms_fair_price s = py_round med 2
    ∧ ms_max_value s = py_round (med * 1.2) 2
    ∧ ms_quick_sale s <= ms_fair_price s ∧ ms_fair_price s <= ms_max_value s
    ∧ py_round (ms_min s) 2 <= ms_median s ∧ ms_median s <= py_round (ms_max s) 2.
Proof.
  intros Hlen Hpos prices.
  destruct (summarize_some listings Hlen)
    as (med & a & b & mn & mx & _ & Hmed & Ha & Hb & Hab
        & _ & Hmnin & Hmn & _ & Hmxin & Hmx & Hs).
  fold prices in Hmed, Ha, Hb, Hmnin, Hmn, Hmxin, Hmx, Hs.
  pose proof (Hmn a Ha). pose proof (Hmn b Hb).
  pose proof (Hmx a Ha). pose proof (Hmx b Hb).
  assert (0 < a) by (eapply prices_pos, filter_outliers_In; eassumption).
  assert (0 < b) by (eapply prices_pos, filter_outliers_In; eassumption).
  assert (Hmed2 : med == (a + b) * (1 # 2)) by (rewrite Hab; field).
  assert (Hlo : mn <= med) by lra.
  assert (Hhi : med <= mx) by lra.
  eexists _, med. split; [exact Hs|]. split; [exact Hmed|].
  cbn [summary_of ms_min ms_max ms_median ms_quick_sale ms_fair_price ms_max_value].
  repeat (split; [first [assumption | reflexivity | apply py_round_mono; lra]|]).
  apply py_round_mono; lra.
Qed.

Lemma C6_summary_order_witness :
  let prices := List.map price (List.map (listing "eBay") [40; 45; 50; 52; 200]) in
  ∃ s med,
    summarize (List.map (listing "eBay") [40; 45; 50; 52; 200]) = Ok (Some s)
    ∧ median (filter_outliers (Qsum prices / Qlen prices) prices) = Ok med
    ∧ ms_min s <= med ∧ med <= ms_max s
    ∧ ms_median s = py_round med 2
    ∧ ms_quick_sale s = py_round (med * 0.85) 2
    ∧ ms_fair_price s = py_round med 2
    ∧ ms_max_value s = py_round (med * 1.2) 2
    ∧ ms_quick_sale s <= ms_fair_price s ∧ ms_fair_price s <= ms_max_value s
    ∧ py_round (ms_min s) 2 <= ms_median s ∧ ms_median s <= py_round (ms_max s) 2.
Proof.
  apply (C6_summary_order (List.map (listing "eBay") [40; 45; 50; 52; 200])).
  - simpl. lia.
  - intros l Hl. simpl in Hl.
    repeat (destruct Hl as [<-|Hl]; [reflexivity|]). destruct Hl.
Defined.

(** C6 fails as stated: from the positive prices 12.344, 12.348 and 12.349
    the summary has max 12.349 and median round(12.348, 2) = 12.35, above
    the max. *)
Lemma C6_counterexample :
  ∃ s,
    summarize (List.map (listing "Poshmark") [12.344; 12.348; 12.349]) = Ok (Some s)
    ∧ ms_max s == 12.349
    ∧ ms_median s == 12.35
    ∧ ¬ ms_median s <= ms_max s.
Proof.
  eexists. split; [vm_compute; reflexivity|].
  split; [reflexivity|]. split; [reflexivity|].
  intros H. vm_compute in H. apply H. reflexivity.
Qed.

(** When every price has at most two decimals, the reported median lies
    between the reported min and max. *)
Lemma summary_order_two_decimals (listings : list ScrapedListing) (s : MarketSummary) :
  (∀ l, In l listings → on_grid 2 (price l)) →
  summarize listings = Ok (Some s) →
  ms_min s <= ms_median s ∧ ms_median s <= ms_max s.
Proof.
  intros Hgrid Hs.
  destruct (Nat.ltb_spec (length listings) 3) as [Hlt|Hge].
  { rewrite summarize_few in Hs by exact Hlt. discriminate. }
  destruct (summarize_some listings Hge)
    as (med & a & b & mn & mx & _ & Hmed & Ha & Hb & Hab
        & _ & Hmnin & Hmn & _ & Hmxin & Hmx & Hs').
  rewrite Hs' in Hs. injection Hs as <-.
  cbn [summary_of ms_min ms_max ms_median].
  assert (Hg : ∀ p, In p (List.map price listings) → on_grid 2 p).
  { intros p Hp. apply List.in_map_iff in Hp as (l & <- & Hl). apply Hgrid, Hl. }
  pose proof (Hmn a Ha). pose proof (Hmn b Hb).
  pose proof (Hmx a Ha). pose proof (Hmx b Hb).
  assert (Hmed2 : med == (a + b) * (1 # 2)) by (rewrite Hab; field).
  split.
  - rewrite <- (py_round_on_grid 2 mn) by (apply Hg, (filter_outliers_In _ _ _ Hmnin)).
    apply py_round_mono. lra.
  - rewrite <- (py_round_on_grid 2 mx) by (apply Hg, (filter_outliers_In _ _ _ Hmxin)).
    apply py_round_mono. lra.
Qed.



(** ** Recommendation engine *)

Lemma mapM_result_ok {A B} (f : A → result B) (l : list A) :
  (∀ x, ∃ y, f x = Ok y) → ∃ ys, mapM f l = Ok ys.
Proof.
  intros Hf. induction l as [|x l [ys IH]]; cbn [mapM].
  - eexists. reflexivity.
  - destruct (Hf x) as [y Hy]. rewrite Hy. cbn [mbind result_bind].
    rewrite IH. eexists. reflexivity.
Qed.

Lemma platform_breakdown_ok (t : Tiers) (item_cost : Q) :
  ∃ ps, platform_breakdown t item_cost = Ok ps.
Proof.
  unfold platform_breakdown. apply mapM_result_ok. intros platform.
  destruct (calculate_net_profit_ok (quick_sale t) platform item_cost) as (q & Hq & _).
  destruct (calculate_net_profit_ok (fair_price t) platform item_cost) as (f & Hf & _).
  destruct (calculate_net_profit_ok (max_value t) platform item_cost) as (m & Hm & _).
  rewrite Hq, Hf, Hm. eexists. reflexivity.
Qed.

Lemma fetch_live_disabled (net : Marketplaces) (query : string) :
  fetch_live net false query = (None, []).
Proof. reflexivity. Qed.

(** When the market data source raises, or returns no summary, nothing
    usable is bound to [real_prices]. *)
Lemma fetch_live_degraded (net : Marketplaces) (use_live_data : bool) (query : string) :
  (get_real_market_prices net query = Ok None
   ∨ ∃ e, get_real_market_prices net query = Raise e) →
  fst (fetch_live net use_live_data query) = None.
Proof.
  intros H. unfold fetch_live. destruct use_live_data; [|reflexivity].
  destruct H as [H|[e H]]; rewrite H; reflexivity.
Qed.

Section EngineFacts.

Variable estimator : Q → string → result Estimate.

(** The engine's result, once the branch has produced its tiers. *)
Lemma generate_of_branch (net : Marketplaces) (item_name brand condition : string)
    (retail_price : option Q) (item_cost : Q) (use_live_data : bool)
    (t : Tiers) (src : string) :
  branch_tiers_with estimator
    (fst (fetch_live net use_live_data (search_query item_name brand)))
    retail_price condition = Ok (t, src) →
  ∃ r,
    generate_price_recommendation_with estimator net item_name brand condition
      retail_price item_cost use_live_data
    = Ok (r, snd (fetch_live net use_live_data (search_query item_name brand)))
    ∧ data_source r = src
    ∧ market_data r = fst (fetch_live net use_live_data (search_query item_name brand))
    ∧ estimates r = apply_cost_floor item_cost t
    ∧ item r = item_name.
Proof.
  intros Hb. unfold generate_price_recommendation_with.
  destruct (fetch_live net use_live_data (search_query item_name brand))
    as [real_prices printed].
  cbn [fst snd] in *. rewrite Hb. cbn [mbind result_bind].
  destruct (platform_breakdown_ok (apply_cost_floor item_cost t) item_cost) as [ps Hps].
  rewrite Hps. cbn [mbind result_bind mret result_ret].
  eexists. split; [reflexivity|]. cbn. repeat split.
Qed.

(** A retail price equal to zero selects the same branch as no retail
    price, whatever the estimator. *)
Lemma branch_tiers_zero_retail (real_prices : option MarketSummary)
    (retail_price : Q) (condition : string) :
  retail_price == 0 →
  branch_tiers_with estimator real_prices (Some retail_price) condition
  = branch_tiers_with estimator real_prices None condition.
Proof.
  intros H. unfold branch_tiers_with, usable_retail.
  apply truthy_false in H. rewrite H. reflexivity.
Qed.

Lemma branch_tiers_default (real_prices : option MarketSummary) (condition : string) :
  usable_summary real_prices = None →
  branch_tiers_with estimator real_prices None condition
  = Ok (default_tiers, "default estimate").
Proof.
  intros H. unfold branch_tiers_with. rewrite H. reflexivity.
Qed.

End EngineFacts.

Lemma branch_tiers_ok (real_prices : option MarketSummary)
    (retail_price : option Q) (condition : string) :
  ∃ t src, branch_tiers real_prices retail_price condition = Ok (t, src)
    ∧ (usable_summary real_prices = None →
       src = "estimated from retail" ∨ src = "default estimate").
Proof.
  unfold branch_tiers, branch_tiers_with.
  destruct (usable_summary real_prices) as [rp|].
  { eexists _, _. split; [reflexivity | discriminate]. }
  destruct (usable_retail retail_price) as [r|].
  - rewrite estimate_from_retail_eq. cbn.
    eexists _, _. split; [reflexivity | intros _; left; reflexivity].
  - eexists _, _. split; [reflexivity | intros _; right; reflexivity].
Qed.

Lemma usable_summary_None : usable_summary None = None.
Proof. reflexivity. Qed.

(** The engine never fails, whatever the network does. *)
Lemma generate_price_recommendation_ok (net : Marketplaces)
    (item_name brand condition : string) (retail_price : option Q)
    (item_cost : Q) (use_live_data : bool) :
  ∃ r out t src,
    generate_price_recommendation net item_name brand condition retail_price
      item_cost use_live_data = Ok (r, out)
    ∧ branch_tiers (fst (fetch_live net use_live_data (search_query item_name brand)))
        retail_price condition = Ok (t, src)
    ∧ data_source r = src
    ∧ market_data r = fst (fetch_live net use_live_data (search_query item_name brand))
    ∧ estimates r = apply_cost_floor item_cost t.
Proof.
  destruct (branch_tiers_ok
              (fst (fetch_live net use_live_data (search_query item_name brand)))
              retail_price condition) as (t & src & Hb & _).
  destruct (generate_of_branch estimate_from_retail net item_name brand condition
              retail_price item_cost use_live_data t src Hb)
    as (r & Hr & Hsrc & Hmd & Hest & _).
  exists r, (snd (fetch_live net use_live_data (search_query item_name brand))), t, src.
  repeat split; assumption.
Qed.

Lemma platform_breakdown_rows (t : Tiers) (item_cost : Q)
    (ps : list (string * PlatformTiers)) :
  platform_breakdown t item_cost = Ok ps →
  List.map fst ps = ["poshmark"; "depop"; "mercari"; "ebay"]
  ∧ ∀ platform pt, In (platform, pt) ps → breakdown_row t item_cost platform pt.
Proof.
  unfold platform_breakdown. cbn [mapM].
  repeat match goal with
  | |- context [calculate_net_profit ?s ?p ?c] =>
      let r := fresh "r" in let H := fresh "H" in
      destruct (calculate_net_profit_ok s p c) as (r & H & _); rewrite H;
      cbn [mbind result_bind mret result_ret]
  end.
  intros [= <-]. split; [reflexivity|].
  intros platform pt [E|[E|[E|[E|[]]]]]; injection E as <- <-;
    (split; [|split]); assumption.
Qed.

Section EngineSpec.

Variable estimator : Q → string → result Estimate.

(** Everything the engine returns, once the branch has produced its tiers. *)
Lemma generate_complete (net : Marketplaces) (item_name brand_name grade : string)
    (retail_price : option Q) (item_cost : Q) (use_live_data : bool)
    (t : Tiers) (src : string) :
  branch_tiers_with estimator
    (fst (fetch_live net use_live_data (search_query item_name brand_name)))
    retail_price grade = Ok (t, src) →
  ∃ r,
    generate_price_recommendation_with estimator net item_name brand_name grade
      retail_price item_cost use_live_data
    = Ok (r, snd (fetch_live net use_live_data (search_query item_name brand_name)))
    ∧ data_source r = src
    ∧ market_data r = fst (fetch_live net use_live_data (search_query item_name brand_name))
    ∧ complete r item_name brand_name grade item_cost t.
Proof.
  intros Hb. unfold generate_price_recommendation_with.
  destruct (fetch_live net use_live_data (search_query item_name brand_name))
    as [real_prices printed].
  cbn [fst snd] in *. rewrite Hb. cbn [mbind result_bind].
  destruct (platform_breakdown_ok (apply_cost_floor item_cost t) item_cost) as [ps Hps].
  rewrite Hps. cbn [mbind result_bind mret result_ret].
  destruct (platform_breakdown_rows _ _ _ Hps) as [Hkeys Hrows].
  eexists. split; [reflexivity|]. cbn [data_source market_data].
  split; [reflexivity|]. split; [reflexivity|].
  unfold complete. cbn [item brand condition estimates platforms recommendation].
  split; [reflexivity|]. split; [reflexivity|]. split; [reflexivity|].
  split; [reflexivity|]. split; [exact Hkeys|]. split; [exact Hrows | reflexivity].
Qed.

(** When the estimator raises, so does the engine. *)
Lemma generate_raises (net : Marketplaces) (item_name brand_name grade : string)
    (retail_price : option Q) (item_cost : Q) (use_live_data : bool) (err : exn) :
  branch_tiers_with estimator
    (fst (fetch_live net use_live_data (search_query item_name brand_name)))
    retail_price grade = Raise err →
  generate_price_recommendation_with estimator net item_name brand_name grade
    retail_price item_cost use_live_data = Raise err.
Proof.
  intros Hb. unfold generate_price_recommendation_with.
  destruct (fetch_live net use_live_data (search_query item_name brand_name))
    as [real_prices printed].
  cbn [fst] in Hb. rewrite Hb. reflexivity.
Qed.

(** A retail price other than zero selects the retail-estimate branch. *)
Lemma branch_tiers_retail (real_prices : option MarketSummary)
    (retail_price : Q) (grade : string) :
  usable_summary real_prices = None →
  ¬ retail_price == 0 →
  branch_tiers_with estimator real_prices (Some retail_price) grade
  = (e ← estimator retail_price grade; mret (estimate_tiers e, "estimated from retail")).
Proof.
  intros Hlive Hr. unfold branch_tiers_with, usable_retail.
  rewrite Hlive. apply truthy_true in Hr. rewrite Hr. reflexivity.
Qed.

End EngineSpec.

(** C3, as the code has it: in generate_price_recommendation, for every
    call where the live-data branch is not taken, a retail_price that is
    zero is treated exactly as if no retail price was provided: the engine
    takes the static-default branch (quick_sale=25, fair_price=50,
    max_value=75, data_source "default estimate") and never invokes the
    retail estimator, whatever the estimator is.  Every other retail_price,
    a negative one included, counts as provided: the engine calls the
    estimator on it, returns the estimator's low, avg and high as quick_sale,
    fair_price and max_value tagged "estimated from retail", and fails when
    the estimator fails. *)
Theorem C3_zero_retail_is_default (estimator : Q → string → result Estimate)
    (net : Marketplaces) (item_name brand_name grade : string)
    (retail_price item_cost : Q) (use_live_data : bool) :
  usable_summary (fst (fetch_live net use_live_data (search_query item_name brand_name)))
    = None →
  if Qeq_dec retail_price 0 then
    branch_tiers_with estimator
      (fst (fetch_live net use_live_data (search_query item_name brand_name)))
      (Some retail_price) grade = Ok (default_tiers, "default estimate")
    ∧ quick_sale default_tiers == 25
    ∧ fair_price default_tiers == 50
    ∧ max_value default_tiers == 75
    ∧ generate_price_recommendation_with estimator net item_name brand_name grade
        (Some retail_price) item_cost use_live_data
      = generate_price_recommendation_with estimator net item_name brand_name grade
          None item_cost use_live_data
    ∧ ∃ r out,
        generate_price_recommendation_with estimator net item_name brand_name grade
          (Some retail_price) item_cost use_live_data = Ok (r, out)
        ∧ data_source r = "default estimate"
        ∧ complete r item_name brand_name grade item_cost default_tiers
  else
    branch_tiers_with estimator
      (fst (fetch_live net use_live_data (search_query item_name brand_name)))
      (Some retail_price) grade
    = (e ← estimator retail_price grade; mret (estimate_tiers e, "estimated from retail"))
    ∧ (∀ e, estimator retail_price grade = Ok e →
         ∃ r out,
           generate_price_recommendation_with estimator net item_name brand_name grade
             (Some retail_price) item_cost use_live_data = Ok (r, out)
           ∧ data_source r = "estimated from retail"
           ∧ complete r item_name brand_name grade item_cost (estimate_tiers e))
    ∧ (∀ err, estimator retail_price grade = Raise err →
         generate_price_recommendation_with estimator net item_name brand_name grade
           (Some retail_price) item_cost use_live_data = Raise err)
    ∧ ∃ e r out,
        estimate_from_retail retail_price grade = Ok e
        ∧ generate_price_recommendation net item_name brand_name grade
            (Some retail_price) item_cost use_live_data = Ok (r, out)
        ∧ data_source r = "estimated from retail"
        ∧ complete r item_name brand_name grade item_cost (estimate_tiers e).
Proof.
  intros Hlive. destruct (Qeq_dec retail_price 0) as [Hz|Hnz].
  - assert (Hb : branch_tiers_with estimator
                   (fst (fetch_live net use_live_data (search_query item_name brand_name)))
                   (Some retail_price) grade = Ok (default_tiers, "default estimate")).
    { rewrite (branch_tiers_zero_retail estimator _ _ _ Hz).
      apply branch_tiers_default, Hlive. }
    split; [exact Hb|]. split; [reflexivity|]. split; [reflexivity|].
    split; [reflexivity|]. split.
    { unfold generate_price_recommendation_with.
      destruct (fetch_live net use_live_data (search_query item_name brand_name))
        as [real_prices printed].
      rewrite (branch_tiers_zero_retail estimator _ _ _ Hz). reflexivity. }
    destruct (generate_complete estimator net item_name brand_name grade
                (Some retail_price) item_cost use_live_data _ _ Hb)
      as (r & Hr & Hsrc & _ & Hc).
    eexists r, _. split; [exact Hr|]. split; assumption.
  - pose proof (branch_tiers_retail estimator _ retail_price grade Hlive Hnz) as Hb.
    split; [exact Hb|]. split; [|split].
    + intros e He. rewrite He in Hb. cbn [mbind result_bind mret result_ret] in Hb.
      destruct (generate_complete estimator net item_name brand_name grade
                  (Some retail_price) item_cost use_live_data _ _ Hb)
        as (r & Hr & Hsrc & _ & Hc).
      eexists r, _. split; [exact Hr|]. split; assumption.
    + intros err He. rewrite He in Hb. apply generate_raises, Hb.
    + pose proof (branch_tiers_retail estimate_from_retail _ retail_price grade Hlive Hnz)
        as Hb'.
      rewrite estimate_from_retail_eq in Hb'. cbv zeta in Hb'.
      cbn [mbind result_bind mret result_ret] in Hb'.
      destruct (generate_complete estimate_from_retail net item_name brand_name grade
                  (Some retail_price) item_cost use_live_data _ _ Hb')
        as (r & Hr & Hsrc & _ & Hc).
      eexists _, r, _. split; [apply estimate_from_retail_eq|].
      split; [exact Hr|]. split; assumption.
Qed.

Lemma C3_zero_retail_is_default_witness :
  (branch_tiers_with tripwire
     (fst (fetch_live offline true (search_query "boots" "Dr. Martens")))
     (Some 0) "good" = Ok (default_tiers, "default estimate")
   ∧ quick_sale default_tiers == 25
   ∧ fair_price default_tiers == 50
   ∧ max_value default_tiers == 75
   ∧ generate_price_recommendation_with tripwire offline "boots" "Dr. Martens" "good"
       (Some 0) 50 true
     = generate_price_recommendation_with tripwire offline "boots" "Dr. Martens" "good"
         None 50 true
   ∧ ∃ r out,
       generate_price_recommendation_with tripwire offline "boots" "Dr. Martens" "good"
         (Some 0) 50 true = Ok (r, out)
       ∧ data_source r = "default estimate"
       ∧ complete r "boots" "Dr. Martens" "good" 50 default_tiers)
  ∧ (branch_tiers_with tripwire
       (fst (fetch_live offline true (search_query "boots" "Dr. Martens")))
       (Some (-100)) "good"
     = (e ← tripwire (-100) "good"; mret (estimate_tiers e, "estimated from retail"))
     ∧ (∀ e, tripwire (-100) "good" = Ok e →
          ∃ r out,
            generate_price_recommendation_with tripwire offline "boots" "Dr. Martens"
              "good" (Some (-100)) 50 true = Ok (r, out)
            ∧ data_source r = "estimated from retail"
            ∧ complete r "boots" "Dr. Martens" "good" 50 (estimate_tiers e))
     ∧ (∀ err, tripwire (-100) "good" = Raise err →
          generate_price_recommendation_with tripwire offline "boots" "Dr. Martens"
            "good" (Some (-100)) 50 true = Raise err)
     ∧ ∃ e r out,
         estimate_from_retail (-100) "good" = Ok e
         ∧ generate_price_recommendation offline "boots" "Dr. Martens" "good"
             (Some (-100)) 50 true = Ok (r, out)
         ∧ data_source r = "estimated from retail"
         ∧ complete r "boots" "Dr. Martens" "good" 50 (estimate_tiers e)).
Proof.
  split.
  - exact (C3_zero_retail_is_default tripwire offline "boots" "Dr. Martens" "good"
             0 50 true eq_refl).
  - exact (C3_zero_retail_is_default tripwire offline "boots" "Dr. Martens" "good"
             (-100) 50 true eq_refl).
Defined.

(** C3 fails as stated: with live data disabled and retail_price -100 the
    engine takes the retail-estimate branch and calls the estimator; the
    tiers are -30, -40 and -50. *)
Lemma C3_counterexample :
  (∃ r out,
     generate_price_recommendation offline "boots" "" "good" (Some (-100)) 0 false
       = Ok (r, out)
     ∧ data_source r = "estimated from retail"
     ∧ data_source r ≠ "default estimate"
     ∧ quick_sale (estimates r) == -30
     ∧ fair_price (estimates r) == -40
     ∧ max_value (estimates r) == -50)
  ∧ branch_tiers None (Some (-100)) "good" ≠ Ok (default_tiers, "default estimate")
  ∧ generate_price_recommendation_with tripwire offline "boots" "" "good"
      (Some (-100)) 0 false
    = Raise (OtherException "retail estimator called").
Proof.
  split; [|split].
  - eexists _, _. split; [vm_compute; reflexivity|].
    split; [reflexivity|]. split; [discriminate|]. repeat split.
  - intros H. vm_compute in H. discriminate H.
  - vm_compute. reflexivity.
Qed.

(** What the guarded call prints. *)
Lemma fetch_live_printed (net : Marketplaces) (use_live_data : bool) (query : string) :
  snd (fetch_live net use_live_data query)
  = if use_live_data then
      match get_real_market_prices net query with
      | Ok _ => []
      | Raise e => ["Live price fetch failed: " +:+ exn_str e]
      end
    else [].
Proof.
  unfold fetch_live. destruct use_live_data; [|reflexivity].
  destruct (get_real_market_prices net query); reflexivity.
Qed.

(** C5: for every observation list with fewer than 3 observations, the
    aggregator signals insufficient data (returns no MarketSummary), and for
    every behaviour of the market data source — too few observations or
    outright failure — generate_price_recommendation does not fail: it
    returns a complete Recommendation via the retail-estimate or default
    branch: no market data, the tiers and the tag of the branch that the
    truth value of retail_price selects, the platform table of those tiers,
    and a failure of the source printed, not raised. *)
Theorem C5_insufficient_data_degrades (listings : list ScrapedListing)
    (net : Marketplaces) (item_name brand_name grade : string)
    (retail_price : option Q) (item_cost : Q) (use_live_data : bool) :
  (length listings < 3)%nat →
  (get_real_market_prices net (search_query item_name brand_name) = summarize listings
   ∨ ∃ e, get_real_market_prices net (search_query item_name brand_name) = Raise e) →
  summarize listings = Ok None
  ∧ Binary64.summarize listings = Ok None
  ∧ ∃ r out,
      generate_price_recommendation net item_name brand_name grade retail_price
        item_cost use_live_data = Ok (r, out)
      ∧ out = (if use_live_data then
                 match get_real_market_prices net (search_query item_name brand_name) with
                 | Ok _ => []
                 | Raise e => ["Live price fetch failed: " +:+ exn_str e]
                 end
               else [])
      ∧ market_data r = None
      ∧ match retail_price with
        | Some p =>
            if Qeq_dec p 0 then
              data_source r = "default estimate"
              ∧ complete r item_name brand_name grade item_cost default_tiers
            else
              ∃ e, estimate_from_retail p grade = Ok e
                 ∧ data_source r = "estimated from retail"
                 ∧ complete r item_name brand_name grade item_cost (estimate_tiers e)
        | None =>
            data_source r = "default estimate"
            ∧ complete r item_name brand_name grade item_cost default_tiers
        end.
Proof.
  intros Hfew Hsrc.
  pose proof (summarize_few listings Hfew) as Hnone.
  split; [exact Hnone|]. split.
  { unfold Binary64.summarize.
    destruct (Nat.ltb_spec (length listings) 3); [reflexivity | lia]. }
  assert (Hlive : fst (fetch_live net use_live_data (search_query item_name brand_name))
                  = None).
  { apply fetch_live_degraded. rewrite Hnone in Hsrc. exact Hsrc. }
  assert (Hb : ∃ t src,
             branch_tiers (fst (fetch_live net use_live_data
                                  (search_query item_name brand_name)))
               retail_price grade = Ok (t, src)
             ∧ match usable_retail retail_price with
               | Some p => ∃ e, estimate_from_retail p grade = Ok e
                              ∧ src = "estimated from retail" ∧ t = estimate_tiers e
               | None => src = "default estimate" ∧ t = default_tiers
               end).
  { rewrite Hlive. unfold branch_tiers, branch_tiers_with. cbn [usable_summary].
    destruct (usable_retail retail_price) as [p|].
    - rewrite estimate_from_retail_eq. cbv zeta. cbn [mbind result_bind mret result_ret].
      eexists _, _. split; [reflexivity|]. eexists. split; [reflexivity|].
      split; reflexivity.
    - eexists _, _. split; [reflexivity|]. split; reflexivity. }
  destruct Hb as (t & src & Hb & Hcase).
  destruct (generate_complete estimate_from_retail net item_name brand_name grade
              retail_price item_cost use_live_data t src Hb)
    as (r & Hr & Hs & Hmd & Hc).
  exists r, (snd (fetch_live net use_live_data (search_query item_name brand_name))).
  split; [exact Hr|]. split; [apply fetch_live_printed|].
  split; [rewrite Hmd; exact Hlive|].
  destruct retail_price as [p|]; cbn [usable_retail] in Hcase.
  - destruct (Qeq_dec p 0) as [Hz|Hnz].
    + apply truthy_false in Hz. rewrite Hz in Hcase.
      destruct Hcase as [-> ->]. split; assumption.
    + apply truthy_true in Hnz. rewrite Hnz in Hcase.
      destruct Hcase as (e & He & -> & ->). exists e.
      split; [exact He|]. split; assumption.
  - destruct Hcase as [-> ->]. split; assumption.
Qed.

Lemma C5_insufficient_data_degrades_witness :
  summarize [listing "eBay" 40; listing "eBay" 45] = Ok None
  ∧ Binary64.summarize [listing "eBay" 40; listing "eBay" 45] = Ok None
  ∧ ∃ r out,
      generate_price_recommendation two_listings "boots" "Dr. Martens" "good" (Some 200)
        50 true = Ok (r, out)
      ∧ out = []
      ∧ market_data r = None
      ∧ ∃ e, estimate_from_retail 200 "good" = Ok e
           ∧ data_source r = "estimated from retail"
           ∧ complete r "boots" "Dr. Martens" "good" 50 (estimate_tiers e).
Proof.
  refine (C5_insufficient_data_degrades [listing "eBay" 40; listing "eBay" 45]
            two_listings "boots" "Dr. Martens" "good" (Some 200) 50 true _ _).
  - simpl. lia.
  - left. reflexivity.
Defined.

(** When the source raises and no retail price is given, the failure is
    printed and the defaults are returned. *)
Example broken_source_is_logged :
  ∃ r,
    generate_price_recommendation broken "boots" "Dr. Martens" "good" None 0 true
    = Ok (r, ["Live price fetch failed: connection reset"])
    ∧ data_source r = "default estimate".
Proof. eexists. split; [vm_compute; reflexivity | reflexivity]. Qed.

(** The binary64 floor is [item_cost * 1.1] up to two roundings. *)
Lemma cost_floor_error (item_cost : Q) :
  0 <= item_cost →
  Qabs (b64 (item_cost * b64 1.1) - item_cost * 1.1)
  <= item_cost * 1.1 * pow2 (-51) + pow2 (-1075).
Proof.
  intros Hc.
  pose proof (b64_error (item_cost * b64 1.1)) as He.
  assert (Hk : 0 <= b64 1.1) by (apply Qle_bool_iff; vm_compute; reflexivity).
  assert (Hx : 0 <= item_cost * b64 1.1) by (apply Qmult_le_0_compat; assumption).
  rewrite (Qabs_pos _ Hx) in He.
  apply Qabs_Qle_condition in He. destruct He as [He1 He2].
  assert (K1 : b64 1.1 * (1 + pow2 (-53)) <= 1.1 * (1 + pow2 (-51))).
  { apply Qle_bool_iff. vm_compute. reflexivity. }
  assert (K2 : 1.1 * (1 - pow2 (-51)) <= b64 1.1 * (1 - pow2 (-53))).
  { apply Qle_bool_iff. vm_compute. reflexivity. }
  assert (M1 : item_cost * (b64 1.1 * (1 + pow2 (-53)))
               <= item_cost * (1.1 * (1 + pow2 (-51)))).
  { apply Qmult_le_compat_nonneg; split; [exact Hc | lra | | exact K1].
    apply Qmult_le_0_compat; [exact Hk|]. pose proof (pow2_pos (-53)). lra. }
  assert (M2 : item_cost * (1.1 * (1 - pow2 (-51)))
               <= item_cost * (b64 1.1 * (1 - pow2 (-53)))).
  { apply Qmult_le_compat_nonneg; split; [exact Hc | lra | | exact K2].
    apply Qle_bool_iff. vm_compute. reflexivity. }
  apply Qabs_Qle_condition.
  generalize dependent (b64 (item_cost * b64 1.1)). intros fl He1 He2.
  generalize dependent (pow2 (-1075)). intros eta He1 He2.
  split.
  - assert (E : item_cost * (1.1 * (1 - pow2 (-51)))
                == item_cost * 1.1 - item_cost * 1.1 * pow2 (-51)) by ring.
    assert (E' : item_cost * (b64 1.1 * (1 - pow2 (-53)))
                 == item_cost * b64 1.1 - item_cost * b64 1.1 * pow2 (-53)) by ring.
    rewrite E, E' in M2. clear E E' M1 K1 K2.
    generalize dependent (item_cost * 1.1 * pow2 (-51)).
    generalize dependent (item_cost * b64 1.1 * pow2 (-53)).
    generalize dependent (item_cost * b64 1.1). generalize dependent (item_cost * 1.1).
    intros; lra.
  - assert (E : item_cost * (1.1 * (1 + pow2 (-51)))
                == item_cost * 1.1 + item_cost * 1.1 * pow2 (-51)) by ring.
    assert (E' : item_cost * (b64 1.1 * (1 + pow2 (-53)))
                 == item_cost * b64 1.1 + item_cost * b64 1.1 * pow2 (-53)) by ring.
    rewrite E, E' in M1. clear E E' M2 K1 K2.
    generalize dependent (item_cost * 1.1 * pow2 (-51)).
    generalize dependent (item_cost * b64 1.1 * pow2 (-53)).
    generalize dependent (item_cost * b64 1.1). generalize dependent (item_cost * 1.1).
    intros; lra.
Qed.

(** C7, as the code has it: in generate_price_recommendation, whenever
    item_cost > 0 the returned quick_sale and fair_price each equal the
    maximum of the branch-computed tier and the binary64 product
    item_cost × 1.1 (which is item_cost × 1.10 up to a relative error of
    2^-51 and is not rounded to cents), while max_value is left exactly as
    the branch computed it (never floored); in particular, with
    item_cost=50, no retail price, and live data disabled, the defaults
    {25, 50, 75} yield quick_sale = fair_price = 55.000000000000007 (that is
    55 + 2^-47, shown as 55.00 in the recommendation line) and
    max_value = 75. *)
Theorem C7_cost_floor (net : Marketplaces) (item_name brand_name grade : string)
    (retail_price : option Q) (item_cost : Q) (use_live_data : bool) :
  0 < item_cost →
  (∃ t src r out,
     branch_tiers (fst (fetch_live net use_live_data (search_query item_name brand_name)))
       retail_price grade = Ok (t, src)
     ∧ generate_price_recommendation net item_name brand_name grade retail_price
         item_cost use_live_data = Ok (r, out)
     ∧ quick_sale (estimates r) == Qmax (quick_sale t) (b64 (item_cost * b64 1.1))
     ∧ fair_price (estimates r) == Qmax (fair_price t) (b64 (item_cost * b64 1.1))
     ∧ max_value (estimates r) = max_value t
     ∧ Qabs (b64 (item_cost * b64 1.1) - item_cost * 1.1)
       <= item_cost * 1.1 * pow2 (-51) + pow2 (-1075))
  ∧ (∃ r out,
       generate_price_recommendation net item_name brand_name grade None 50 false
         = Ok (r, out)
       ∧ data_source r = "default estimate"
       ∧ quick_sale (estimates r) == 55 + pow2 (-47)
       ∧ fair_price (estimates r) == 55 + pow2 (-47)
       ∧ max_value (estimates r) == 75
       ∧ recommendation r = "List at $55.00 for fair value, or $55.00 for quick sale").
Proof.
  intros Hcost. split.
  - destruct (generate_price_recommendation_ok net item_name brand_name grade
                retail_price item_cost use_live_data)
      as (r & out & t & src & Hr & Hb & _ & _ & Hest).
    exists t, src, r, out. split; [exact Hb|]. split; [exact Hr|].
    rewrite Hest. unfold apply_cost_floor. rewrite (truthy_pos _ Hcost).
    cbn [quick_sale fair_price max_value]. unfold Binary64.mul.
    split; [apply py_max2_Qmax|]. split; [apply py_max2_Qmax|].
    split; [reflexivity|].
    apply cost_floor_error. lra.
  - destruct (generate_complete estimate_from_retail net item_name brand_name grade
                None 50 false default_tiers "default estimate")
      as (r & Hr & Hsrc & _ & (_ & _ & _ & Hest & _ & _ & Hrec)).
    { reflexivity. }
    eexists r, _. split; [exact Hr|]. split; [exact Hsrc|].
    rewrite Hrec, Hest.
    split; [vm_compute; reflexivity|]. split; [vm_compute; reflexivity|].
    split; [reflexivity|]. vm_compute. reflexivity.
Qed.

Lemma C7_cost_floor_witness :
  (∃ t src r out,
     branch_tiers (fst (fetch_live offline true (search_query "boots" "Dr. Martens")))
       (Some 200) "good" = Ok (t, src)
     ∧ generate_price_recommendation offline "boots" "Dr. Martens" "good" (Some 200)
         80 true = Ok (r, out)
     ∧ quick_sale (estimates r) == Qmax (quick_sale t) (b64 (80 * b64 1.1))
     ∧ fair_price (estimates r) == Qmax (fair_price t) (b64 (80 * b64 1.1))
     ∧ max_value (estimates r) = max_value t
     ∧ Qabs (b64 (80 * b64 1.1) - 80 * 1.1) <= 80 * 1.1 * pow2 (-51) + pow2 (-1075))
  ∧ (∃ r out,
       generate_price_recommendation offline "boots" "Dr. Martens" "good" None 50 false
         = Ok (r, out)
       ∧ data_source r = "default estimate"
       ∧ quick_sale (estimates r) == 55 + pow2 (-47)
       ∧ fair_price (estimates r) == 55 + pow2 (-47)
       ∧ max_value (estimates r) == 75
       ∧ recommendation r = "List at $55.00 for fair value, or $55.00 for quick sale").
Proof.
  apply (C7_cost_floor offline "boots" "Dr. Martens" "good" (Some 200) 80 true).
  reflexivity.
Defined.

(** C7 fails as stated: with item_cost 50, no retail price and live data
    disabled, the floor is the binary64 product 50 × 1.1 =
    55.00000000000000710542735760100185871124267578125, and quick_sale and
    fair_price are that number, not 55; only the recommendation line, which
    formats them with two decimals, shows 55.00. *)
Lemma C7_counterexample :
  ∃ r out,
    generate_price_recommendation offline "boots" "" "good" None 50 false = Ok (r, out)
    ∧ b64 (50 * b64 1.1) == 55 + pow2 (-47)
    ∧ quick_sale (estimates r) == 55 + pow2 (-47)
    ∧ fair_price (estimates r) == 55 + pow2 (-47)
    ∧ ¬ quick_sale (estimates r) == 55
    ∧ ¬ fair_price (estimates r) == 55
    ∧ 55 < quick_sale (estimates r)
    ∧ quick_sale (estimates r) < 55.00000000000001.
Proof.
  eexists _, _. split; [vm_compute; reflexivity|].
  split; [vm_compute; reflexivity|]. split; [vm_compute; reflexivity|].
  split; [vm_compute; reflexivity|]. split; [vm_compute; discriminate|].
  split; [vm_compute; discriminate|]. split; vm_compute; reflexivity.
Qed.

(** With a cost floor above the branch's max_value, the returned max_value
    stays below the floored tiers. *)
Example cost_floor_above_max_value :
  ∃ r out,
    generate_price_recommendation offline "boots" "" "good" None 80 false = Ok (r, out)
    ∧ quick_sale (estimates r) == 88
    ∧ fair_price (estimates r) == 88
    ∧ max_value (estimates r) == 75.
Proof.
  eexists _, _. split; [vm_compute; reflexivity|].
  split; [vm_compute; reflexivity|]. split; [vm_compute; reflexivity | reflexivity].
Qed.

(** ** Scrapers *)

Lemma in_range_spec (p : Q) : in_range p = true ↔ 1 < p ∧ p < 5000.
Proof.
  unfold in_range. rewrite andb_true_iff, !Qltb_lt. reflexivity.
Qed.

Lemma seen_in_spec (p : Q) (seen : list Q) :
  seen_in p seen = true ↔ ∃ s, In s seen ∧ p == s.
Proof.
  unfold seen_in. rewrite existsb_exists.
  split; intros (s & Hs & E); exists s; (split; [exact Hs|]); apply Qeq_bool_iff, E.
Qed.

Lemma seen_in_cons (p q : Q) (seen : list Q) :
  seen_in p seen = true → seen_in p (q :: seen) = true.
Proof.
  intros H. cbn. rewrite orb_true_iff. right. exact H.
Qed.

Lemma NoDupA_snoc (l : list Q) (p : Q) :
  NoDupA Qeq l → ¬ InA Qeq p l → NoDupA Qeq (l ++ [p]).
Proof.
  intros Hl Hp. induction Hl as [|x l Hx Hl IH]; cbn.
  - constructor; [intros H; inversion H | constructor].
  - constructor.
    + intros H. apply InA_app in H as [H|H]; [contradiction|].
      inversion H as [? ? E|? ? H']; subst; [|inversion H'].
      apply Hp. left. symmetry. exact E.
    + apply IH. intros H. apply Hp. right. exact H.
Qed.

Section ScanFacts.

Variables (item_title site page_url : string).

Lemma scan_state_step (p : Q) (seen : list Q) (listings : list ScrapedListing) :
  scan_state site seen listings →
  in_range p = true → seen_in p seen = false →
  scan_state site (p :: seen)
    (listings ++ [{| title := item_title; price := p; platform := site; url := page_url |}]).
Proof.
  intros (Hall & Hnd & Hseen) Hr Hs. apply in_range_spec in Hr as [H1 H2].
  split; [|split].
  - apply Forall_app. split; [exact Hall|]. constructor; [|constructor]. cbn. auto.
  - rewrite List.map_app. cbn. apply NoDupA_snoc; [exact Hnd|].
    intros Hin. apply InA_alt in Hin as (q & E & Hq).
    apply List.in_map_iff in Hq as (l & <- & Hl).
    assert (Hp : seen_in p seen = true).
    { apply seen_in_spec. destruct (proj1 (seen_in_spec _ _) (Hseen l Hl)) as (s & Hs' & E').
      exists s. split; [exact Hs'|]. rewrite E. exact E'. }
    congruence.
  - intros l Hl. apply List.in_app_iff in Hl as [Hl|[<-|[]]].
    + apply seen_in_cons, Hseen, Hl.
    + cbn. rewrite orb_true_iff. left. apply Qeq_bool_iff. reflexivity.
Qed.

Lemma scan_keeps_state (limit : nat) (cands : list (option Q)) :
  ∀ seen listings seen' listings' reached,
    scan item_title site page_url limit cands seen listings = (seen', listings', reached) →
    scan_state site seen listings → scan_state site seen' listings'.
Proof.
  induction cands as [|[p|] rest IH]; intros seen listings seen' listings' reached E Hst;
    cbn [scan] in E.
  - injection E as <- <- <-. exact Hst.
  - destruct (in_range p) eqn:Hr; cbn [andb] in E; [|eapply IH; eassumption].
    destruct (seen_in p seen) eqn:Hs; cbn [negb] in E; [eapply IH; eassumption|].
    pose proof (scan_state_step p seen listings Hst Hr Hs) as Hst'.
    destruct (_ <=? _)%nat; [injection E as <- <- <-; exact Hst' | eapply IH; eassumption].
  - eapply IH; eassumption.
Qed.

(** The loop stops exactly at the limit. *)
Lemma scan_length (limit : nat) (cands : list (option Q)) :
  ∀ seen listings seen' listings' reached,
    scan item_title site page_url limit cands seen listings = (seen', listings', reached) →
    (length listings < limit)%nat →
    (length listings <= length listings')%nat
    ∧ (if reached then length listings' = limit else (length listings' < limit)%nat).
Proof.
  induction cands as [|[p|] rest IH]; intros seen listings seen' listings' reached E Hlen;
    cbn [scan] in E.
  - injection E as <- <- <-. split; [lia | exact Hlen].
  - destruct (in_range p && negb (seen_in p seen)); [|eapply IH; eassumption].
    destruct (Nat.leb_spec limit
                (length (listings ++ [{| title := item_title; price := p;
                                         platform := site; url := page_url |}])))
      as [Hge|Hlt].
    + injection E as <- <- <-. rewrite length_app in *. cbn in *. split; lia.
    + apply IH in E; [|exact Hlt]. rewrite length_app in *. cbn in *.
      destruct E as [E1 E2]. split; [lia | exact E2].
  - eapply IH; eassumption.
Qed.

(** What the loop adds, in page order; when it runs to the end, every
    candidate in range has its price in [seen]. *)
Lemma scan_added (limit : nat) (cands : list (option Q)) :
  ∀ seen listings seen' listings' reached,
    scan item_title site page_url limit cands seen listings = (seen', listings', reached) →
    ∃ added,
      listings' = listings ++ added
      ∧ seen' = rev (List.map price added) ++ seen
      ∧ sublist (List.map (fun l => Some (price l)) added) cands
      ∧ Forall (fun l => title l = item_title ∧ url l = page_url) added
      ∧ (reached = false →
         ∀ p, In (Some p) cands → in_range p = true → seen_in p seen' = true).
Proof.
  induction cands as [|[p|] rest IH]; intros seen listings seen' listings' reached E;
    cbn [scan] in E.
  - injection E as <- <- <-. exists []. rewrite app_nil_r.
    repeat split; [constructor | constructor | intros _ p []].
  - assert (Hskip : ∀ added,
      listings' = listings ++ added
      ∧ seen' = rev (List.map price added) ++ seen
      ∧ sublist (List.map (fun l => Some (price l)) added) rest
      ∧ Forall (fun l => title l = item_title ∧ url l = page_url) added
      ∧ (reached = false →
         ∀ q, In (Some q) rest → in_range q = true → seen_in q seen' = true) →
      in_range p && negb (seen_in p seen) = false →
      ∃ added,
        listings' = listings ++ added
        ∧ seen' = rev (List.map price added) ++ seen
        ∧ sublist (List.map (fun l => Some (price l)) added) (Some p :: rest)
        ∧ Forall (fun l => title l = item_title ∧ url l = page_url) added
        ∧ (reached = false →
           ∀ q, In (Some q) (Some p :: rest) → in_range q = true → seen_in q seen' = true)).
    { intros added (H1 & H2 & H3 & H4 & H5) Hc. exists added.
      split; [exact H1|]. split; [exact H2|]. split; [apply sublist_cons, H3|].
      split; [exact H4|].
      intros Hr q [Hq|Hq] Hin; [|apply H5; assumption].
      injection Hq as ->. rewrite Hin in Hc. cbn in Hc. apply negb_false_iff in Hc.
      rewrite H2. apply seen_in_spec. apply seen_in_spec in Hc as (s & Hs & Es).
      exists s. split; [apply List.in_app_iff; right; exact Hs | exact Es]. }
    destruct (in_range p && negb (seen_in p seen)) eqn:Hc.
    + set (item := {| title := item_title; price := p; platform := site; url := page_url |}) in *.
      destruct (limit <=? length (listings ++ [item]))%nat.
      * injection E as <- <- <-. exists [item].
        split; [reflexivity|]. split; [reflexivity|].
        split; [apply sublist_skip, sublist_nil_l|].
        split; [repeat constructor | discriminate].
      * apply IH in E as (added & H1 & H2 & H3 & H4 & H5). exists (item :: added).
        split; [rewrite H1, <- app_assoc; reflexivity|].
        split; [rewrite H2; cbn; rewrite <- app_assoc; reflexivity|].
        split; [cbn; apply sublist_skip, H3|].
        split; [constructor; [split; reflexivity | exact H4]|].
        intros Hr q [Hq|Hq] Hin; [|apply H5; assumption].
        injection Hq as ->. rewrite H2. apply seen_in_spec. exists q.
        split; [|reflexivity]. apply List.in_app_iff. right. left. reflexivity.
    + apply IH in E as (added & H). apply (Hskip added H). reflexivity.
  - apply IH in E as (added & H1 & H2 & H3 & H4 & H5). exists added.
    split; [exact H1|]. split; [exact H2|]. split; [apply sublist_cons, H3|].
    split; [exact H4|].
    intros Hr q [Hq|Hq] Hin; [discriminate | apply H5; assumption].
Qed.

End ScanFacts.

Lemma scan_state_nil (site : string) : scan_state site [] [].
Proof.
  split; [constructor|]. split; [constructor | intros l []].
Qed.

Lemma well_scraped_nil (site : string) (limit : nat) : well_scraped site limit [].
Proof.
  split; [cbn; lia|]. split; constructor.
Qed.

Lemma scan_zero (item_title site page_url : string) (cands : list (option Q))
    (seen : list Q) (listings : list ScrapedListing) :
  scan item_title site page_url 0 (firstn 0 cands) seen listings = (seen, listings, false).
Proof. reflexivity. Qed.

(** One pattern, from the empty state. *)
Lemma scan_well_scraped (item_title site page_url : string) (limit k : nat)
    (raw : list (option Q)) :
  well_scraped site limit
    (scan item_title site page_url limit (firstn (limit * k) raw) [] []).1.2.
Proof.
  destruct limit as [|n]; [apply well_scraped_nil|].
  destruct (scan item_title site page_url (S n) (firstn (S n * k) raw) [] [])
    as [[seen' listings'] reached] eqn:E.
  cbn [fst snd].
  pose proof (scan_keeps_state _ _ _ _ _ _ _ _ _ _ E (scan_state_nil site))
    as (Hall & Hnd & _).
  destruct (scan_length _ _ _ _ _ _ _ _ _ _ E) as [_ Hlen]; [cbn; lia|].
  split; [destruct reached; lia|]. split; assumption.
Qed.

(** Several patterns, from any state below the limit. *)
Lemma scan_patterns_well_scraped (item_title site page_url : string) (limit : nat)
    (patterns : list (list (option Q))) :
  ∀ seen listings,
    scan_state site seen listings →
    (length listings < limit)%nat →
    well_scraped site limit
      (scan_patterns item_title site page_url limit patterns seen listings).
Proof.
  induction patterns as [|prices rest IH]; intros seen listings Hst Hlen;
    cbn [scan_patterns].
  - destruct Hst as (Hall & Hnd & _). split; [lia|]. split; assumption.
  - destruct (scan item_title site page_url limit (firstn (limit * 2) prices) seen listings)
      as [[seen' listings'] reached] eqn:E.
    pose proof (scan_keeps_state _ _ _ _ _ _ _ _ _ _ E Hst) as Hst'.
    destruct (scan_length _ _ _ _ _ _ _ _ _ _ E Hlen) as [_ Hlen'].
    destruct reached.
    + destruct Hst' as (Hall & Hnd & _). split; [lia|]. split; assumption.
    + apply IH; assumption.
Qed.

Lemma scan_patterns_zero (item_title site page_url : string)
    (patterns : list (list (option Q))) (seen : list Q) (listings : list ScrapedListing) :
  scan_patterns item_title site page_url 0 patterns seen listings = listings.
Proof.
  induction patterns as [|prices rest IH]; cbn [scan_patterns]; [reflexivity|].
  cbn [Nat.mul firstn scan]. exact IH.
Qed.

(** X1: the single-pattern scrapers [scrape_ebay_sold] and
    [scrape_poshmark_sold] return at most [limit] listings, each priced
    strictly between 1 and 5000 and tagged with its site, and no two of them
    with the same price; this holds whatever the page contains. *)
Theorem single_pattern_scrapers_well_scraped (web : Pages) (query : string) (limit : nat) :
  well_scraped "eBay" limit (Scraper.scrape_ebay_sold web query limit)
  ∧ well_scraped "Poshmark" limit (Scraper.scrape_poshmark_sold web query limit).
Proof.
  split.
  - unfold Scraper.scrape_ebay_sold. destruct (ebay_matches web _) as [raw|].
    + apply scan_well_scraped.
    + apply well_scraped_nil.
  - unfold Scraper.scrape_poshmark_sold. destruct (poshmark_matches web _) as [raw|].
    + apply scan_well_scraped.
    + apply well_scraped_nil.
Qed.

(** X2: the multi-pattern scrapers [scrape_depop_sold] and
    [scrape_mercari_sold] return at most [limit] listings over all their
    patterns together, each priced strictly between 1 and 5000 and tagged
    with its site, and no price is listed twice, not even when two patterns
    match it. *)
Theorem multi_pattern_scrapers_well_scraped (web : Pages) (query : string) (limit : nat) :
  well_scraped "Depop" limit (Scraper.scrape_depop_sold web query limit)
  ∧ well_scraped "Mercari" limit (Scraper.scrape_mercari_sold web query limit).
Proof.
  split.
  - unfold Scraper.scrape_depop_sold. destruct (depop_matches web _) as [patterns|];
      [|apply well_scraped_nil].
    destruct limit as [|n].
    + rewrite scan_patterns_zero. apply well_scraped_nil.
    + apply scan_patterns_well_scraped; [apply scan_state_nil | cbn; lia].
  - unfold Scraper.scrape_mercari_sold. destruct (mercari_matches web _) as [patterns|];
      [|apply well_scraped_nil].
    destruct limit as [|n].
    + rewrite scan_patterns_zero. apply well_scraped_nil.
    + apply scan_patterns_well_scraped; [apply scan_state_nil | cbn; lia].
Qed.

(** X3: [scrape_ebay_sold] keeps the page order: the listed prices are a
    subsequence of the first [limit * 3] matches, every listing carries the
    fixed title and the search URL, and when fewer than [limit] listings
    come back nothing in range was lost: every inspected match strictly
    between 1 and 5000 has its price among the listings. *)
Theorem ebay_listings_follow_the_page (web : Pages) (query : string) (limit : nat)
    (raw : list (option Q)) :
  ebay_matches web (ebay_search_url query) = Some raw →
  sublist (List.map (fun l => Some (price l)) (Scraper.scrape_ebay_sold web query limit))
          (firstn (limit * 3) raw)
  ∧ Forall (fun l => title l = "eBay Sold Item" ∧ url l = ebay_search_url query)
           (Scraper.scrape_ebay_sold web query limit)
  ∧ ((length (Scraper.scrape_ebay_sold web query limit) < limit)%nat →
     ∀ p, In (Some p) (firstn (limit * 3) raw) → 1 < p → p < 5000 →
          ∃ l, In l (Scraper.scrape_ebay_sold web query limit) ∧ p == price l).
Proof.
  intros Hraw. unfold Scraper.scrape_ebay_sold. fold (ebay_search_url query).
  rewrite Hraw.
  destruct (scan "eBay Sold Item" "eBay" (ebay_search_url query) limit
              (firstn (limit * 3) raw) [] []) as [[seen' listings'] reached] eqn:E.
  cbn [fst snd].
  destruct (scan_added _ _ _ _ _ _ _ _ _ _ E) as (added & H1 & H2 & H3 & H4 & H5).
  cbn [app] in H1. subst listings'. rewrite app_nil_r in H2.
  split; [exact H3|]. split; [exact H4|].
  intros Hlen p Hp Hlo Hhi.
  assert (Hr : reached = false).
  { destruct reached; [|reflexivity].
    destruct limit as [|n]; [cbn in Hlen; lia|].
    destruct (scan_length _ _ _ _ _ _ _ _ _ _ E) as [_ Hl]; [cbn; lia|]. lia. }
  assert (Hin : in_range p = true) by (apply in_range_spec; split; assumption).
  pose proof (H5 Hr p Hp Hin) as Hseen. rewrite H2 in Hseen.
  apply seen_in_spec in Hseen as (s & Hs & Es).
  apply List.in_rev, List.in_map_iff in Hs as (l & <- & Hl).
  exists l. split; assumption.
Qed.

Lemma ebay_listings_follow_the_page_witness :
  sublist (List.map (fun l => Some (price l)) (Scraper.scrape_ebay_sold ebay_only "boots" 15))
          (firstn (15 * 3) [Some 10; None; Some 10; Some 7000; Some 12.5; Some 30])
  ∧ Forall (fun l => title l = "eBay Sold Item" ∧ url l = ebay_search_url "boots")
           (Scraper.scrape_ebay_sold ebay_only "boots" 15)
  ∧ ((length (Scraper.scrape_ebay_sold ebay_only "boots" 15) < 15)%nat →
     ∀ p, In (Some p) (firstn (15 * 3) [Some 10; None; Some 10; Some 7000; Some 12.5; Some 30]) →
          1 < p → p < 5000 →
          ∃ l, In l (Scraper.scrape_ebay_sold ebay_only "boots" 15) ∧ p == price l).
Proof.
  apply (ebay_listings_follow_the_page ebay_only "boots" 15
           [Some 10; None; Some 10; Some 7000; Some 12.5; Some 30]).
  reflexivity.
Defined.

Example ebay_only_listings :
  List.map price (Scraper.scrape_ebay_sold ebay_only "dr martens" 15) = [10; 12.5; 30]
  ∧ ebay_search_url "dr martens & co"
    = "https://www.ebay.com/sch/i.html?_nkw=dr%20martens%20%26%20co&LH_Sold=1&LH_Complete=1&_sop=13".
Proof. split; reflexivity. Qed.

(** ** The scraped pipeline *)

Lemma Qsum_upper (c : Q) (l : list Q) :
  (∀ x, In x l → x <= c) → Qsum l <= c * Qlen l.
Proof.
  induction l as [|y l IH]; intros H.
  - change (0 <= c * 0). lra.
  - cbn [Qsum fold_right]. fold (Qsum l). rewrite Qlen_cons.
    assert (y <= c) by (apply H; left; reflexivity).
    assert (Qsum l <= c * Qlen l) by (apply IH; intros x Hx; apply H; right; exact Hx).
    lra.
Qed.

(** The mean of a non-empty list lies between any bounds of its elements. *)
Lemma mean_bounds (lo hi : Q) (l : list Q) :
  l ≠ [] → (∀ x, In x l → lo <= x ∧ x <= hi) →
  lo <= Qsum l / Qlen l ∧ Qsum l / Qlen l <= hi.
Proof.
  intros Hne H. pose proof (Qlen_pos l Hne) as Hn.
  assert (H1 : lo * Qlen l <= Qsum l) by (apply Qsum_lower; intros x Hx; apply H, Hx).
  assert (H2 : Qsum l <= hi * Qlen l) by (apply Qsum_upper; intros x Hx; apply H, Hx).
  split.
  - apply Qle_shift_div_l; assumption.
  - apply Qle_shift_div_r; assumption.
Qed.

(** With positive prices the outlier filter keeps at least three of three or
    more prices. *)
Lemma filter_outliers_keeps_three (prices : list Q) :
  (3 <= length prices)%nat →
  (∀ p, In p prices → 0 < p) →
  let kept := filter_outliers (Qsum prices / Qlen prices) prices in
  (3 <= length kept)%nat ∧ (length kept <= length prices)%nat.
Proof.
  intros Hlen Hpos kept.
  assert (Hne : prices ≠ []) by (intros ->; cbn in Hlen; lia).
  destruct (outliers_under_a_third prices Hne Hpos) as [Hkeep Hdrop].
  cbv zeta in Hkeep, Hdrop.
  set (avg := Qsum prices / Qlen prices) in *.
  pose proof (length_partition (fun p => Qltb p (avg * 3)) prices) as Hpart.
  assert (E : kept = outlier_pass avg prices).
  { subst kept. unfold filter_outliers.
    destruct (outlier_pass avg prices); [contradiction | reflexivity]. }
  rewrite E. unfold outlier_pass in *. lia.
Qed.

Lemma scraped_listings_length (web : Pages) (query : string) :
  (length (scraped_listings web query) <= 60)%nat.
Proof.
  unfold scraped_listings. rewrite !length_app.
  assert (H1 : (length (Scraper.scrape_ebay_sold web query 15) <= 15)%nat).
  { unfold Scraper.scrape_ebay_sold. destruct (ebay_matches web _); [|cbn; lia].
    apply scan_well_scraped. }
  assert (H2 : (length (Scraper.scrape_poshmark_sold web query 15) <= 15)%nat).
  { unfold Scraper.scrape_poshmark_sold. destruct (poshmark_matches web _); [|cbn; lia].
    apply scan_well_scraped. }
  assert (H3 : (length (Scraper.scrape_mercari_sold web query 15) <= 15)%nat).
  { unfold Scraper.scrape_mercari_sold. destruct (mercari_matches web _); [|cbn; lia].
    apply scan_patterns_well_scraped; [apply scan_state_nil | cbn; lia]. }
  assert (H4 : (length (Scraper.scrape_depop_sold web query 15) <= 15)%nat).
  { unfold Scraper.scrape_depop_sold. destruct (depop_matches web _); [|cbn; lia].
    apply scan_patterns_well_scraped; [apply scan_state_nil | cbn; lia]. }
  lia.
Qed.

Lemma scraped_listings_in_range (web : Pages) (query : string) (l : ScrapedListing) :
  In l (scraped_listings web query) → 1 < price l ∧ price l < 5000.
Proof.
  unfold scraped_listings. rewrite !List.in_app_iff.
  assert (Hw : ∀ site ls, well_scraped site 15 ls → In l ls → 1 < price l ∧ price l < 5000).
  { intros site ls (_ & Hall & _) Hl. rewrite List.Forall_forall in Hall.
    destruct (Hall l Hl) as (H1 & H2 & _). split; assumption. }
  intros [H|[H|[H|H]]].
  - apply (Hw "eBay" _) in H; [exact H|].
    unfold Scraper.scrape_ebay_sold. destruct (ebay_matches web _);
      [apply scan_well_scraped | apply well_scraped_nil].
  - apply (Hw "Poshmark" _) in H; [exact H|].
    unfold Scraper.scrape_poshmark_sold. destruct (poshmark_matches web _);
      [apply scan_well_scraped | apply well_scraped_nil].
  - apply (Hw "Mercari" _) in H; [exact H|].
    unfold Scraper.scrape_mercari_sold. destruct (mercari_matches web _);
      [|apply well_scraped_nil].
    apply scan_patterns_well_scraped; [apply scan_state_nil | cbn; lia].
  - apply (Hw "Depop" _) in H; [exact H|].
    unfold Scraper.scrape_depop_sold. destruct (depop_matches web _);
      [|apply well_scraped_nil].
    apply scan_patterns_well_scraped; [apply scan_state_nil | cbn; lia].
Qed.

Lemma get_real_market_prices_scraped (web : Pages) (query : string) :
  get_real_market_prices (scraped web) query = summarize (scraped_listings web query).
Proof. reflexivity. Qed.

(** The summary of three or more listings priced strictly between [lo] and
    [hi], with [lo] positive. *)
Lemma summarize_in_range (lo hi : Q) (listings : list ScrapedListing) :
  0 < lo →
  (3 <= length listings)%nat →
  (∀ l, In l listings → lo < price l ∧ price l < hi) →
  ∃ s, summarize listings = Ok (Some s)
     ∧ (3 <= ms_count s)%nat ∧ (ms_count s <= length listings)%nat
     ∧ lo < ms_min s ∧ ms_min s <= ms_max s ∧ ms_max s < hi
     ∧ py_round lo 2 <= ms_avg s ∧ ms_avg s <= py_round hi 2
     ∧ py_round lo 2 <= ms_median s ∧ ms_median s <= py_round hi 2
     ∧ py_round (lo * 0.85) 2 <= ms_quick_sale s
     ∧ ms_quick_sale s <= ms_fair_price s
     ∧ ms_fair_price s <= ms_max_value s
     ∧ ms_max_value s <= py_round (hi * 1.2) 2.
Proof.
  intros Hlo Hlen Hrange.
  destruct (summarize_some listings Hlen) as
    (med & a & b & mn & mx & _ & _ & Ha & Hb & Hmed & _ & Hmn & Hmin & _ & Hmx & _ & Hs).
  cbv zeta in *.
  set (prices := List.map price listings) in *.
  set (kept := filter_outliers (Qsum prices / Qlen prices) prices) in *.
  assert (Hp : ∀ p, In p prices → lo < p ∧ p < hi).
  { intros p Hp. apply List.in_map_iff in Hp as (l & <- & Hl). apply Hrange, Hl. }
  assert (Hk : ∀ p, In p kept → lo < p ∧ p < hi).
  { intros p Hp'. apply Hp. eapply filter_outliers_In, Hp'. }
  assert (Hpos : ∀ p, In p prices → 0 < p).
  { intros p Hp'. apply Hp in Hp'. lra. }
  assert (Hlen' : (3 <= length prices)%nat) by (subst prices; rewrite length_map; exact Hlen).
  destruct (filter_outliers_keeps_three prices Hlen' Hpos) as [Hc1 Hc2].
  fold kept in Hc1, Hc2.
  assert (Hkne : kept ≠ []) by (intros E; rewrite E in Hc1; cbn in Hc1; lia).
  destruct (mean_bounds lo hi kept Hkne) as [Hav1 Hav2].
  { intros x Hx. apply Hk in Hx. lra. }
  pose proof (Hk a Ha) as Ha'. pose proof (Hk b Hb) as Hb'.
  pose proof (Hk mn Hmn) as Hmn'. pose proof (Hk mx Hmx) as Hmx'.
  assert (Hm1 : lo < med) by (rewrite Hmed; apply Qlt_shift_div_l; lra).
  assert (Hm2 : med < hi) by (rewrite Hmed; apply Qlt_shift_div_r; lra).
  eexists. split; [exact Hs|]. cbn [summary_of ms_count ms_min ms_max ms_avg ms_median
    ms_quick_sale ms_fair_price ms_max_value].
  split; [exact Hc1|].
  split; [subst prices; rewrite length_map in Hc2; exact Hc2|].
  split; [lra|]. split; [apply Hmin, Hmx|]. split; [lra|].
  split; [apply py_round_mono; lra|]. split; [apply py_round_mono; lra|].
  split; [apply py_round_mono; lra|]. split; [apply py_round_mono; lra|].
  split; [apply py_round_mono; lra|]. split; [apply py_round_mono; lra|].
  split; apply py_round_mono; lra.
Qed.

(** X4: through the four scrapers, get_real_market_prices never raises: it
    returns no summary exactly when fewer than 3 listings were scraped in
    total, and otherwise a summary of between 3 and 60 prices whose min and
    max lie strictly between 1 and 5000, whose avg and median lie between 1
    and 5000, whose tiers satisfy 0.85 ≤ quick_sale ≤ fair_price ≤ max_value
    ≤ 6000, and which passes the engine's test count ≥ 3. *)
Theorem scraped_market_summary (web : Pages) (query : string) :
  ∃ r, get_real_market_prices (scraped web) query = Ok r
     ∧ match r with
       | None => (length (scraped_listings web query) < 3)%nat
       | Some s =>
           (3 <= ms_count s)%nat
           ∧ (ms_count s <= length (scraped_listings web query))%nat
           ∧ (length (scraped_listings web query) <= 60)%nat
           ∧ 1 < ms_min s ∧ ms_min s <= ms_max s ∧ ms_max s < 5000
           ∧ 1 <= ms_avg s ∧ ms_avg s <= 5000
           ∧ 1 <= ms_median s ∧ ms_median s <= 5000
           ∧ 0.85 <= ms_quick_sale s
           ∧ ms_quick_sale s <= ms_fair_price s
           ∧ ms_fair_price s <= ms_max_value s
           ∧ ms_max_value s <= 6000
           ∧ usable_summary (Some s) = Some s
       end.
Proof.
  rewrite get_real_market_prices_scraped.
  destruct (Nat.ltb_spec (length (scraped_listings web query)) 3) as [Hfew|Hlen].
  - exists None. split; [apply summarize_few, Hfew | exact Hfew].
  - destruct (summarize_in_range 1 5000 (scraped_listings web query)) as
      (s & Hs & H1 & H2 & H3 & H4 & H5 & H6 & H7 & H8 & H9 & H10 & H11 & H12 & H13).
    { reflexivity. }
    { exact Hlen. }
    { apply scraped_listings_in_range. }
    exists (Some s). split; [exact Hs|].
    assert (R1 : py_round 1 2 == 1) by (vm_compute; reflexivity).
    assert (R2 : py_round 5000 2 == 5000) by (vm_compute; reflexivity).
    assert (R3 : py_round (1 * 0.85) 2 == 0.85) by (vm_compute; reflexivity).
    assert (R4 : py_round (5000 * 1.2) 2 == 6000) by (vm_compute; reflexivity).
    rewrite R1 in H6, H8. rewrite R2 in H7, H9. rewrite R3 in H10. rewrite R4 in H13.
    split; [exact H1|]. split; [exact H2|].
    split; [apply scraped_listings_length|].
    split; [exact H3|]. split; [exact H4|]. split; [exact H5|].
    split; [exact H6|]. split; [exact H7|]. split; [exact H8|]. split; [exact H9|].
    split; [exact H10|]. split; [exact H11|]. split; [exact H12|]. split; [exact H13|].
    unfold usable_summary. apply Nat.leb_le in H1. rewrite H1. reflexivity.
Qed.

(** The counting argument in binary64: among prices between 1 and 5000,
    fewer than a third reach the computed threshold. *)
Lemma Binary64_outliers_under_a_third (prices : list Q) :
  prices ≠ [] →
  (∀ p, In p prices → 1 < p ∧ p < 5000) →
  (length prices <= 1000)%nat →
  let avg := b64 (Qsum prices / Qlen prices) in
  let dropped := List.filter (fun p => negb (Qltb p (Binary64.mul avg 3))) prices in
  Binary64.outlier_pass avg prices ≠ []
  ∧ (3 * length dropped < length prices)%nat.
Proof.
  intros Hne Hrange Hmax avg dropped.
  pose proof (Qlen_pos prices Hne) as Hn.
  set (m := Qsum prices / Qlen prices) in *.
  set (T := Binary64.mul avg 3) in *.
  destruct (mean_bounds 1 5000 prices Hne) as [Hm1 Hm2].
  { intros x Hx. apply Hrange in Hx. lra. }
  fold m in Hm1, Hm2.
  assert (Hsum : m * Qlen prices == Qsum prices) by (unfold m; field; lra).
  (* the threshold is nearly 3 m *)
  assert (HT : 3 * m - (3 * m * pow2 (-51) + pow2 (-1072)) <= T).
  { pose proof (threshold_error m) as He. fold avg in He.
    change (b64 (avg * 3)) with T in He.
    rewrite (Qabs_pos (3 * m)) in He by lra.
    apply Qabs_Qle_condition in He. lra. }
  assert (He1 : pow2 (-51) <= 1 # 1000000000000000).
  { apply Qle_bool_iff. vm_compute. reflexivity. }
  assert (He2 : pow2 (-1072) <= 1 # 1000000000000000).
  { apply Qle_bool_iff. vm_compute. reflexivity. }
  pose proof (pow2_pos (-51)) as He3. pose proof (pow2_pos (-1072)) as He4.
  assert (HT' : 3 * m - (1 # 10000000000) <= T).
  { assert (3 * m * pow2 (-51) <= 15000 * (1 # 1000000000000000)).
    { apply Qmult_le_compat_nonneg; split; lra. }
    lra. }
  clear HT He1 He2 He3 He4.
  pose proof (Qsum_partition (fun p => Qltb p T) prices) as Hs.
  pose proof (Qlen_partition (fun p => Qltb p T) prices) as Hc.
  pose proof (length_partition (fun p => Qltb p T) prices) as Hl.
  cbv beta in Hs, Hc, Hl.
  change (List.filter (fun p => Qltb p T) prices)
    with (Binary64.outlier_pass avg prices) in Hs, Hc, Hl.
  fold dropped in Hs, Hc, Hl.
  set (kept := Binary64.outlier_pass avg prices) in *.
  assert (Hd : (3 * m - (1 # 10000000000)) * Qlen dropped <= Qsum dropped).
  { apply Qsum_lower. intros x Hx. apply List.filter_In in Hx as [_ Hx].
    apply negb_true_iff, Qltb_ge in Hx. lra. }
  assert (Hk : 1 * Qlen kept <= Qsum kept).
  { apply Qsum_lower. intros x Hx. apply List.filter_In in Hx as [Hx _].
    apply Hrange in Hx. lra. }
  pose proof (Qlen_nonneg kept) as Hk0. pose proof (Qlen_nonneg dropped) as Hd0.
  assert (Hdmax : Qlen dropped <= 1000).
  { unfold Qlen. change 1000 with (inject_Z 1000). rewrite <- Zle_Qle. lia. }
  (* some price is kept *)
  assert (Hkept : kept ≠ []).
  { intros E. rewrite E in Hs, Hc.
    change (Qsum []) with 0 in Hs. change (Qlen []) with 0 in Hc.
    assert (Ed : Qlen dropped == Qlen prices) by lra.
    rewrite Ed in Hd.
    assert (H1 : (3 * m - (1 # 10000000000)) * Qlen prices <= m * Qlen prices) by lra.
    apply Qmult_le_r in H1; [lra | exact Hn]. }
  split; [exact Hkept|].
  assert (Hk1 : 1 <= Qlen kept).
  { unfold Qlen. change 1 with (inject_Z 1). rewrite <- Zle_Qle.
    destruct kept; [contradiction | cbn [length]; lia]. }
  assert (Hq : 3 * Qlen dropped < Qlen prices).
  { apply Qnot_le_lt. intros Hge.
    assert (H1 : m * Qlen prices <= m * (3 * Qlen dropped)).
    { apply Qmult_le_l; lra. }
    assert (H2 : (3 * m - (1 # 10000000000)) * Qlen dropped
                 == m * (3 * Qlen dropped) - (1 # 10000000000) * Qlen dropped) by ring.
    assert (H3 : (1 # 10000000000) * Qlen dropped <= (1 # 10000000000) * 1000).
    { apply Qmult_le_l; [reflexivity | exact Hdmax]. }
    rewrite H2 in Hd.
    generalize dependent (m * (3 * Qlen dropped)).
    generalize dependent (m * Qlen prices).
    generalize dependent ((1 # 10000000000) * Qlen dropped).
    intros; lra. }
  unfold Qlen in Hq. change 3 with (inject_Z 3) in Hq.
  rewrite <- inject_Z_mult, <- Zlt_Qlt in Hq. lia.
Qed.

(** In binary64 the outlier filter keeps at least three of three or more
    prices between 1 and 5000. *)
Lemma Binary64_filter_outliers_keeps_three (prices : list Q) :
  (3 <= length prices)%nat →
  (∀ p, In p prices → 1 < p ∧ p < 5000) →
  (length prices <= 1000)%nat →
  let avg := b64 (Qsum prices / Qlen prices) in
  Binary64.filter_outliers avg prices = Binary64.outlier_pass avg prices
  ∧ (3 <= length (Binary64.filter_outliers avg prices))%nat
  ∧ (length (Binary64.filter_outliers avg prices) <= length prices)%nat.
Proof.
  intros Hlen Hrange Hmax avg.
  assert (Hne : prices ≠ []) by (intros ->; cbn in Hlen; lia).
  destruct (Binary64_outliers_under_a_third prices Hne Hrange Hmax) as [Hkeep Hdrop].
  cbv zeta in Hkeep, Hdrop. fold avg in Hkeep, Hdrop.
  pose proof (length_partition (fun p => Qltb p (Binary64.mul avg 3)) prices) as Hpart.
  assert (E : Binary64.filter_outliers avg prices = Binary64.outlier_pass avg prices).
  { unfold Binary64.filter_outliers.
    destruct (Binary64.outlier_pass avg prices); [contradiction | reflexivity]. }
  split; [exact E|]. rewrite E. unfold Binary64.outlier_pass in *. lia.
Qed.

Lemma multipliers_le (condition : string) :
  fst (dict_get multipliers condition (0.30, 0.50))
  <= snd (dict_get multipliers condition (0.30, 0.50)).
Proof.
  unfold dict_get, multipliers.
  repeat (rewrite lookup_insert; case_decide; [cbn; lra|]).
  rewrite lookup_singleton. case_decide; cbn; lra.
Qed.

(** X11: for every retail_price ≥ 0 and every condition grade,
    estimate_from_retail returns 0 ≤ low ≤ avg ≤ high ≤ round(retail_price,
    2). *)
Theorem estimate_from_retail_ordered (retail_price : Q) (condition : string) :
  0 <= retail_price →
  ∃ e, estimate_from_retail retail_price condition = Ok e
     ∧ 0 <= low e ∧ low e <= avg e ∧ avg e <= high e ∧ high e <= py_round retail_price 2.
Proof.
  intros Hr. rewrite estimate_from_retail_eq. cbv zeta.
  pose proof (multipliers_le condition) as Hle.
  pose proof (multipliers_pos condition) as [Hlo Hhi].
  assert (Hone : snd (dict_get multipliers condition (0.30, 0.50)) <= 1).
  { unfold dict_get, multipliers.
    repeat (rewrite lookup_insert; case_decide; [cbn; lra|]).
    rewrite lookup_singleton. case_decide; cbn; lra. }
  set (m := dict_get multipliers condition (0.30, 0.50)) in *. clearbody m.
  eexists. split; [reflexivity|]. cbn [low avg high].
  assert (Hd : 0 <= retail_price * (snd m - fst m)).
  { apply Qmult_le_0_compat; lra. }
  assert (H0 : py_round 0 2 <= py_round (retail_price * fst m) 2).
  { apply py_round_mono. apply Qmult_le_0_compat; lra. }
  rewrite py_round_0 in H0.
  split; [exact H0|].
  split; [apply py_round_mono|split; apply py_round_mono].
  - assert (E : retail_price * (fst m + snd m) / 2
                == retail_price * fst m + retail_price * (snd m - fst m) * (1 # 2)) by field.
    rewrite E. clear E. generalize dependent (retail_price * (m.2 - m.1)).
    generalize (retail_price * m.1). intros; lra.
  - assert (E : retail_price * (fst m + snd m) / 2
                == retail_price * snd m - retail_price * (snd m - fst m) * (1 # 2)) by field.
    rewrite E. clear E. generalize dependent (retail_price * (m.2 - m.1)).
    generalize (retail_price * m.2). intros; lra.
  - assert (0 <= retail_price * (1 - snd m)) by (apply Qmult_le_0_compat; lra). lra.
Qed.

Lemma estimate_from_retail_ordered_witness :
  ∃ e, estimate_from_retail 200 "good" = Ok e
     ∧ 0 <= low e ∧ low e <= avg e ∧ avg e <= high e ∧ high e <= py_round 200 2.
Proof.
  apply (estimate_from_retail_ordered 200 "good"). vm_compute. discriminate.
Defined.

(** ** Fee model: monotonicity and ranking *)

Lemma fee_rate_cases (platform : string) :
  platform ≠ "poshmark" → platform ≠ "depop" →
  let rate := dict_get (dict_get get_platform_fees platform {[ "fee_percent" := 0.10 ]})
                       "fee_percent" 0.10 in
  rate = 0.10 ∨ rate = 0.1315 ∨ rate = 0.05.
Proof.
  intros N1 N2. cbv zeta.
  destruct (String.eqb_spec platform "mercari") as [->|N3]; [left; reflexivity|].
  destruct (String.eqb_spec platform "ebay") as [->|N4]; [right; left; reflexivity|].
  destruct (String.eqb_spec platform "xiaohongshu") as [->|N5];
    [right; right; reflexivity|].
  assert (E : get_platform_fees !! platform = None).
  { unfold get_platform_fees.
    repeat (rewrite lookup_insert; case_decide; [congruence|]).
    rewrite lookup_singleton. case_decide; [congruence | reflexivity]. }
  left. unfold dict_get at 2. rewrite E. reflexivity.
Qed.

Lemma raw_profit_mono (n1 n2 item_cost : Q) :
  n1 <= n2 → raw_profit n1 item_cost <= raw_profit n2 item_cost.
Proof.
  intros H. unfold raw_profit. destruct (truthy item_cost); lra.
Qed.

(** The fee and the payout before rounding, off Poshmark. *)
Lemma total_fee_mono (platform : string) (p q : Q) :
  platform ≠ "poshmark" → p <= q →
  ∃ fp fq, total_fee p platform = Ok fp ∧ total_fee q platform = Ok fq
         ∧ fp <= fq ∧ p - fp <= q - fq.
Proof.
  intros N1 Hpq.
  destruct (String.eqb_spec platform "depop") as [->|N2].
  - rewrite !total_fee_depop. eexists _, _. split; [reflexivity|].
    split; [reflexivity|]. split; lra.
  - rewrite !total_fee_percent by assumption.
    eexists _, _. split; [reflexivity|]. split; [reflexivity|].
    destruct (fee_rate_cases platform N1 N2) as [E|[E|E]]; cbv zeta in E; rewrite E;
      split; lra.
Qed.

(** X12: on every platform other than Poshmark, a sale price at least one
    cent higher (both prices between 0 and 1000000) gives a platform_fee,
    a net_payout and a profit that are not lower. *)
Theorem net_payout_monotone (platform : string) (p q item_cost : Q) :
  platform ≠ "poshmark" →
  0 <= p → p + 0.01 <= q → q <= 1000000 →
  ∃ rp rq,
    calculate_net_profit p platform item_cost = Ok rp
    ∧ calculate_net_profit q platform item_cost = Ok rq
    ∧ platform_fee rp <= platform_fee rq
    ∧ net_payout rp <= net_payout rq
    ∧ profit rp <= profit rq.
Proof.
  intros N1 _ Hpq _.
  assert (Hle : p <= q) by lra.
  destruct (total_fee_mono platform p q N1 Hle) as (fp & fq & Hfp & Hfq & Hf & Hn).
  destruct (calculate_net_profit_fee p platform item_cost fp Hfp)
    as (rp & Hrp & _ & Ep1 & Ep2 & Ep3 & _).
  destruct (calculate_net_profit_fee q platform item_cost fq Hfq)
    as (rq & Hrq & _ & Eq1 & Eq2 & Eq3 & _).
  exists rp, rq. split; [exact Hrp|]. split; [exact Hrq|].
  rewrite Ep1, Ep2, Ep3, Eq1, Eq2, Eq3.
  split; [apply py_round_mono, Hf|].
  split; [apply py_round_mono, Hn|].
  apply py_round_mono, raw_profit_mono, Hn.
Qed.

Lemma net_payout_monotone_witness :
  ∃ rp rq,
    calculate_net_profit 40 "depop" 10 = Ok rp
    ∧ calculate_net_profit 50 "depop" 10 = Ok rq
    ∧ platform_fee rp <= platform_fee rq
    ∧ net_payout rp <= net_payout rq
    ∧ profit rp <= profit rq.
Proof.
  apply (net_payout_monotone "depop" 40 50 10).
  - discriminate.
  - vm_compute. discriminate.
  - vm_compute. discriminate.
  - vm_compute. discriminate.
Defined.

(** X13: on Poshmark the fee jumps at the threshold: every sale price from
    15.00 to 15.04 has a fee of at least 3.00 and pays out at most 12.03,
    less than the 12.04 paid out at 14.99 (fee 2.95), and its profit is not
    higher. *)
Theorem poshmark_fee_cliff (q item_cost : Q) :
  15 <= q → q <= 15.04 →
  ∃ r1 r2,
    calculate_net_profit 14.99 "poshmark" item_cost = Ok r1
    ∧ calculate_net_profit q "poshmark" item_cost = Ok r2
    ∧ platform_fee r1 == 2.95
    ∧ 3 <= platform_fee r2
    ∧ net_payout r1 == 12.04
    ∧ net_payout r2 <= 12.03
    ∧ profit r2 <= profit r1.
Proof.
  intros H1 H2.
  assert (Hf1 : total_fee 14.99 "poshmark" = Ok 2.95) by (vm_compute; reflexivity).
  assert (Hf2 : total_fee q "poshmark" = Ok (q * 0.20)).
  { rewrite total_fee_poshmark.
    destruct (Qltb q 15.00) eqn:E; [|reflexivity]. apply Qltb_lt in E. lra. }
  destruct (calculate_net_profit_fee 14.99 "poshmark" item_cost _ Hf1)
    as (r1 & Hr1 & _ & Ep1 & Ep2 & Ep3 & _).
  destruct (calculate_net_profit_fee q "poshmark" item_cost _ Hf2)
    as (r2 & Hr2 & _ & Eq1 & Eq2 & Eq3 & _).
  exists r1, r2. split; [exact Hr1|]. split; [exact Hr2|].
  rewrite Ep1, Ep2, Ep3, Eq1, Eq2, Eq3.
  assert (R0 : py_round 2.95 2 == 2.95) by (vm_compute; reflexivity).
  assert (R1 : py_round (14.99 - 2.95) 2 == 12.04) by (vm_compute; reflexivity).
  assert (R2 : py_round 12.032 2 == 12.03) by (vm_compute; reflexivity).
  assert (R3 : py_round 3 2 == 3) by (vm_compute; reflexivity).
  split; [exact R0|].
  split; [rewrite <- R3; apply py_round_mono; lra|].
  split; [exact R1|].
  split; [rewrite <- R2; apply py_round_mono; lra|].
  apply py_round_mono, raw_profit_mono. lra.
Qed.

Lemma poshmark_fee_cliff_witness :
  ∃ r1 r2,
    calculate_net_profit 14.99 "poshmark" 5 = Ok r1
    ∧ calculate_net_profit 15 "poshmark" 5 = Ok r2
    ∧ platform_fee r1 == 2.95
    ∧ 3 <= platform_fee r2
    ∧ net_payout r1 == 12.04
    ∧ net_payout r2 <= 12.03
    ∧ profit r2 <= profit r1.
Proof.
  apply (poshmark_fee_cliff 15 5); vm_compute; discriminate.
Defined.

Lemma total_fee_four (sale_price : Q) :
  total_fee sale_price "poshmark"
    = Ok (if Qltb sale_price 15.00 then 2.95 else sale_price * 0.20)
  ∧ total_fee sale_price "depop" = Ok (sale_price * 0.10 + (sale_price * 0.029 + 0.30))
  ∧ total_fee sale_price "mercari" = Ok (sale_price * 0.10)
  ∧ total_fee sale_price "ebay" = Ok (sale_price * 0.1315).
Proof.
  split; [rewrite total_fee_poshmark; destruct (Qltb _ _); reflexivity|].
  split; [apply total_fee_depop|]. split; vm_compute; reflexivity.
Qed.

(** X14: for every sale price ≥ 0 and every item_cost, of the four
    platforms of the breakdown Poshmark has the lowest net_payout and
    profit and Mercari the highest, with Depop and eBay in between. *)
Theorem platform_payout_ranking (sale_price item_cost : Q) :
  0 <= sale_price →
  ∃ posh depop mercari ebay,
    calculate_net_profit sale_price "poshmark" item_cost = Ok posh
    ∧ calculate_net_profit sale_price "depop" item_cost = Ok depop
    ∧ calculate_net_profit sale_price "mercari" item_cost = Ok mercari
    ∧ calculate_net_profit sale_price "ebay" item_cost = Ok ebay
    ∧ net_payout posh <= net_payout depop ∧ net_payout depop <= net_payout mercari
    ∧ net_payout posh <= net_payout ebay ∧ net_payout ebay <= net_payout mercari
    ∧ profit posh <= profit depop ∧ profit depop <= profit mercari
    ∧ profit posh <= profit ebay ∧ profit ebay <= profit mercari.
Proof.
  intros Hp.
  destruct (total_fee_four sale_price) as (F1 & F2 & F3 & F4).
  destruct (calculate_net_profit_fee sale_price "poshmark" item_cost _ F1)
    as (r1 & Hr1 & _ & _ & N1 & P1 & _).
  destruct (calculate_net_profit_fee sale_price "depop" item_cost _ F2)
    as (r2 & Hr2 & _ & _ & N2 & P2 & _).
  destruct (calculate_net_profit_fee sale_price "mercari" item_cost _ F3)
    as (r3 & Hr3 & _ & _ & N3 & P3 & _).
  destruct (calculate_net_profit_fee sale_price "ebay" item_cost _ F4)
    as (r4 & Hr4 & _ & _ & N4 & P4 & _).
  exists r1, r2, r3, r4.
  split; [exact Hr1|]. split; [exact Hr2|]. split; [exact Hr3|]. split; [exact Hr4|].
  rewrite N1, N2, N3, N4, P1, P2, P3, P4.
  assert (L1 : sale_price - (if Qltb sale_price 15.00 then 2.95 else sale_price * 0.20)
               <= sale_price - (sale_price * 0.10 + (sale_price * 0.029 + 0.30))).
  { destruct (Qltb sale_price 15.00) eqn:E;
      [apply Qltb_lt in E | apply Qltb_ge in E]; lra. }
  assert (L2 : sale_price - (if Qltb sale_price 15.00 then 2.95 else sale_price * 0.20)
               <= sale_price - sale_price * 0.1315).
  { destruct (Qltb sale_price 15.00) eqn:E;
      [apply Qltb_lt in E | apply Qltb_ge in E]; lra. }
  assert (L3 : sale_price - (sale_price * 0.10 + (sale_price * 0.029 + 0.30))
               <= sale_price - sale_price * 0.10) by lra.
  assert (L4 : sale_price - sale_price * 0.1315 <= sale_price - sale_price * 0.10) by lra.
  split; [apply py_round_mono, L1|]. split; [apply py_round_mono, L3|].
  split; [apply py_round_mono, L2|]. split; [apply py_round_mono, L4|].
  split; [apply py_round_mono, raw_profit_mono, L1|].
  split; [apply py_round_mono, raw_profit_mono, L3|].
  split; [apply py_round_mono, raw_profit_mono, L2|].
  apply py_round_mono, raw_profit_mono, L4.
Qed.

Lemma platform_payout_ranking_witness :
  ∃ posh depop mercari ebay,
    calculate_net_profit 50 "poshmark" 20 = Ok posh
    ∧ calculate_net_profit 50 "depop" 20 = Ok depop
    ∧ calculate_net_profit 50 "mercari" 20 = Ok mercari
    ∧ calculate_net_profit 50 "ebay" 20 = Ok ebay
    ∧ net_payout posh <= net_payout depop ∧ net_payout depop <= net_payout mercari
    ∧ net_payout posh <= net_payout ebay ∧ net_payout ebay <= net_payout mercari
    ∧ profit posh <= profit depop ∧ profit depop <= profit mercari
    ∧ profit posh <= profit ebay ∧ profit ebay <= profit mercari.
Proof.
  apply (platform_payout_ranking 50 20). vm_compute. discriminate.
Defined.

Lemma py_round_cents_nonpos (x : Q) : x <= 0.005 → py_round x 2 <= 0.
Proof.
  intros H. assert (E : py_round 0.005 2 == 0) by (vm_compute; reflexivity).
  rewrite <- E. apply py_round_mono, H.
Qed.

(** The binary64 floor stays close to [item_cost * 1.1]. *)
Lemma cost_floor_upper (item_cost : Q) :
  0 <= item_cost → b64 (item_cost * b64 1.1) <= item_cost * 1.101 + 0.001.
Proof.
  intros Hc. pose proof (cost_floor_error item_cost Hc) as He.
  apply Qabs_Qle_condition in He. destruct He as [_ He].
  assert (H1 : pow2 (-51) <= 1 # 10000) by (apply Qle_bool_iff; vm_compute; reflexivity).
  assert (H2 : pow2 (-1075) <= 0.001) by (apply Qle_bool_iff; vm_compute; reflexivity).
  assert (H3 : item_cost * 1.1 * pow2 (-51) <= item_cost * 1.1 * (1 # 10000)).
  { pose proof (pow2_pos (-51)).
    apply Qmult_le_compat_nonneg; split; [apply Qmult_le_0_compat; lra | lra | lra | exact H1]. }
  generalize dependent (b64 (item_cost * b64 1.1)).
  generalize dependent (item_cost * 1.1 * pow2 (-51)).
  generalize dependent (pow2 (-1075)). intros; lra.
Qed.

(** A sale at or below the cost floor makes no profit on the four platforms
    of the breakdown. *)
Lemma no_profit_at_floor (sale_price item_cost : Q) (platform : string) :
  In platform ["poshmark"; "depop"; "mercari"; "ebay"] →
  0 < item_cost → sale_price <= b64 (item_cost * b64 1.1) →
  ∃ r, calculate_net_profit sale_price platform item_cost = Ok r ∧ profit r <= 0.
Proof.
  intros Hin Hc Hs.
  pose proof (cost_floor_upper item_cost (Qlt_le_weak _ _ Hc)) as Hfloor.
  destruct (total_fee_four sale_price) as (F1 & F2 & F3 & F4).
  assert (T : truthy item_cost = true) by (apply truthy_pos, Hc).
  destruct Hin as [<-|[<-|[<-|[<-|[]]]]].
  - destruct (calculate_net_profit_fee sale_price _ item_cost _ F1)
      as (r & Hr & _ & _ & _ & P & _).
    exists r. split; [exact Hr|]. rewrite P. apply py_round_cents_nonpos.
    unfold raw_profit. rewrite T.
    destruct (Qltb sale_price 15.00) eqn:E;
      [apply Qltb_lt in E | apply Qltb_ge in E]; lra.
  - destruct (calculate_net_profit_fee sale_price _ item_cost _ F2)
      as (r & Hr & _ & _ & _ & P & _).
    exists r. split; [exact Hr|]. rewrite P. apply py_round_cents_nonpos.
    unfold raw_profit. rewrite T. lra.
  - destruct (calculate_net_profit_fee sale_price _ item_cost _ F3)
      as (r & Hr & _ & _ & _ & P & _).
    exists r. split; [exact Hr|]. rewrite P. apply py_round_cents_nonpos.
    unfold raw_profit. rewrite T. lra.
  - destruct (calculate_net_profit_fee sale_price _ item_cost _ F4)
      as (r & Hr & _ & _ & _ & P & _).
    exists r. split; [exact Hr|]. rewrite P. apply py_round_cents_nonpos.
    unfold raw_profit. rewrite T. lra.
Qed.

Lemma generate_platforms (net : Marketplaces) (item_name brand_name grade : string)
    (retail_price : option Q) (item_cost : Q) (use_live_data : bool)
    (r : Recommendation) (out : list string) :
  generate_price_recommendation net item_name brand_name grade retail_price
    item_cost use_live_data = Ok (r, out) →
  platform_breakdown (estimates r) item_cost = Ok (platforms r).
Proof.
  unfold generate_price_recommendation, generate_price_recommendation_with.
  destruct (fetch_live net use_live_data (search_query item_name brand_name))
    as [real_prices printed].
  destruct (branch_tiers_with estimate_from_retail real_prices retail_price grade)
    as [[t src]|e]; cbn [mbind result_bind]; [|discriminate].
  destruct (platform_breakdown (apply_cost_floor item_cost t) item_cost) as [ps|e] eqn:E;
    cbn [mbind result_bind mret result_ret]; [|discriminate].
  intros [= <- <-]. cbn [estimates platforms]. exact E.
Qed.

(** X9: the engine never fails, and its platform table has exactly the
    rows poshmark, depop, mercari, ebay, in this order; each row holds the
    three breakdowns calculate_net_profit computes from the returned tiers
    and item_cost, and each breakdown's sale_price is its tier. *)
Theorem platform_table_complete (net : Marketplaces) (item_name brand_name grade : string)
    (retail_price : option Q) (item_cost : Q) (use_live_data : bool) :
  ∃ r out,
    generate_price_recommendation net item_name brand_name grade retail_price
      item_cost use_live_data = Ok (r, out)
    ∧ List.map fst (platforms r) = ["poshmark"; "depop"; "mercari"; "ebay"]
    ∧ ∀ platform pt, In (platform, pt) (platforms r) →
        breakdown_row (estimates r) item_cost platform pt
        ∧ pb_sale_price (pt_quick_sale pt) = quick_sale (estimates r)
        ∧ pb_sale_price (pt_fair_price pt) = fair_price (estimates r)
        ∧ pb_sale_price (pt_max_value pt) = max_value (estimates r).
Proof.
  destruct (generate_price_recommendation_ok net item_name brand_name grade retail_price
              item_cost use_live_data) as (r & out & _ & _ & Hr & _).
  exists r, out. split; [exact Hr|].
  destruct (platform_breakdown_rows _ _ _ (generate_platforms _ _ _ _ _ _ _ _ _ Hr))
    as [Hkeys Hrows].
  split; [exact Hkeys|].
  intros platform pt Hin. pose proof (Hrows platform pt Hin) as (Hq & Hf & Hm).
  split; [split; [|split]; assumption|].
  destruct (calculate_net_profit_ok (quick_sale (estimates r)) platform item_cost)
    as (q & Hq' & Eq).
  destruct (calculate_net_profit_ok (fair_price (estimates r)) platform item_cost)
    as (f & Hf' & Ef).
  destruct (calculate_net_profit_ok (max_value (estimates r)) platform item_cost)
    as (m & Hm' & Em).
  rewrite Hq in Hq'. rewrite Hf in Hf'. rewrite Hm in Hm'.
  injection Hq' as <-. injection Hf' as <-. injection Hm' as <-.
  split; [exact Eq|]. split; [exact Ef | exact Em].
Qed.

(** X10: with item_cost > 0 the returned quick_sale and fair_price are at
    least the floor item_cost * 1.1, and whenever one of them is the floor
    itself, the profit reported for it is zero or negative on each of the
    four platforms: the 10% margin of the floor does not cover any
    platform's fee. *)
Theorem cost_floor_makes_no_profit (net : Marketplaces)
    (item_name brand_name grade : string) (retail_price : option Q) (item_cost : Q)
    (use_live_data : bool) :
  0 < item_cost →
  ∃ r out,
    generate_price_recommendation net item_name brand_name grade retail_price
      item_cost use_live_data = Ok (r, out)
    ∧ b64 (item_cost * b64 1.1) <= quick_sale (estimates r)
    ∧ b64 (item_cost * b64 1.1) <= fair_price (estimates r)
    ∧ ∀ platform pt, In (platform, pt) (platforms r) →
        (quick_sale (estimates r) == b64 (item_cost * b64 1.1) →
         profit (pt_quick_sale pt) <= 0)
        ∧ (fair_price (estimates r) == b64 (item_cost * b64 1.1) →
           profit (pt_fair_price pt) <= 0).
Proof.
  intros Hc.
  destruct (generate_price_recommendation_ok net item_name brand_name grade retail_price
              item_cost use_live_data) as (r & out & t & src & Hr & _ & _ & _ & Hest).
  exists r, out. split; [exact Hr|].
  destruct (platform_breakdown_rows _ _ _ (generate_platforms _ _ _ _ _ _ _ _ _ Hr))
    as [Hkeys Hrows].
  assert (Hfloor : b64 (item_cost * b64 1.1) <= quick_sale (estimates r)
                   ∧ b64 (item_cost * b64 1.1) <= fair_price (estimates r)).
  { rewrite Hest. unfold apply_cost_floor, Binary64.mul. rewrite (truthy_pos _ Hc).
    cbn [quick_sale fair_price]. rewrite !py_max2_Qmax. split; apply Q.le_max_r. }
  split; [apply Hfloor|]. split; [apply Hfloor|].
  intros platform pt Hin.
  assert (Hp : In platform ["poshmark"; "depop"; "mercari"; "ebay"]).
  { rewrite <- Hkeys. apply (List.in_map fst _ _ Hin). }
  destruct (Hrows platform pt Hin) as (Hq & Hf & _).
  split; intros Hle.
  - destruct (no_profit_at_floor (quick_sale (estimates r)) item_cost platform Hp Hc)
      as (x & Hx & Hprofit); [rewrite Hle; apply Qle_refl|].
    rewrite Hq in Hx. injection Hx as <-. exact Hprofit.
  - destruct (no_profit_at_floor (fair_price (estimates r)) item_cost platform Hp Hc)
      as (x & Hx & Hprofit); [rewrite Hle; apply Qle_refl|].
    rewrite Hf in Hx. injection Hx as <-. exact Hprofit.
Qed.

Lemma cost_floor_makes_no_profit_witness :
  ∃ r out,
    generate_price_recommendation offline "boots" "Dr. Martens" "good" None
      50 false = Ok (r, out)
    ∧ b64 (50 * b64 1.1) <= quick_sale (estimates r)
    ∧ b64 (50 * b64 1.1) <= fair_price (estimates r)
    ∧ ∀ platform pt, In (platform, pt) (platforms r) →
        (quick_sale (estimates r) == b64 (50 * b64 1.1) →
         profit (pt_quick_sale pt) <= 0)
        ∧ (fair_price (estimates r) == b64 (50 * b64 1.1) →
           profit (pt_fair_price pt) <= 0).
Proof.
  apply (cost_floor_makes_no_profit offline "boots" "Dr. Martens" "good" None 50 false).
  reflexivity.
Defined.

(** At cost 50 the floored fair price loses 0.50 on Mercari and 6.00 on
    Poshmark. *)
Example floored_price_loses_money :
  ∃ r out mercari posh,
    generate_price_recommendation offline "boots" "" "good" None 50 false = Ok (r, out)
    ∧ fair_price (estimates r) == b64 (50 * b64 1.1)
    ∧ alist_getitem (platforms r) "mercari" = Ok mercari
    ∧ alist_getitem (platforms r) "poshmark" = Ok posh
    ∧ profit (pt_fair_price mercari) == -0.5
    ∧ profit (pt_fair_price posh) == -6.
Proof.
  eexists _, _, _, _. split; [vm_compute; reflexivity|].
  split; [vm_compute; reflexivity|]. split; [vm_compute; reflexivity|].
  split; [vm_compute; reflexivity|]. split; vm_compute; reflexivity.
Qed.

Lemma py_max2_mono (a b m : Q) : a <= b → py_max2 a m <= py_max2 b m.
Proof.
  intros H. rewrite !py_max2_Qmax. apply Q.max_le_compat_r, H.
Qed.

Lemma fetch_live_scraped (web : Pages) (query : string) :
  ∃ real_prices,
    fetch_live (scraped web) true query = (real_prices, [])
    ∧ summarize (scraped_listings web query) = Ok real_prices
    ∧ match real_prices with
      | Some s => usable_summary real_prices = Some s ∧ ordered (summary_tiers s)
      | None => (length (scraped_listings web query) < 3)%nat
      end.
Proof.
  unfold fetch_live. rewrite get_real_market_prices_scraped.
  destruct (Nat.ltb_spec (length (scraped_listings web query)) 3) as [Hfew|Hlen].
  - exists None. rewrite (summarize_few _ Hfew). repeat split. exact Hfew.
  - destruct (summarize_in_range 1 5000 (scraped_listings web query)) as
      (s & Hs & H1 & _ & _ & _ & _ & _ & _ & _ & _ & _ & H11 & H12 & _).
    { reflexivity. }
    { exact Hlen. }
    { apply scraped_listings_in_range. }
    exists (Some s). rewrite Hs. split; [reflexivity|]. split; [reflexivity|].
    split; [|split; assumption].
    unfold usable_summary. apply Nat.leb_le in H1. rewrite H1. reflexivity.
Qed.


Lemma branch_tiers_ordered (real_prices : option MarketSummary)
    (retail_price : option Q) (grade : string) (t : Tiers) (src : string) :
  (∀ s, usable_summary real_prices = Some s → ordered (summary_tiers s)) →
  (∀ p, retail_price = Some p → 0 <= p) →
  branch_tiers real_prices retail_price grade = Ok (t, src) →
  ordered t.
Proof.
  intros Hlive Hretail. unfold branch_tiers, branch_tiers_with.
  destruct (usable_summary real_prices) as [s|].
  { intros [= <- <-]. apply (Hlive s). reflexivity. }
  unfold usable_retail. destruct retail_price as [p|].
  - destruct (truthy p).
    + pose proof (multipliers_le grade) as Hle.
      pose proof (multipliers_pos grade) as [Hlo Hhi].
      pose proof (Hretail p eq_refl) as Hp.
      rewrite estimate_from_retail_eq. cbn.
      intros [= <- <-]. unfold ordered. cbn [quick_sale fair_price max_value].
      set (m := dict_get multipliers grade (0.30, 0.50)) in *. clearbody m.
      assert (Hd : 0 <= p * (snd m - fst m)) by (apply Qmult_le_0_compat; lra).
      split; apply py_round_mono.
      * assert (E : p * (fst m + snd m) / 2
                    == p * fst m + p * (snd m - fst m) * (1 # 2)) by field.
        rewrite E. clear E. generalize dependent (p * (snd m - fst m)).
        generalize (p * fst m). intros; lra.
      * assert (E : p * (fst m + snd m) / 2
                    == p * snd m - p * (snd m - fst m) * (1 # 2)) by field.
        rewrite E. clear E. generalize dependent (p * (snd m - fst m)).
        generalize (p * snd m). intros; lra.
    + intros [= <- <-]. split; cbn; lra.
  - intros [= <- <-]. split; cbn; lra.
Qed.

Lemma apply_cost_floor_ordered (item_cost : Q) (t : Tiers) :
  ordered t →
  quick_sale (apply_cost_floor item_cost t) <= fair_price (apply_cost_floor item_cost t)
  ∧ (fair_price (apply_cost_floor item_cost t) <= max_value (apply_cost_floor item_cost t)
     ∨ fair_price (apply_cost_floor item_cost t) == b64 (item_cost * b64 1.1)).
Proof.
  intros [H1 H2]. unfold apply_cost_floor. destruct (truthy item_cost).
  - cbn [quick_sale fair_price max_value]. split; [apply py_max2_mono, H1|].
    unfold py_max2, Binary64.mul. destruct (Qltb (fair_price t) (b64 (item_cost * b64 1.1)));
      [right; reflexivity | left; exact H2].
  - split; [exact H1 | left; exact H2].
Qed.

(** The tiers the engine returns for scraped pages are in order, up to the
    cost floor. *)
Lemma scraped_tiers_ordered (web : Pages) (item_name brand_name grade : string)
    (retail_price : option Q) (item_cost : Q) (use_live_data : bool)
    (r : Recommendation) (out : list string) :
  (∀ p, retail_price = Some p → 0 <= p) →
  generate_price_recommendation (scraped web) item_name brand_name grade retail_price
    item_cost use_live_data = Ok (r, out) →
  quick_sale (estimates r) <= fair_price (estimates r)
  ∧ (fair_price (estimates r) <= max_value (estimates r)
     ∨ fair_price (estimates r) == b64 (item_cost * b64 1.1)).
Proof.
  intros Hretail Hr.
  destruct (generate_price_recommendation_ok (scraped web) item_name brand_name grade
              retail_price item_cost use_live_data)
    as (r' & out' & t & src & Hr' & Hb & _ & _ & Hest).
  rewrite Hr in Hr'. injection Hr' as <- <-. rewrite Hest.
  apply apply_cost_floor_ordered.
  refine (branch_tiers_ordered _ retail_price grade t src _ Hretail Hb).
  clear Hr Hb. destruct use_live_data; [|intros s; rewrite fetch_live_disabled; discriminate].
  destruct (fetch_live_scraped web (search_query item_name brand_name))
    as (real_prices & Hfetch & _ & Hreal).
  rewrite Hfetch. cbn [fst]. destruct real_prices as [s'|]; [|discriminate].
  destruct Hreal as [Hus Hord]. rewrite Hus. intros s [= <-]. exact Hord.
Qed.

(** X7: with the four scrapers as the source and a retail price that is
    absent or not negative, the returned tiers satisfy quick_sale ≤
    fair_price, and fair_price ≤ max_value unless fair_price is the cost
    floor. *)
Theorem recommended_tiers_ordered (web : Pages) (item_name brand_name grade : string)
    (retail_price : option Q) (item_cost : Q) (use_live_data : bool) :
  (∀ p, retail_price = Some p → 0 <= p) →
  ∃ r out,
    generate_price_recommendation (scraped web) item_name brand_name grade retail_price
      item_cost use_live_data = Ok (r, out)
    ∧ quick_sale (estimates r) <= fair_price (estimates r)
    ∧ (fair_price (estimates r) <= max_value (estimates r)
       ∨ fair_price (estimates r) == b64 (item_cost * b64 1.1)).
Proof.
  intros Hretail.
  destruct (generate_price_recommendation_ok (scraped web) item_name brand_name grade
              retail_price item_cost use_live_data) as (r & out & _ & _ & Hr & _).
  exists r, out. split; [exact Hr|].
  apply (scraped_tiers_ordered _ _ _ _ _ _ _ _ _ Hretail Hr).
Qed.

Lemma recommended_tiers_ordered_witness :
  ∃ r out,
    generate_price_recommendation (scraped four_sold) "boots" "Dr. Martens" "good"
      (Some 200) 50 true = Ok (r, out)
    ∧ quick_sale (estimates r) <= fair_price (estimates r)
    ∧ (fair_price (estimates r) <= max_value (estimates r)
       ∨ fair_price (estimates r) == b64 (50 * b64 1.1)).
Proof.
  apply (recommended_tiers_ordered four_sold "boots" "Dr. Martens" "good" (Some 200) 50 true).
  intros p H. injection H as <-. vm_compute. discriminate.
Defined.

(** With a negative retail price the tiers come out in descending order. *)
Example negative_retail_reverses_tiers :
  ∃ r out,
    generate_price_recommendation (scraped four_sold) "boots" "" "good" (Some (-100)) 0 false
      = Ok (r, out)
    ∧ fair_price (estimates r) < quick_sale (estimates r).
Proof. eexists _, _. split; [vm_compute; reflexivity | reflexivity]. Qed.

(** X8: with use_live_data false no scraper is consulted: the result is the
    same for every network, nothing is printed, market_data is none and
    the tag is that of the retail or default branch. *)
Theorem no_scraping_without_live_data (net net' : Marketplaces)
    (item_name brand_name grade : string) (retail_price : option Q) (item_cost : Q) :
  generate_price_recommendation net item_name brand_name grade retail_price item_cost false
  = generate_price_recommendation net' item_name brand_name grade retail_price item_cost false
  ∧ ∃ r,
      generate_price_recommendation net item_name brand_name grade retail_price
        item_cost false = Ok (r, [])
      ∧ market_data r = None
      ∧ (data_source r = "estimated from retail" ∨ data_source r = "default estimate").
Proof.
  split; [reflexivity|].
  destruct (branch_tiers_ok None retail_price grade) as (t & src & Hb & Htag).
  destruct (generate_of_branch estimate_from_retail net item_name brand_name grade
              retail_price item_cost false t src Hb) as (r & Hr & Hsrc & Hmd & _).
  exists r. split; [exact Hr|]. split; [exact Hmd|].
  rewrite Hsrc. apply Htag. reflexivity.
Qed.

(** ** The price-check endpoint *)

Lemma alist_getitem_In {V} (d : list (string * V)) (k : string) (v : V) :
  alist_getitem d k = Ok v → In (k, v) d.
Proof.
  induction d as [|[k' v'] d IH]; cbn [alist_getitem]; [discriminate|].
  destruct (String.eqb_spec k' k) as [->|N].
  - intros [= <-]. left. reflexivity.
  - intros H. right. apply IH, H.
Qed.

Lemma price_check_rows (ps : list (string * PlatformTiers)) :
  List.map fst ps = ["poshmark"; "depop"; "mercari"; "ebay"] →
  ∃ rows,
    mapM (fun platform =>
            pt ← alist_getitem ps platform;
            mret (platform,
                  {| pe_low := net_payout (pt_quick_sale pt);
                     pe_high := net_payout (pt_max_value pt);
                     pe_avg := net_payout (pt_fair_price pt);
                     pe_profit := profit (pt_fair_price pt) |}))
         ["poshmark"; "depop"; "mercari"; "ebay"] = Ok rows
    ∧ List.map fst rows = ["poshmark"; "depop"; "mercari"; "ebay"]
    ∧ ∀ platform pe, In (platform, pe) rows →
        ∃ pt, In (platform, pt) ps
            ∧ pe_low pe = net_payout (pt_quick_sale pt)
            ∧ pe_avg pe = net_payout (pt_fair_price pt)
            ∧ pe_high pe = net_payout (pt_max_value pt)
            ∧ pe_profit pe = profit (pt_fair_price pt).
Proof.
  intros Hkeys.
  destruct ps as [|[k1 p1] [|[k2 p2] [|[k3 p3] [|[k4 p4] [|? ?]]]]]; try discriminate.
  cbn in Hkeys. injection Hkeys as -> -> -> ->.
  eexists. split; [reflexivity|]. split; [reflexivity|].
  intros platform pe [E|[E|[E|[E|[]]]]]; injection E as <- <-;
    eexists; (split; [|repeat split]); cbn; auto.
Qed.

(** The response, given the engine's recommendation. *)
Lemma price_check_of_recommendation (net : Marketplaces) (query brand_name grade : string)
    (retail_price : option Q) (item_cost : Q) (r : Recommendation) (out : list string) :
  generate_price_recommendation net query brand_name grade retail_price item_cost true
    = Ok (r, out) →
  ∃ resp,
    price_check net query brand_name grade retail_price item_cost = Ok (resp, out)
    ∧ resp_query resp = query
    ∧ resp_recommendation resp = estimates r
    ∧ resp_tip resp = recommendation r
    ∧ List.map fst (resp_estimates resp) = ["poshmark"; "depop"; "mercari"; "ebay"]
    ∧ ∀ platform pe, In (platform, pe) (resp_estimates resp) →
        ∃ q f m,
          calculate_net_profit (quick_sale (estimates r)) platform item_cost = Ok q
          ∧ calculate_net_profit (fair_price (estimates r)) platform item_cost = Ok f
          ∧ calculate_net_profit (max_value (estimates r)) platform item_cost = Ok m
          ∧ pe_low pe = net_payout q ∧ pe_avg pe = net_payout f
          ∧ pe_high pe = net_payout m ∧ pe_profit pe = profit f.
Proof.
  intros Hr.
  destruct (platform_breakdown_rows _ _ _ (generate_platforms _ _ _ _ _ _ _ _ _ Hr))
    as [Hkeys Hrows].
  destruct (price_check_rows (platforms r) Hkeys) as (rows & Hmap & Hrk & Hrv).
  eexists. split.
  { unfold price_check. rewrite Hr. cbn [mbind result_bind].
    rewrite Hmap. reflexivity. }
  cbn [resp_query resp_recommendation resp_tip resp_estimates].
  split; [reflexivity|]. split; [reflexivity|]. split; [reflexivity|].
  split; [exact Hrk|].
  intros platform pe Hin.
  destruct (Hrv platform pe Hin) as (pt & Hpt & E1 & E2 & E3 & E4).
  destruct (Hrows platform pt Hpt) as (Hq & Hf & Hm).
  exists (pt_quick_sale pt), (pt_fair_price pt), (pt_max_value pt).
  repeat (split; [assumption|]). assumption.
Qed.


(** X16: in the price-check response, with the four scrapers as the source
    and a retail price that is absent or not negative, low ≤ avg for depop,
    mercari and ebay. *)
Theorem price_check_low_le_avg (web : Pages) (query brand_name grade : string)
    (retail_price : option Q) (item_cost : Q) :
  (∀ p, retail_price = Some p → 0 <= p) →
  ∃ resp out,
    price_check (scraped web) query brand_name grade retail_price item_cost
      = Ok (resp, out)
    ∧ ∀ platform pe, In (platform, pe) (resp_estimates resp) →
        platform ≠ "poshmark" → pe_low pe <= pe_avg pe.
Proof.
  intros Hretail.
  destruct (generate_price_recommendation_ok (scraped web) query brand_name grade
              retail_price item_cost true) as (r & out & _ & _ & Hr & _).
  destruct (price_check_of_recommendation _ _ _ _ _ _ _ _ Hr)
    as (resp & Hresp & _ & _ & _ & _ & Hrows).
  destruct (scraped_tiers_ordered _ _ _ _ _ _ _ _ _ Hretail Hr) as [Hord _].
  exists resp, out. split; [exact Hresp|].
  intros platform pe Hin Hnp.
  destruct (Hrows platform pe Hin) as (q & f & m & Hq & Hf & _ & -> & -> & _).
  destruct (total_fee_mono platform _ _ Hnp Hord) as (fp & fq & Hfp & Hfq & _ & Hn).
  destruct (calculate_net_profit_fee _ platform item_cost fp Hfp)
    as (rp & Hrp & _ & _ & Ep & _).
  destruct (calculate_net_profit_fee _ platform item_cost fq Hfq)
    as (rq & Hrq & _ & _ & Eq & _).
  rewrite Hq in Hrp. rewrite Hf in Hrq. injection Hrp as <-. injection Hrq as <-.
  rewrite Ep, Eq. apply py_round_mono, Hn.
Qed.

Lemma price_check_low_le_avg_witness :
  ∃ resp out,
    price_check (scraped four_sold) "boots" "Dr. Martens" "good" (Some 200) 50
      = Ok (resp, out)
    ∧ ∀ platform pe, In (platform, pe) (resp_estimates resp) →
        platform ≠ "poshmark" → pe_low pe <= pe_avg pe.
Proof.
  apply (price_check_low_le_avg four_sold "boots" "Dr. Martens" "good" (Some 200) 50).
  intros p H. injection H as <-. vm_compute. discriminate.
Defined.

(** On Poshmark the quick-sale payout can exceed the fair-price payout: with
    cost 13.60 and retail 37.50 the quick-sale tier is the floor, just under
    the fee threshold, and the fair price is 15, on it. *)
Example poshmark_low_above_avg :
  ∃ resp out posh,
    price_check offline "boots" "" "good" (Some 37.5) (b64 13.6) = Ok (resp, out)
    ∧ quick_sale (resp_recommendation resp) == b64 (b64 13.6 * b64 1.1)
    ∧ quick_sale (resp_recommendation resp) < 15
    ∧ fair_price (resp_recommendation resp) == 15
    ∧ alist_getitem (resp_estimates resp) "poshmark" = Ok posh
    ∧ pe_low posh == 12.01
    ∧ pe_avg posh == 12
    ∧ pe_avg posh < pe_low posh.
Proof.
  eexists _, _, _. split; [vm_compute; reflexivity|].
  split; [vm_compute; reflexivity|]. split; [vm_compute; reflexivity|].
  split; [vm_compute; reflexivity|]. split; [vm_compute; reflexivity|].
  split; [vm_compute; reflexivity|]. split; vm_compute; reflexivity.
Qed.

Lemma hex_digit_safe (n : nat) : (n < 16)%nat → always_safe (hex_digit n) = true.
Proof.
  intros H. do 16 (destruct n as [|n]; [reflexivity|]). lia.
Qed.

Lemma quote_byte_safe (c : ascii) :
  Forall (fun x => url_safe x = true) (String.list_ascii_of_string (quote_byte c)).
Proof.
  unfold quote_byte. destruct (always_safe c || Ascii.eqb c "/") eqn:E.
  - repeat constructor. unfold url_safe. rewrite E. reflexivity.
  - pose proof (nat_ascii_bounded c) as Hc.
    assert (H1 : (nat_of_ascii c / 16 < 16)%nat).
    { apply Nat.Div0.div_lt_upper_bound. lia. }
    assert (H2 : (nat_of_ascii c mod 16 < 16)%nat) by (apply Nat.mod_upper_bound; lia).
    cbn [String.list_ascii_of_string].
    constructor; [reflexivity|].
    constructor; [unfold url_safe; rewrite (hex_digit_safe _ H1); reflexivity|].
    constructor; [unfold url_safe; rewrite (hex_digit_safe _ H2); reflexivity|].
    constructor.
Qed.

Lemma list_ascii_app (s t : string) :
  String.list_ascii_of_string (s +:+ t)
  = String.list_ascii_of_string s ++ String.list_ascii_of_string t.
Proof.
  induction s as [|c s IH]; [reflexivity|].
  change (String c s +:+ t) with (String c (s +:+ t)).
  cbn [String.list_ascii_of_string app]. f_equal. exact IH.
Qed.

Lemma quote_byte_length (c : ascii) :
  (1 <= String.length (quote_byte c) <= 3)%nat.
Proof.
  unfold quote_byte. destruct (always_safe c || Ascii.eqb c "/"); cbn; lia.
Qed.

Lemma string_length_app (s t : string) :
  String.length (s +:+ t) = (String.length s + String.length t)%nat.
Proof.
  induction s as [|c s IH]; [reflexivity|].
  change (String c s +:+ t) with (String c (s +:+ t)).
  cbn [String.length Nat.add]. f_equal. exact IH.
Qed.

(** X17: the query as the scrapers put it into their search URLs
    (urllib.parse.quote) contains only letters, digits, '_', '.', '-', '~',
    '/' and '%': no space, '&', '=', '?' or '#' of the query reaches the
    URL; the quoted text has between 1 and 3 characters per byte of the
    query, and a query of letters, digits, '_', '.', '-', '~' is left as it
    is. *)
Theorem quoted_query_is_url_safe (query : string) :
  Forall (fun c => url_safe c = true) (String.list_ascii_of_string (quote query))
  ∧ (String.length query <= String.length (quote query))%nat
  ∧ (String.length (quote query) <= 3 * String.length query)%nat
  ∧ (Forall (fun c => always_safe c = true) (String.list_ascii_of_string query) →
     quote query = query).
Proof.
  induction query as [|c s (IH1 & IH2 & IH3 & IH4)].
  - split; [constructor|]. split; [cbn; lia|]. split; [cbn; lia | reflexivity].
  - cbn [quote]. rewrite list_ascii_app, string_length_app.
    pose proof (quote_byte_length c) as Hc. cbn [String.length].
    split; [apply Forall_app; split; [apply quote_byte_safe | exact IH1]|].
    split; [lia|]. split; [lia|].
    cbn [String.list_ascii_of_string]. intros Hall.
    apply Forall_cons_1 in Hall as [Hc' Hs].
    unfold quote_byte. rewrite Hc'. cbn. f_equal. apply IH4, Hs.
Qed.

Lemma quoted_query_is_url_safe_witness :
  Forall (fun c => url_safe c = true) (String.list_ascii_of_string (quote "levis_501"))
  ∧ (String.length "levis_501" <= String.length (quote "levis_501"))%nat
  ∧ (String.length (quote "levis_501") <= 3 * String.length "levis_501")%nat
  ∧ (Forall (fun c => always_safe c = true) (String.list_ascii_of_string "levis_501") →
     quote "levis_501" = "levis_501").
Proof.
  apply (quoted_query_is_url_safe "levis_501").
Defined.

(** *** Sorting *)

Lemma insert_sorted_Forall (P : Q → Prop) (x : Q) (l : list Q) :
  P x → Forall P l → Forall P (insert_sorted x l).
Proof.
  intros Hx Hl. induction Hl as [|y l Hy Hl IH]; cbn [insert_sorted].
  - repeat constructor. exact Hx.
  - destruct (Qle_bool x y); repeat constructor; assumption.
Qed.

Lemma insert_sorted_sorted (x : Q) (l : list Q) :
  StronglySorted Qle l → StronglySorted Qle (insert_sorted x l).
Proof.
  intros Hl. induction Hl as [|y l Hl IH Hy]; cbn [insert_sorted].
  - repeat constructor.
  - destruct (Qle_bool x y) eqn:E.
    + apply Qle_bool_iff in E. constructor; [constructor; assumption|].
      constructor; [exact E|].
      eapply Forall_impl; [exact Hy|]. intros z Hz. cbn in Hz. lra.
    + assert (Hyx : y <= x).
      { destruct (Qlt_le_dec y x) as [H|H]; [lra|].
        apply Qle_bool_iff in H. congruence. }
      constructor; [exact IH|]. apply insert_sorted_Forall; assumption.
Qed.

Lemma sorted_sorted (l : list Q) : StronglySorted Qle (sorted l).
Proof.
  induction l as [|x l IH]; cbn; [constructor | apply insert_sorted_sorted, IH].
Qed.

Lemma lookup_In (l : list Q) (i : nat) (x : Q) : l !! i = Some x → In x l.
Proof.
  revert i. induction l as [|y l IH]; intros [|i] H; try discriminate.
  - injection H as <-. left. reflexivity.
  - right. apply (IH i), H.
Qed.

Lemma StronglySorted_lookup (l : list Q) :
  StronglySorted Qle l →
  ∀ i j a b, (i <= j)%nat → l !! i = Some a → l !! j = Some b → a <= b.
Proof.
  intros Hl. induction Hl as [|x l Hl IH Hx]; intros i j a b Hij Ha Hb.
  - discriminate.
  - destruct i as [|i], j as [|j]; cbn in Ha, Hb.
    + injection Ha as <-. injection Hb as <-. lra.
    + injection Ha as <-. rewrite List.Forall_forall in Hx. apply Hx.
      eapply lookup_In, Hb.
    + lia.
    + apply (IH i j); [lia | assumption..].
Qed.

Lemma py_int_three_quarters (n : nat) :
  Z.to_nat (py_int (inject_Z (Z.of_nat n) * 0.75)) = (n * 3 / 4)%nat.
Proof.
  unfold py_int.
  assert (H0 : Qltb (inject_Z (Z.of_nat n) * 0.75) 0 = false).
  { apply Qltb_ge. apply Qmult_le_0_compat; [|lra].
    change 0 with (inject_Z 0). rewrite <- Zle_Qle. lia. }
  rewrite H0. unfold Qfloor, Qmult, inject_Z. cbn [Qnum Qden].
  change (Z.pos (1 * 100)) with 100%Z.
  apply Nat2Z.inj. rewrite Z2Nat.id by (apply Z.div_pos; lia).
  rewrite Nat2Z.inj_div, Nat2Z.inj_mul.
  change (Z.of_nat 3) with 3%Z. change (Z.of_nat 4) with 4%Z.
  replace (Z.of_nat n * 75)%Z with (Z.of_nat n * 3 * 25)%Z by lia.
  change 100%Z with (4 * 25)%Z. apply Z.div_mul_cancel_r; lia.
Qed.

(** X18: analyze_prices returns nothing when both scrapers found nothing,
    and otherwise never fails (no index out of range): min, max and both
    ends of the suggested range are prices of the listings, and min ≤
    range low ≤ range high ≤ max. *)
Theorem analyze_prices_range (ebay_results posh_results : list SoldListing)
    (query : string) :
  analyze_prices [] [] query = Ok None
  ∧ (ebay_results ++ posh_results ≠ [] →
     ∃ a, analyze_prices ebay_results posh_results query = Ok (Some a)
        ∧ pa_listings a = ebay_results ++ posh_results
        ∧ In (min_price a) (List.map price (pa_listings a))
        ∧ In (max_price a) (List.map price (pa_listings a))
        ∧ In (fst (suggested_range a)) (List.map price (pa_listings a))
        ∧ In (snd (suggested_range a)) (List.map price (pa_listings a))
        ∧ min_price a <= fst (suggested_range a)
        ∧ fst (suggested_range a) <= snd (suggested_range a)
        ∧ snd (suggested_range a) <= max_price a).
Proof.
  split; [reflexivity|].
  intros Hne. unfold analyze_prices.
  destruct (ebay_results ++ posh_results) as [|l0 rest]; [contradiction|].
  set (prices := List.map price (l0 :: rest)).
  assert (Hp : prices ≠ []) by discriminate.
  assert (Hn : (0 < length prices)%nat) by (cbn; lia).
  destruct (Binary64_median_ok prices Hp) as (med & Hmed).
  destruct (py_min_ok prices Hp) as (mn & Hmn & Hmnin & Hmnle).
  destruct (py_max_ok prices Hp) as (mx & Hmx & Hmxin & Hmxle).
  pose proof (sorted_length prices) as Hlen.
  destruct (getindex_ok (sorted prices) (length (sorted prices) / 10)) as (lo & Hlo & Hloin).
  { rewrite Hlen. apply Nat.div_lt; lia. }
  destruct (getindex_ok (sorted prices)
              (Z.to_nat (py_int (Qlen (sorted prices) * 0.75)))) as (hi & Hhi & Hhiin).
  { unfold Qlen. rewrite py_int_three_quarters, Hlen.
    apply Nat.Div0.div_lt_upper_bound. lia. }
  rewrite (Binary64_mean_ok prices Hp), Hmed, Hmn, Hmx. cbn [mbind result_bind].
  rewrite Hlo. cbn [mbind result_bind]. rewrite Hhi. cbn [mbind result_bind].
  eexists. split; [reflexivity|].
  cbn [pa_listings min_price max_price avg_price median_price suggested_price
       suggested_range fst snd].
  fold prices.
  pose proof (proj1 (sorted_In _ _) Hloin) as Hloin'.
  pose proof (proj1 (sorted_In _ _) Hhiin) as Hhiin'.
  split; [reflexivity|].
  split; [exact Hmnin|]. split; [exact Hmxin|].
  split; [exact Hloin'|]. split; [exact Hhiin'|].
  split; [apply Hmnle, Hloin'|].
  split; [|apply Hmxle, Hhiin'].
  unfold getindex in Hlo, Hhi.
  destruct (sorted prices !! (length (sorted prices) / 10)%nat) as [lo'|] eqn:E1;
    [|discriminate].
  destruct (sorted prices !! Z.to_nat (py_int (Qlen (sorted prices) * 0.75)))
    as [hi'|] eqn:E2; [|discriminate].
  injection Hlo as <-. injection Hhi as <-.
  refine (StronglySorted_lookup _ (sorted_sorted prices) _ _ _ _ _ E1 E2).
  unfold Qlen. rewrite py_int_three_quarters.
  apply Nat.div_le_lower_bound; [lia|].
  pose proof (Nat.Div0.mul_div_le (length (sorted prices)) 10). lia.
Qed.

Lemma analyze_prices_range_witness :
  analyze_prices [] [] "boots" = Ok None
  ∧ ([listing "eBay" 40; listing "eBay" 45] ++ [listing "Poshmark" 30] ≠ [] →
     ∃ a, analyze_prices [listing "eBay" 40; listing "eBay" 45] [listing "Poshmark" 30]
            "boots" = Ok (Some a)
        ∧ pa_listings a = [listing "eBay" 40; listing "eBay" 45] ++ [listing "Poshmark" 30]
        ∧ In (min_price a) (List.map price (pa_listings a))
        ∧ In (max_price a) (List.map price (pa_listings a))
        ∧ In (fst (suggested_range a)) (List.map price (pa_listings a))
        ∧ In (snd (suggested_range a)) (List.map price (pa_listings a))
        ∧ min_price a <= fst (suggested_range a)
        ∧ fst (suggested_range a) <= snd (suggested_range a)
        ∧ snd (suggested_range a) <= max_price a).
Proof.
  apply (analyze_prices_range [listing "eBay" 40; listing "eBay" 45]
           [listing "Poshmark" 30] "boots").
Defined.

(** Three listings at 30, 40 and 45: the suggested range is 30 to 45. *)
Example analyze_three :
  ∃ a, analyze_prices [listing "eBay" 40; listing "eBay" 45] [listing "Poshmark" 30]
         "boots" = Ok (Some a)
     ∧ suggested_range a = (30, 45)
     ∧ median_price a = 40.
Proof. eexists. split; [vm_compute; reflexivity|]. split; reflexivity. Qed.

(** X5: with every operation rounded to binary64, the aggregator on the
    listings of the four scrapers still keeps at least 3 prices whenever at
    least 3 were scraped: the rounding of the threshold cannot make the
    filter drop a third of at most 60 prices between 1 and 5000, the
    fallback to the unfiltered list is not taken, and min and max stay
    strictly between 1 and 5000. *)
Theorem binary64_scraped_summary (web : Pages) (query : string) :
  ∃ r, Binary64.summarize (scraped_listings web query) = Ok r
     ∧ match r with
       | None => (length (scraped_listings web query) < 3)%nat
       | Some s =>
           (3 <= ms_count s)%nat
           ∧ (ms_count s <= length (scraped_listings web query))%nat
           ∧ (length (scraped_listings web query) <= 60)%nat
           ∧ 1 < ms_min s ∧ ms_min s <= ms_max s ∧ ms_max s < 5000
           ∧ usable_summary (Some s) = Some s
       end.
Proof.
  destruct (Nat.ltb_spec (length (scraped_listings web query)) 3) as [Hfew|Hlen].
  - exists None. split; [|exact Hfew]. unfold Binary64.summarize.
    destruct (Nat.ltb_spec (length (scraped_listings web query)) 3); [reflexivity | lia].
  - pose proof (scraped_listings_length web query) as Hmax.
    destruct (Binary64_summarize_some _ Hlen)
      as (med & mn & mx & _ & _ & Hmn & _ & _ & Hmx & Hmxle & Hs).
    cbv zeta in *.
    set (prices := List.map price (scraped_listings web query)) in *.
    assert (Hp : ∀ p, In p prices → 1 < p ∧ p < 5000).
    { intros p Hp. apply List.in_map_iff in Hp as (l & <- & Hl).
      apply (scraped_listings_in_range web query l Hl). }
    destruct (Binary64_filter_outliers_keeps_three prices) as (E & Hc1 & Hc2).
    { subst prices. rewrite length_map. exact Hlen. }
    { exact Hp. }
    { subst prices. rewrite length_map. lia. }
    cbv zeta in E, Hc1, Hc2.
    set (kept := Binary64.filter_outliers (b64 (Qsum prices / Qlen prices)) prices) in *.
    assert (Hk : ∀ p, In p kept → 1 < p ∧ p < 5000).
    { intros p Hin. apply Hp. subst kept. rewrite E in Hin.
      apply Binary64_outlier_pass_In in Hin. apply Hin. }
    eexists. split; [exact Hs|].
    cbn [ms_count ms_min ms_max].
    split; [exact Hc1|].
    split; [subst prices; rewrite length_map in Hc2; exact Hc2|].
    split; [exact Hmax|].
    split; [apply (Hk mn Hmn)|]. split; [apply Hmxle, Hmn|].
    split; [apply (Hk mx Hmx)|].
    unfold usable_summary. cbn [ms_count]. apply Nat.leb_le in Hc1. rewrite Hc1.
    reflexivity.
Qed.
